(** * The auction ledger of the Legend-Auc bot (auc.py)

    A shallow embedding of the store operations of [auc.py] on the tables
    [auctions], [bids] and [submissions] of auctions.db, and of the two
    command handlers that drive them, followed by the properties of the
    ledger.

    Conventions of the embedding:
    - a table is the list of its rows in rowid order; an [INSERT] appends;
    - an [INTEGER PRIMARY KEY AUTOINCREMENT] column takes one more than the
      largest rowid of the table (no row of [auctions] or [bids] is ever
      deleted, so this is also the largest rowid that ever existed; /cleanup,
      which deletes old rejected rows of [submissions], is not part of the
      embedding);
    - a nullable column is an [option];
    - amounts are doubles in the code ([REAL] columns, [float(...)] of the
      message text). The embedding has the whole numbers among them, as [Z]:
      on whole numbers of magnitude up to 2^53 the sums and comparisons of
      doubles are exact, and are those of [Z]. Beyond, the sum
      [current_amount + increment] of [handle_bid_amount] is rounded: the
      test is embedded on its own, on binary64, as [bid_below_min_binary64],
      is proved to be the test on [Z] up to the bound
      ([bid_below_min_binary64_whole]), and the statements that depend on
      exact sums carry the bound as a hypothesis. Fractions, infinities and
      NaN are outside the embedding;
    - [CURRENT_TIMESTAMP] is an explicit argument [now] (seconds), the
      reading of the store's clock when the row is inserted;
    - a Python function that can raise returns a [result]. *)

From Stdlib Require Import ZArith List String Ascii Bool Lia Permutation Sorted.
From Stdlib Require SpecFloat.
Import ListNotations.
Local Open Scope Z_scope.
#[local] Set Warnings "-register-all".

(** ** Python values the code branches on *)

Inductive exn : Type :=
| ValueError (msg : string).

Inductive result (A : Type) : Type :=
| Return (a : A)
| Raise (e : exn).
Arguments Return {A} a.
Arguments Raise {A} e.

(** What [json.loads] gives back. *)
Inductive json : Type :=
| JNull
| JBool (b : bool)
| JNum (n : Z)
| JStr (s : string)
| JArr (items : list json)
| JObj (fields : list (string * json)).

(** [d.get(key)] on a dict built by [json.loads]: a repeated key keeps its
    last value. *)
Fixpoint dict_get (key : string) (fields : list (string * json)) : option json :=
  match fields with
  | [] => None
  | (k, v) :: rest =>
      match dict_get key rest with
      | Some v' => Some v'
      | None => if String.eqb k key then Some v else None
      end
  end.

(** [s == 'literal'] for a decoded JSON value [s]. *)
Definition json_is_str (v : json) (lit : string) : bool :=
  match v with
  | JStr s => String.eqb s lit
  | _ => false
  end.

(** ** telegram.utils.helpers.escape_markdown (version 1)

    The library function [record_bid] calls on the bidder's name: it puts a
    backslash before each of the characters _ * ` and [. *)

Definition markdown_special (c : ascii) : bool :=
  (Ascii.eqb c "_" || Ascii.eqb c "*" || Ascii.eqb c "`" || Ascii.eqb c "[")%char.

Fixpoint escape_markdown (text : string) : string :=
  match text with
  | EmptyString => EmptyString
  | String c rest =>
      if markdown_special c
      then String "\"%char (String c (escape_markdown rest))
      else String c (escape_markdown rest)
  end.

(** ** Tables *)

Record auction : Type := mk_auction {
  auction_id : Z;
  item_text : string;
  photo_id : option string;
  base_price : Z;
  current_bid : option Z;
  current_bidder : option string;
  previous_bidder : option string;
  is_active : bool;
  channel_message_id : option Z;
  discussion_message_id : option Z;
  created_at : Z
}.

Record bid : Type := mk_bid {
  bid_id : Z;
  bid_auction_id : Z;
  bidder_id : Z;
  bidder_name : string;
  amount : Z;
  timestamp : Z;
  bid_is_active : bool
}.

Record submission : Type := mk_submission {
  submission_id : Z;
  user_id : Z;
  data : json;
  status : string;
  sub_created_at : Z;
  sub_channel_message_id : option Z
}.

(** auctions.db: the three tables and the single row of [system_status]. *)
Record db : Type := mk_db {
  auctions : list auction;
  bids : list bid;
  submissions : list submission;
  submissions_open : bool;
  auctions_open : bool
}.

(** [init_db] on a new file. *)
Definition init_db : db :=
  {| auctions := []; bids := []; submissions := [];
     submissions_open := false; auctions_open := false |}.

Definition with_auctions (s : db) (l : list auction) : db :=
  {| auctions := l; bids := bids s; submissions := submissions s;
     submissions_open := submissions_open s; auctions_open := auctions_open s |}.

Definition with_submissions (s : db) (l : list submission) : db :=
  {| auctions := auctions s; bids := bids s; submissions := l;
     submissions_open := submissions_open s; auctions_open := auctions_open s |}.

(** ** SQL fragments *)

(** The rowid an AUTOINCREMENT insert takes. *)
Definition next_rowid (ids : list Z) : Z := 1 + fold_right Z.max 0 ids.

(** [ORDER BY ... LIMIT 1]: [before x y] says that [x] sorts strictly
    before [y]; among rows that tie, the one met first in the scan stays. *)
Definition pick {A : Type} (before : A -> A -> bool) (best : option A) (x : A) : option A :=
  match best with
  | None => Some x
  | Some b => if before x b then Some x else Some b
  end.

Definition order_by_limit_1 {A : Type} (before : A -> A -> bool) (rows : list A) : option A :=
  fold_left (pick before) rows None.

(** [x = y] on a nullable column against a bound value: NULL equals nothing. *)
Definition sql_eq (col : option Z) (v : Z) : bool :=
  match col with
  | Some c => c =? v
  | None => false
  end.

(** [WHERE auction_id=? AND is_active=1] on [bids]. *)
Definition bid_active_for (aid : Z) (b : bid) : bool :=
  (bid_auction_id b =? aid) && bid_is_active b.

Definition active_bids (aid : Z) (bs : list bid) : list bid :=
  filter (bid_active_for aid) bs.

(** [ORDER BY amount DESC] *)
Definition amount_desc (x y : bid) : bool := amount y <? amount x.

(** [ORDER BY timestamp DESC, bid_id DESC] *)
Definition timestamp_desc_bid_id_desc (x y : bid) : bool :=
  (timestamp y <? timestamp x)
  || ((timestamp y =? timestamp x) && (bid_id y <? bid_id x)).

(** ** get_min_increment *)

Definition get_min_increment (current : option Z) : Z :=
  match current with
  | None => 1000
  | Some c =>
      if c =? 0 then 1000
      else if c <? 20000 then 1000
      else if c <? 40000 then 2000
      else if c <? 70000 then 3000
      else if c <? 100000 then 4000
      else 5000
  end.

(** ** save_auction *)

(** [if channel_msg_id:] is false for [None] and for [0]. *)
Definition supplied (channel_msg_id : option Z) : option Z :=
  match channel_msg_id with
  | Some r => if r =? 0 then None else Some r
  | None => None
  end.

(** [SELECT 1 FROM auctions WHERE channel_message_id=?] finds a row. *)
Definition channel_message_known (r : Z) (s : db) : bool :=
  existsb (fun a => sql_eq (channel_message_id a) r) (auctions s).

Definition new_auction (s : db) (text : string) (photo : option string)
    (price : Z) (channel_msg_id : option Z) (now : Z) : auction :=
  {| auction_id := next_rowid (map auction_id (auctions s));
     item_text := text;
     photo_id := match photo with
                 | Some p => if String.eqb p EmptyString then None else Some p
                 | None => None
                 end;
     base_price := price;
     current_bid := None;
     current_bidder := None;
     previous_bidder := None;
     is_active := true;
     channel_message_id := channel_msg_id;
     discussion_message_id := None;
     created_at := now |}.

Definition insert_auction (s : db) (text : string) (photo : option string)
    (price : Z) (channel_msg_id : option Z) (now : Z) : result (option Z) * db :=
  let a := new_auction s text photo price channel_msg_id now in
  (Return (Some (auction_id a)), with_auctions s (auctions s ++ [a])).

Definition save_auction (text : string) (photo : option string)
    (price : option Z) (channel_msg_id : option Z) (now : Z) (s : db)
    : result (option Z) * db :=
  match price with
  | None => (Raise (ValueError "Missing required fields (item_text or base_price)"), s)
  | Some p =>
      if String.eqb text EmptyString
      then (Raise (ValueError "Missing required fields (item_text or base_price)"), s)
      else
        match supplied channel_msg_id with
        | Some r =>
            if channel_message_known r s
            then (Return None, s)
            else insert_auction s text photo p channel_msg_id now
        | None => insert_auction s text photo p channel_msg_id now
        end
  end.

(** ** record_bid, get_auction *)

Definition lead_with (amt : Z) (name : string) (a : auction) : auction :=
  {| auction_id := auction_id a;
     item_text := item_text a;
     photo_id := photo_id a;
     base_price := base_price a;
     current_bid := Some amt;
     current_bidder := Some name;
     previous_bidder := Some (match current_bidder a with
                              | Some n => n
                              | None => "None"%string
                              end);
     is_active := is_active a;
     channel_message_id := channel_message_id a;
     discussion_message_id := discussion_message_id a;
     created_at := created_at a |}.

(** [UPDATE auctions SET ... WHERE auction_id=?] *)
Definition update_auction (aid : Z) (f : auction -> auction) (l : list auction) : list auction :=
  map (fun a => if auction_id a =? aid then f a else a) l.

Definition bid_row (b : bid) : Z * string * Z := (bidder_id b, bidder_name b, amount b).

Definition record_bid (aid bidder : Z) (name : string) (amt : Z) (now : Z) (s : db)
    : option (Z * string * Z) * db :=
  let escaped_bidder_name := escape_markdown name in
  let prev_bidder := order_by_limit_1 amount_desc (active_bids aid (bids s)) in
  let row := {| bid_id := next_rowid (map bid_id (bids s));
                bid_auction_id := aid;
                bidder_id := bidder;
                bidder_name := escaped_bidder_name;
                amount := amt;
                timestamp := now;
                bid_is_active := true |} in
  (option_map bid_row prev_bidder,
   {| auctions := update_auction aid (lead_with amt escaped_bidder_name) (auctions s);
      bids := bids s ++ [row];
      submissions := submissions s;
      submissions_open := submissions_open s;
      auctions_open := auctions_open s |}).

Definition get_auction (aid : Z) (s : db) : option auction :=
  find (fun a => auction_id a =? aid) (auctions s).

(** ** remove_last_bid *)

Definition deactivate (b : bid) : bid :=
  {| bid_id := bid_id b;
     bid_auction_id := bid_auction_id b;
     bidder_id := bidder_id b;
     bidder_name := bidder_name b;
     amount := amount b;
     timestamp := timestamp b;
     bid_is_active := false |}.

(** [UPDATE bids SET is_active=0 WHERE bid_id=?] *)
Definition deactivate_bid (id : Z) (l : list bid) : list bid :=
  map (fun b => if bid_id b =? id then deactivate b else b) l.

Definition retracted (top : option bid) (name : string) (a : auction) : auction :=
  {| auction_id := auction_id a;
     item_text := item_text a;
     photo_id := photo_id a;
     base_price := base_price a;
     current_bid := option_map amount top;
     current_bidder := option_map bidder_name top;
     previous_bidder := Some name;
     is_active := is_active a;
     channel_message_id := channel_message_id a;
     discussion_message_id := discussion_message_id a;
     created_at := created_at a |}.

(** The value returned: [None] when there is nothing to remove, the row
    [(bidder_name, amount)] of the new leader, or the pair [(None, None)]. *)
Definition remove_last_bid (aid : Z) (s : db) : option (option string * option Z) * db :=
  match order_by_limit_1 timestamp_desc_bid_id_desc (active_bids aid (bids s)) with
  | None => (None, s)
  | Some last_bid =>
      let bids' := deactivate_bid (bid_id last_bid) (bids s) in
      let new_top := order_by_limit_1 amount_desc (active_bids aid bids') in
      (Some (option_map bidder_name new_top, option_map amount new_top),
       {| auctions := update_auction aid (retracted new_top (bidder_name last_bid)) (auctions s);
          bids := bids';
          submissions := submissions s;
          submissions_open := submissions_open s;
          auctions_open := auctions_open s |})
  end.

(** ** The command handlers *)

(** What a handler answers the user. *)
Inductive reply : Type :=
| VerificationRequired
| FeatureDisabled
| NoActiveBidSession
| InvalidNumber
| AuctionNoLongerActive
| BidTooLow (min_bid current_amount increment : Z)
| ErrorUpdatingAuction
| BidPlaced (outbid : option (Z * string * Z))
| AdminOnly
| Usage
| AuctionNotFound (aid : Z)
| NoActiveBidsToRemove (aid : Z)
| LastBidRemoved (aid : Z) (new_bidder : option string) (new_amount : Z).

(** The part of [update] and [context] that [handle_bid_amount] reads.
    [verified] is the outcome of the [verified_only] lookup (an admin, or a
    row of verified_users.db); [text] is [float(...)] of the message text
    when that is a whole number, [None] when [float] raises [ValueError];
    [bid_context] is the auction id kept in [context.user_data]. *)
Record bid_message : Type := mk_bid_message {
  effective_user_id : Z;
  username : option string;
  first_name : string;
  verified : bool;
  reply_to_message : bool;
  bid_context : option Z;
  text : option Z
}.

(** [auction.get('current_bid') or auction.get('base_price', 0)]: Python's
    [or] takes the right operand when the left one is [None] or [0]. *)
Definition current_amount_of (a : auction) : Z :=
  match current_bid a with
  | Some c => if c =? 0 then base_price a else c
  | None => base_price a
  end.

Definition bidder_name_of (m : bid_message) : string :=
  match username m with
  | Some u => if String.eqb u EmptyString then first_name m else String "@"%char u
  | None => first_name m
  end.

(** [handle_bid_amount], on whole amounts. The sum [min_bid] and the
    comparison with it are those of the doubles as long as [min_bid] is at
    most 2^53; [bid_below_min_binary64] below has them on all doubles. The
    reply is the one of a run in which no call to SQLite or Telegram raises:
    when one does, the handler's last [except] answers instead that an
    error occurred, the store being as here if [record_bid] had returned and
    unchanged otherwise. *)
Definition handle_bid_amount (m : bid_message) (now : Z) (s : db) : reply * db :=
  if negb (verified m) then (VerificationRequired, s)
  else if negb (auctions_open s) then (FeatureDisabled, s)
  else
    match reply_to_message m, bid_context m with
    | true, Some aid =>
        match text m with
        | None => (InvalidNumber, s)
        | Some bid_amount =>
            match get_auction aid s with
            | None => (AuctionNoLongerActive, s)
            | Some auction =>
                if negb (is_active auction) then (AuctionNoLongerActive, s)
                else
                  let current_amount := current_amount_of auction in
                  let min_bid := current_amount + get_min_increment (Some current_amount) in
                  if bid_amount <? min_bid
                  then (BidTooLow min_bid current_amount
                          (get_min_increment (Some current_amount)), s)
                  else
                    let '(prev_bidder, s') :=
                      record_bid aid (effective_user_id m) (bidder_name_of m) bid_amount now s in
                    match get_auction aid s' with
                    | None => (ErrorUpdatingAuction, s')
                    | Some _ =>
                        (BidPlaced
                           (match prev_bidder with
                            | Some (who, n, a) =>
                                if who =? effective_user_id m then None else Some (who, n, a)
                            | None => None
                            end), s')
                    end
            end
        end
    | _, _ => (NoActiveBidSession, s)
    end.

(** ** The threshold of handle_bid_amount in double precision

    The four lines of [handle_bid_amount] that decide whether a bid is too
    low, on the doubles the code computes with (IEEE 754 binary64): the
    amounts come from [REAL] columns and from [float(...)], the increment is
    a Python [int] that the sum converts. *)
Definition binary64 : Type := SpecFloat.spec_float.

(** [float(z)] for a Python [int]: the double nearest to [z]. *)
Definition binary64_of_Z (z : Z) : binary64 :=
  SpecFloat.binary_normalize 53 1024 z 0 false.

(** [auction.get('current_bid') or auction.get('base_price', 0)] *)
Definition current_amount_binary64 (current_bid : option binary64) (base_price : binary64)
    : binary64 :=
  match current_bid with
  | Some c => if SpecFloat.SFeqb c (binary64_of_Z 0) then base_price else c
  | None => base_price
  end.

(** [get_min_increment] on a double. *)
Definition get_min_increment_binary64 (current_bid : binary64) : Z :=
  if SpecFloat.SFeqb current_bid (binary64_of_Z 0) then 1000
  else if SpecFloat.SFltb current_bid (binary64_of_Z 20000) then 1000
  else if SpecFloat.SFltb current_bid (binary64_of_Z 40000) then 2000
  else if SpecFloat.SFltb current_bid (binary64_of_Z 70000) then 3000
  else if SpecFloat.SFltb current_bid (binary64_of_Z 100000) then 4000
  else 5000.

(** [min_bid = current_amount + get_min_increment(current_amount)] *)
Definition min_bid_binary64 (current_amount : binary64) : binary64 :=
  SpecFloat.SFadd 53 1024 current_amount
    (binary64_of_Z (get_min_increment_binary64 current_amount)).

(** [bid_amount < min_bid] *)
Definition bid_below_min_binary64 (bid_amount current_amount : binary64) : bool :=
  SpecFloat.SFltb bid_amount (min_bid_binary64 current_amount).

(** [handle_remove_bid]: [is_admin] is [update.effective_user.id in ADMINS],
    [arg] is [int(context.args[0])], [None] when no argument was given. *)
Definition handle_remove_bid (is_admin : bool) (arg : option Z) (s : db) : reply * db :=
  if negb is_admin then (AdminOnly, s)
  else
    match arg with
    | None => (Usage, s)
    | Some aid =>
        match get_auction aid s with
        | None => (AuctionNotFound aid, s)
        | Some auction =>
            match remove_last_bid aid s with
            | (None, s') => (NoActiveBidsToRemove aid, s')
            | (Some (new_bidder, new_amount), s') =>
                (LastBidRemoved aid new_bidder
                   (match new_amount with
                    | Some a => if a =? 0 then base_price auction else a
                    | None => base_price auction
                    end), s')
            end
        end
    end.

(** ** handle_verification: the store writes of an approval

    [text], [photo] and [price] are what the handler builds from the
    submission's payload, [message_id] is the id of the channel post. *)

Definition set_status (sid : Z) (st : string) (l : list submission) : list submission :=
  map (fun x => if submission_id x =? sid
                then {| submission_id := submission_id x; user_id := user_id x;
                        data := data x; status := st;
                        sub_created_at := sub_created_at x;
                        sub_channel_message_id := sub_channel_message_id x |}
                else x) l.

Definition set_approved (sid : Z) (message_id : Z) (l : list submission) : list submission :=
  map (fun x => if submission_id x =? sid
                then {| submission_id := submission_id x; user_id := user_id x;
                        data := data x; status := "approved";
                        sub_created_at := sub_created_at x;
                        sub_channel_message_id := Some message_id |}
                else x) l.

Definition posted (message_id : Z) (a : auction) : auction :=
  {| auction_id := auction_id a;
     item_text := item_text a;
     photo_id := photo_id a;
     base_price := base_price a;
     current_bid := current_bid a;
     current_bidder := current_bidder a;
     previous_bidder := previous_bidder a;
     is_active := is_active a;
     channel_message_id := Some message_id;
     discussion_message_id := discussion_message_id a;
     created_at := created_at a |}.

Definition approve_submission (sid : Z) (text : string) (photo : option string)
    (price : option Z) (message_id : Z) (now : Z) (s : db) : db :=
  let s1 := with_submissions s (set_status sid "processing" (submissions s)) in
  match save_auction text photo price None now s1 with
  | (Return (Some aid), s2) =>
      {| auctions := update_auction aid (posted message_id) (auctions s2);
         bids := bids s2;
         submissions := set_approved sid message_id (submissions s2);
         submissions_open := submissions_open s2;
         auctions_open := auctions_open s2 |}
  | (_, s2) => with_submissions s2 (set_status sid "failed" (submissions s2))
  end.

(** [save_submission]: the payload is the dict the wizard collected. *)
Definition save_submission (user : Z) (payload : list (string * json)) (now : Z) (s : db) : Z * db :=
  let sid := next_rowid (map submission_id (submissions s)) in
  (sid,
   with_submissions s
     (submissions s ++
      [{| submission_id := sid; user_id := user; data := JObj payload;
          status := "pending"; sub_created_at := now;
          sub_channel_message_id := None |}])).

(** ** get_active_auctions_by_category *)

(** A row of the query: [a.*, s.data]. *)
Definition listing : Type := (auction * option json)%type.

Definition same_channel_message (a : auction) (x : submission) : bool :=
  match channel_message_id a, sub_channel_message_id x with
  | Some r, Some r' => r =? r'
  | _, _ => false
  end.

(** [LEFT JOIN submissions s ON a.channel_message_id = s.channel_message_id]:
    one row per matching submission, and one row with a NULL [data] when
    there is none. *)
Definition left_join (subs : list submission) (a : auction) : list listing :=
  match filter (same_channel_message a) subs with
  | [] => [(a, None)]
  | x :: more => map (fun y => (a, Some (data y))) (x :: more)
  end.

(** [ORDER BY a.created_at DESC], rows that tie staying in scan order. *)
Fixpoint insert_created_desc (r : listing) (sorted : list listing) : list listing :=
  match sorted with
  | [] => [r]
  | x :: rest =>
      if created_at (fst x) <=? created_at (fst r)
      then r :: x :: rest
      else x :: insert_created_desc r rest
  end.

Definition order_by_created_desc (rows : list listing) : list listing :=
  fold_right insert_created_desc [] rows.

Definition active_listings (s : db) : list listing :=
  order_by_created_desc
    (flat_map (left_join (submissions s)) (filter is_active (auctions s))).

Record categorized : Type := mk_categorized {
  nonlegendary : list listing;
  shiny : list listing;
  legendary : list listing;
  tms : list listing
}.

(** [json.loads(auction['data']) if auction['data'] else {}] followed by
    [.get('category', 'nonlegendary')]; [None] when the payload is not a
    dict and [.get] raises. *)
Definition category_of (r : listing) : option json :=
  match snd r with
  | None => Some (JStr "nonlegendary")
  | Some (JObj fields) =>
      Some (match dict_get "category" fields with
            | Some v => v
            | None => JStr "nonlegendary"
            end)
  | Some _ => None
  end.

Definition file_listing (c : categorized) (r : listing) : option categorized :=
  match category_of r with
  | None => None
  | Some category =>
      Some (if json_is_str category "legendary"
            then {| nonlegendary := nonlegendary c; shiny := shiny c;
                    legendary := legendary c ++ [r]; tms := tms c |}
            else if json_is_str category "shiny"
            then {| nonlegendary := nonlegendary c; shiny := shiny c ++ [r];
                    legendary := legendary c; tms := tms c |}
            else if json_is_str category "tms"
            then {| nonlegendary := nonlegendary c; shiny := shiny c;
                    legendary := legendary c; tms := tms c ++ [r] |}
            else {| nonlegendary := nonlegendary c ++ [r]; shiny := shiny c;
                    legendary := legendary c; tms := tms c |})
  end.

Fixpoint file_listings (c : categorized) (rows : list listing) : option categorized :=
  match rows with
  | [] => Some c
  | r :: rest =>
      match file_listing c r with
      | Some c' => file_listings c' rest
      | None => None
      end
  end.

(** [None] is the value returned when the loop raises. *)
Definition get_active_auctions_by_category (s : db) : option categorized :=
  file_listings
    {| nonlegendary := []; shiny := []; legendary := []; tms := [] |}
    (active_listings s).

(** ** start_auction, end_auction

    The admin's gate on bidding. *)
Definition start_auction (s : db) : db :=
  {| auctions := auctions s; bids := bids s; submissions := submissions s;
     submissions_open := submissions_open s; auctions_open := true |}.

Definition end_auction (s : db) : db :=
  {| auctions := auctions s; bids := bids s; submissions := submissions s;
     submissions_open := submissions_open s; auctions_open := false |}.

(** ** escape_markdown_v2

    [text.replace] doubles every backslash, then a backslash goes before
    each of the characters of [escape_chars]; [None] and the empty string
    give the empty string. *)

Definition is_backslash (c : ascii) : bool := Ascii.eqb c "\"%char.

Definition markdown_v2_special (c : ascii) : bool :=
  existsb (Ascii.eqb c) (list_ascii_of_string "_*[]()~`>#+-=|{}.!").

Fixpoint double_backslashes (text : string) : string :=
  match text with
  | EmptyString => EmptyString
  | String c rest =>
      if is_backslash c
      then String "\"%char (String "\"%char (double_backslashes rest))
      else String c (double_backslashes rest)
  end.

Fixpoint escape_specials (text : string) : string :=
  match text with
  | EmptyString => EmptyString
  | String c rest =>
      if markdown_v2_special c
      then String "\"%char (String c (escape_specials rest))
      else String c (escape_specials rest)
  end.

Definition escape_markdown_v2 (text : option string) : string :=
  match text with
  | None => EmptyString
  | Some t =>
      if String.eqb t EmptyString then EmptyString
      else escape_specials (double_backslashes t)
  end.

(** The bidder line of the caption [format_auction] builds:
    [escape_markdown_v2(auction.get('current_bidder', 'None'))], the key
    being present with a NULL value when there is no bidder. *)
Definition caption_bidder (a : auction) : string :=
  escape_markdown_v2 (current_bidder a).

(** ** get_auction_by_channel_id

    Active auctions only. *)
Definition get_auction_by_channel_id (r : Z) (s : db) : option auction :=
  find (fun a => sql_eq (channel_message_id a) r && is_active a) (auctions s).

(** ** get_submission *)

Definition get_submission (sid : Z) (s : db) : option submission :=
  find (fun x => submission_id x =? sid) (submissions s).

(** ** handle_verification

    The handler of the admins' Approve and Reject buttons, from the lookup of
    the submission on: [query.answer()], which comes first and outside the
    [try], is in [verification_click] below. What the calls the body
    makes outside auctions.db gave is an argument:
    - [decoded]: [json.loads] returned, on a payload that is itself a string;
    - [formatted]: the item text built from the payload, with the photo and
      the base price read from it, as they are passed to [save_auction];
      [None] when building them raised;
    - [channel_post]: the message id of the post to the channel, [None] when
      sending raised;
    - [submitter_notified]: the message to the submitter was sent;
    - [admins_updated]: the admins' messages were edited or replaced. *)
Record verification_calls : Type := mk_verification_calls {
  decoded : bool;
  formatted : option (string * option string * option Z);
  channel_post : option Z;
  submitter_notified : bool;
  admins_updated : bool
}.

(** What the admin who pressed the button sees: one of the three texts the
    handler puts in place of the buttons, or the new text of the admins'
    messages. *)
Inductive verification_reply : Type :=
| SubmissionNotFound
| AlreadyDecided (st : string)
| ProcessingFailed
| AdminsUpdated (approved : bool).

Definition isinstance_str (v : json) : bool :=
  match v with
  | JStr _ => true
  | _ => false
  end.

(** [UPDATE submissions SET status=? WHERE submission_id=?] *)
Definition mark (sid : Z) (st : string) (s : db) : db :=
  with_submissions s (set_status sid st (submissions s)).

(** The inner [try] block: the auction is saved, posted to the channel, both
    rows get the message id of the post, and the submitter is told. The
    boolean is [false] when the block raised. *)
Definition list_item (sid : Z) (calls : verification_calls) (now : Z) (s : db) : bool * db :=
  match formatted calls with
  | None => (false, s)
  | Some (text, photo, price) =>
      match save_auction text photo price None now s with
      | (Return (Some aid), s2) =>
          if aid =? 0 then (false, s2)
          else
            match channel_post calls with
            | None => (false, s2)
            | Some message_id =>
                (submitter_notified calls,
                 {| auctions := update_auction aid (posted message_id) (auctions s2);
                    bids := bids s2;
                    submissions := set_approved sid message_id (submissions s2);
                    submissions_open := submissions_open s2;
                    auctions_open := auctions_open s2 |})
            end
      | (_, s2) => (false, s2)
      end
  end.

Definition handle_verification (approve : bool) (sid : Z) (calls : verification_calls)
    (now : Z) (s : db) : verification_reply * db :=
  match get_submission sid s with
  | None => (SubmissionNotFound, s)
  | Some x =>
      if negb (String.eqb (status x) "pending") then (AlreadyDecided (status x), s)
      else if isinstance_str (data x) && negb (decoded calls) then (ProcessingFailed, s)
      else
        let s1 := mark sid (if approve then "processing" else "rejected") s in
        if approve then
          match list_item sid calls now s1 with
          | (true, s2) =>
              (if admins_updated calls then AdminsUpdated true else ProcessingFailed, s2)
          | (false, s2) => (ProcessingFailed, mark sid "failed" s2)
          end
        else (if admins_updated calls then AdminsUpdated false else ProcessingFailed, s1)
  end.

(** The callback as it is registered: [query.answer()] and, when that
    returned, the body above. When it raises ([answered] is false) the
    exception leaves the handler: nothing is written and the admin is
    answered nothing. *)
Definition verification_click (answered approve : bool) (sid : Z)
    (calls : verification_calls) (now : Z) (s : db) : option verification_reply * db :=
  if answered
  then (Some (fst (handle_verification approve sid calls now s)),
        snd (handle_verification approve sid calls now s))
  else (None, s).

(** ** handle_cleanup

    [/cleanup], for an admin: the rejected submissions created before
    [cutoff], which is [datetime('now', '-30 days')], are deleted. *)
Definition handle_cleanup (is_admin : bool) (cutoff : Z) (s : db) : db :=
  if is_admin
  then with_submissions s
         (filter (fun x => negb (String.eqb (status x) "rejected" &&
                                 (sub_created_at x <? cutoff)))
                 (submissions s))
  else s.

(** ** get_bid_history, show_bid_history *)

(** [ORDER BY amount DESC], rows that tie staying in scan order. *)
Fixpoint insert_amount_desc (b : bid) (sorted : list bid) : list bid :=
  match sorted with
  | [] => [b]
  | x :: rest =>
      if amount x <=? amount b
      then b :: x :: rest
      else x :: insert_amount_desc b rest
  end.

Definition order_by_amount_desc (rows : list bid) : list bid :=
  fold_right insert_amount_desc [] rows.

(** [SELECT bid_id, bidder_name, amount, timestamp] *)
Definition history_row (b : bid) : Z * string * Z * Z :=
  (bid_id b, bidder_name b, amount b, timestamp b).

Definition get_bid_history (aid : Z) (s : db) : list (Z * string * Z * Z) :=
  map history_row (order_by_amount_desc (active_bids aid (bids s))).

(** What [show_bid_history] answers; [arg] is [int(context.args[0])], [None]
    when no argument was given. *)
Inductive history_reply : Type :=
| HistoryUsage
| NoBidHistory (aid : Z)
| BidHistory (aid : Z) (lines : list (Z * string * Z * Z)).

Definition show_bid_history (arg : option Z) (s : db) : history_reply :=
  match arg with
  | None => HistoryUsage
  | Some aid =>
      match get_bid_history aid s with
      | [] => NoBidHistory aid
      | line :: more => BidHistory aid (line :: more)
      end
  end.

(** ** get_user_leading_bids *)

(** [SELECT MAX(amount) FROM bids WHERE auction_id = ? AND is_active = 1]:
    NULL when the auction has no active bid. *)
Definition max_active_amount (aid : Z) (bs : list bid) : option Z :=
  match map amount (active_bids aid bs) with
  | [] => None
  | c :: more => Some (fold_left Z.max more c)
  end.

(** The [ON] and [WHERE] conditions on a pair of an auction and a bid. *)
Definition leading_for (uid : Z) (bs : list bid) (a : auction) (b : bid) : bool :=
  (auction_id a =? bid_auction_id b)
  && (bidder_id b =? uid)
  && bid_is_active b
  && is_active a
  && sql_eq (max_active_amount (auction_id a) bs) (amount b).

(** [ORDER BY b.timestamp DESC]. Rows whose bids have the same timestamp
    stay in the order of the scan here; SQLite is free to give them in
    another order, so only the membership of a row is to be read off this
    definition. *)
Fixpoint insert_timestamp_desc (r : auction * bid) (sorted : list (auction * bid))
    : list (auction * bid) :=
  match sorted with
  | [] => [r]
  | x :: rest =>
      if timestamp (snd x) <=? timestamp (snd r)
      then r :: x :: rest
      else x :: insert_timestamp_desc r rest
  end.

Definition order_by_timestamp_desc (rows : list (auction * bid)) : list (auction * bid) :=
  fold_right insert_timestamp_desc [] rows.

(** [SELECT a.auction_id, a.item_text, b.amount] *)
Definition leading_row (r : auction * bid) : Z * string * Z :=
  (auction_id (fst r), item_text (fst r), amount (snd r)).

Definition get_user_leading_bids (uid : Z) (s : db) : list (Z * string * Z) :=
  map leading_row
    (order_by_timestamp_desc
       (flat_map (fun a => map (pair a) (filter (leading_for uid (bids s) a) (bids s)))
          (auctions s))).

(** ** verified_users.db

    The second database of the bot: the users the admins verified, and the
    requests for verification. The handlers open their connections without
    the foreign-key pragma, so the foreign keys of the schema are not
    enforced and are left out. *)
Record verified_user : Type := mk_verified_user {
  vu_user_id : Z;
  vu_username : string;
  verified_by : Z;
  verified_at : Z;
  last_active : option Z
}.

Record verification_request : Type := mk_verification_request {
  req_user_id : Z;
  req_username : string;
  request_date : Z
}.

Record users_db : Type := mk_users_db {
  verified_users : list verified_user;
  verification_requests : list verification_request
}.

(** [init_verified_users_db] on a new file. *)
Definition init_verified_users_db : users_db :=
  {| verified_users := []; verification_requests := [] |}.

(** The part of a Telegram user the handlers read. *)
Record telegram_user : Type := mk_telegram_user {
  tg_id : Z;
  tg_username : option string;
  tg_first_name : string
}.

(** [user.username or user.first_name] *)
Definition username_or_first_name (u : telegram_user) : string :=
  match tg_username u with
  | Some n => if String.eqb n EmptyString then tg_first_name u else n
  | None => tg_first_name u
  end.

(** [user_id in ADMINS] *)
Definition in_admins (admins : list Z) (uid : Z) : bool :=
  existsb (fun a => a =? uid) admins.

(** ** check_verification_status *)
Definition check_verification_status (uid : Z) (v : users_db) : bool :=
  existsb (fun r => vu_user_id r =? uid) (verified_users v).

(** [SELECT 1 FROM verification_requests WHERE user_id=?] finds a row. *)
Definition requested (uid : Z) (v : users_db) : bool :=
  existsb (fun r => req_user_id r =? uid) (verification_requests v).

(** What the handlers of this database answer. *)
Inductive users_reply : Type :=
| AdminOnlyCommand
| ReplyToUserMessage
| AlreadyVerified
| VerifiedUser
| FailedToVerify
| YouAreVerified
| RequestPending
| RequestSent
| RequestFailed
| UnverifyUsage
| VerificationRemoved (uid : Z)
| FailedToRemove.

(** ** verify_user

    [target] is the author of the message the admin replied to, [None]
    when the command is not a reply; [sent] says that the two messages
    after the commit went out. *)
Definition verify_user (admins : list Z) (sender : Z) (target : option telegram_user)
    (sent : bool) (now : Z) (v : users_db) : users_reply * users_db :=
  if negb (in_admins admins sender) then (AdminOnlyCommand, v)
  else
    match target with
    | None => (ReplyToUserMessage, v)
    | Some target_user =>
        if check_verification_status (tg_id target_user) v then (AlreadyVerified, v)
        else
          (if sent then VerifiedUser else FailedToVerify,
           {| verified_users :=
                verified_users v ++
                [{| vu_user_id := tg_id target_user;
                    vu_username := username_or_first_name target_user;
                    verified_by := sender;
                    verified_at := now;
                    last_active := None |}];
              verification_requests := verification_requests v |})
    end.

(** ** request_verification

    [sent] says that the answer to the user went out; a message to an admin
    that fails is only logged. *)
Definition request_verification (user : telegram_user) (sent : bool) (now : Z)
    (v : users_db) : users_reply * users_db :=
  if check_verification_status (tg_id user) v then (YouAreVerified, v)
  else if requested (tg_id user) v then (RequestPending, v)
  else
    (if sent then RequestSent else RequestFailed,
     {| verified_users := verified_users v;
        verification_requests :=
          verification_requests v ++
          [{| req_user_id := tg_id user;
              req_username := username_or_first_name user;
              request_date := now |}] |}).

(** ** remove_verification

    [arg] is [int(context.args[0])], [None] when no argument was given;
    [sent] says that the answer to the admin went out. *)
Definition remove_verification (admins : list Z) (sender : Z) (arg : option Z)
    (sent : bool) (v : users_db) : users_reply * users_db :=
  if negb (in_admins admins sender) then (AdminOnlyCommand, v)
  else
    match arg with
    | None => (UnverifyUsage, v)
    | Some user_id =>
        (if sent then VerificationRemoved user_id else FailedToRemove,
         {| verified_users :=
              filter (fun r => negb (vu_user_id r =? user_id)) (verified_users v);
            verification_requests := verification_requests v |})
    end.

(** ** verified_only

    The decorator: the boolean says whether the handler it wraps is run. A
    verified user who passes has [last_active] and [username] refreshed. *)
Definition verified_only (admins : list Z) (user : telegram_user) (now : Z)
    (v : users_db) : bool * users_db :=
  if in_admins admins (tg_id user) then (true, v)
  else if check_verification_status (tg_id user) v
  then
    (true,
     {| verified_users :=
          map (fun r => if vu_user_id r =? tg_id user
                        then {| vu_user_id := vu_user_id r;
                                vu_username := username_or_first_name user;
                                verified_by := verified_by r;
                                verified_at := verified_at r;
                                last_active := Some now |}
                        else r)
              (verified_users v);
        verification_requests := verification_requests v |})
  else (false, v).

(** ** Vocabulary of the statements *)

(** [r] is a row of [l] that no row of [l] sorts before. *)
Definition heads {A : Type} (before : A -> A -> bool) (l : list A) (r : A) : Prop :=
  In r l /\ forall x, In x l -> before x r = false.

(** [b] is an active bid of auction [aid] with the highest amount. *)
Definition leads (aid : Z) (bs : list bid) (b : bid) : Prop :=
  In b bs /\ bid_auction_id b = aid /\ bid_is_active b = true /\
  forall x, In x bs -> bid_auction_id x = aid -> bid_is_active x = true ->
            amount x <= amount b.

(** [b] is the active bid of auction [aid] placed last: latest timestamp,
    then highest bid id. *)
Definition placed_last (aid : Z) (bs : list bid) (b : bid) : Prop :=
  In b bs /\ bid_auction_id b = aid /\ bid_is_active b = true /\
  forall x, In x bs -> bid_auction_id x = aid -> bid_is_active x = true ->
            timestamp x < timestamp b \/
            (timestamp x = timestamp b /\ bid_id x <= bid_id b).

(** No active bid refers to auction [aid]. *)
Definition no_active_bid (aid : Z) (bs : list bid) : Prop :=
  forall x, In x bs -> bid_auction_id x = aid -> bid_is_active x = false.

(** A name that [escape_markdown] leaves as it is. *)
Fixpoint plain_name (name : string) : bool :=
  match name with
  | EmptyString => true
  | String c rest => negb (markdown_special c) && plain_name rest
  end.

(** The consistency of an auction's [current_bid] with the [bids] table:
    NULL exactly when no active bid refers to the auction, and otherwise the
    highest amount among its active bids. *)
Definition agrees (bs : list bid) (aid : Z) (cb : option Z) : Prop :=
  (cb = None <-> no_active_bid aid bs) /\
  (forall c, cb = Some c -> exists b, leads aid bs b /\ amount b = c).

(** The invariant, for every auction of the table. *)
Definition consistent (s : db) : Prop :=
  forall a, In a (auctions s) -> agrees (bids s) (auction_id a) (current_bid a).

(** Every bid refers to an auction of the table, and bid ids are not
    repeated: what the invariant needs besides itself to be inductive. *)
Definition well_keyed (s : db) : Prop :=
  (forall b, In b (bids s) -> exists a, In a (auctions s) /\ auction_id a = bid_auction_id b) /\
  NoDup (map bid_id (bids s)).

(** The precondition of recordBid on the amount, as the specification words
    it: at least [currentAmount + minIncrement(currentAmount)], where
    [currentAmount] is the current bid, or the base price when it is NULL. *)
Definition spec_amount_precondition (a : auction) (amt : Z) : Prop :=
  match current_bid a with
  | Some c => c + get_min_increment (Some c) <= amt
  | None => base_price a + get_min_increment (Some (base_price a)) <= amt
  end.

(** [currentAmount] of the specification: the current bid, or the base
    price when it is NULL; and the threshold [currentAmount +
    minIncrement(currentAmount)]. *)
Definition spec_current_amount (a : auction) : Z :=
  match current_bid a with
  | Some c => c
  | None => base_price a
  end.

Definition spec_threshold (a : auction) : Z :=
  spec_current_amount a + get_min_increment (Some (spec_current_amount a)).

(** The number of binary digits of a positive whole number. *)
Definition binary_digits (v : Z) : Z := Z.log2 v + 1.

(** The double of the whole number [v], [0 < v < 2^53], with the sign [sx]:
    a mantissa of 53 binary digits and the exponent that makes its value
    [v]. *)
Definition whole_binary64 (sx : bool) (v : Z) : binary64 :=
  SpecFloat.S754_finite sx (Z.to_pos (v * 2 ^ (53 - binary_digits v)))
    (binary_digits v - 53).

(** [current_amount] of [handle_bid_amount] as the code computes it, from
    the doubles of the columns [current_bid] and [base_price]. *)
Definition stored_current_amount_binary64 (a : auction) : binary64 :=
  current_amount_binary64 (option_map binary64_of_Z (current_bid a))
    (binary64_of_Z (base_price a)).

(** Base prices are non-negative and bid amounts positive. *)
Definition priced (s : db) : Prop :=
  (forall a, In a (auctions s) -> 0 <= base_price a) /\
  (forall b, In b (bids s) -> 0 < amount b).

(** Some auction of the table, active or not, carries the channel message
    id [r]. *)
Definition references (r : Z) (s : db) : Prop :=
  exists a, In a (auctions s) /\ channel_message_id a = Some r.

(** The number of auction rows that carry the channel message id [r]. *)
Definition rows_for (r : Z) (s : db) : nat :=
  List.length (filter (fun a => sql_eq (channel_message_id a) r) (auctions s)).

(** A verified user answering the bid prompt of auction [aid] with [amt]. *)
Definition answering (aid amt : Z) (m : bid_message) : Prop :=
  verified m = true /\ reply_to_message m = true /\
  bid_context m = Some aid /\ text m = Some amt.

(** The bucket a row of the query goes to: [listed_as lit r] when the
    category of its payload is the string [lit]. *)
Definition listed_as (lit : string) (r : listing) : bool :=
  match category_of r with
  | Some v => json_is_str v lit
  | None => false
  end.

(** The row goes to the catch-all bucket. *)
Definition listed_elsewhere (r : listing) : bool :=
  negb (listed_as "legendary" r) && negb (listed_as "shiny" r) && negb (listed_as "tms" r).


(** Every stored payload is a dict. *)
Definition dict_payloads (s : db) : Prop :=
  forall x, In x (submissions s) -> exists fields, data x = JObj fields.


(** ** Runs of the bot *)

(** The stores the ledger's operations produce from a new database:
    auction creation, directly or through an approval, [record_bid] on an
    existing active auction under its precondition, and [remove_last_bid];
    the other writes of the bot to auctions.db are listed as well. *)
Inductive reachable : db -> Prop :=
| reach_init_db : reachable init_db
| reach_save_auction s text photo price ref now :
    reachable s -> reachable (snd (save_auction text photo price ref now s))
| reach_approve_submission s sid text photo price message_id now :
    reachable s -> reachable (approve_submission sid text photo price message_id now s)
| reach_record_bid s aid bidder name amt now a :
    reachable s ->
    get_auction aid s = Some a -> is_active a = true ->
    spec_amount_precondition a amt ->
    reachable (snd (record_bid aid bidder name amt now s))
| reach_remove_last_bid s aid :
    reachable s -> reachable (snd (remove_last_bid aid s))
| reach_save_submission s user payload now :
    reachable s -> reachable (snd (save_submission user payload now s))
| reach_start_auction s : reachable s -> reachable (start_auction s)
| reach_end_auction s : reachable s -> reachable (end_auction s).

(** The stores the bot's handlers produce from a new database when every
    base price is non-negative: bids go through [handle_bid_amount],
    retractions through [handle_remove_bid]. *)
Inductive handled : db -> Prop :=
| handled_init_db : handled init_db
| handled_save_auction s text photo price ref now :
    handled s -> 0 <= price ->
    handled (snd (save_auction text photo (Some price) ref now s))
| handled_approve_submission s sid text photo price message_id now :
    handled s -> 0 <= price ->
    handled (approve_submission sid text photo (Some price) message_id now s)
| handled_bid_amount s m now :
    handled s -> handled (snd (handle_bid_amount m now s))
| handled_remove_bid s is_admin arg :
    handled s -> handled (snd (handle_remove_bid is_admin arg s))
| handled_save_submission s user payload now :
    handled s -> handled (snd (save_submission user payload now s))
| handled_start_auction s : handled s -> handled (start_auction s)
| handled_end_auction s : handled s -> handled (end_auction s).

(** One write of the bot to auctions.db. *)
Inductive ledger_step : db -> db -> Prop :=
| step_save_auction s text photo price ref now :
    ledger_step s (snd (save_auction text photo price ref now s))
| step_approve_submission s sid text photo price message_id now :
    ledger_step s (approve_submission sid text photo price message_id now s)
| step_record_bid s aid bidder name amt now :
    ledger_step s (snd (record_bid aid bidder name amt now s))
| step_handle_bid_amount s m now :
    ledger_step s (snd (handle_bid_amount m now s))
| step_remove_last_bid s aid :
    ledger_step s (snd (remove_last_bid aid s))
| step_handle_remove_bid s is_admin arg :
    ledger_step s (snd (handle_remove_bid is_admin arg s))
| step_save_submission s user payload now :
    ledger_step s (snd (save_submission user payload now s))
| step_start_auction s : ledger_step s (start_auction s)
| step_end_auction s : ledger_step s (end_auction s).

(** Any number of writes, one after the other. *)
Inductive later : db -> db -> Prop :=
| later_now s : later s s
| later_step s s1 s2 : later s s1 -> ledger_step s1 s2 -> later s s2.

(** ** Stores used as examples *)

(** A store with one auction, base price 5000, and no bid. *)
Definition one_auction : db :=
  snd (save_auction "Pikachu" None (Some 5000) None 100 init_db).

(** A verified user answering the bid prompt of auction 1 with [amt]. *)
Definition bid_of (uid : Z) (name : string) (amt : Z) : bid_message :=
  {| effective_user_id := uid; username := Some name; first_name := name;
     verified := true; reply_to_message := true;
     bid_context := Some 1; text := Some amt |}.

(** The store after a single bid of 6000. *)
Definition single_bid : db :=
  snd (handle_bid_amount (bid_of 42 "ash" 6000) 200 (start_auction one_auction)).

(** The store after a first bid of 6000 and a second one of 7000. *)
Definition two_bids : db :=
  snd (handle_bid_amount (bid_of 43 "gary" 7000) 300
         (snd (handle_bid_amount (bid_of 42 "ash" 6000) 200
                 (start_auction one_auction)))).

(** An auction with base price -5000 on which a bid of 0 was placed. No
    handler produces it: the price prompt lets only digits through and
    [save_auction] is called by the approval only. [save_auction] itself
    stores such a price. *)
Definition zero_bid_store : db :=
  snd (handle_bid_amount (bid_of 42 "ash" 0) 200
         (snd (save_auction "Pikachu" None (Some (-5000)) None 100
                 (start_auction init_db)))).

(** [zero_bid_store] after a further bid of -1000, which the handler
    accepts: its threshold is -5000 + 1000. *)
Definition below_zero_store : db :=
  snd (handle_bid_amount (bid_of 43 "gary" (-1000)) 300 zero_bid_store).

(** A store whose only auction is closed and carries the channel message
    id 77. *)
Definition closed_auction_store : db :=
  {| auctions :=
       [ {| auction_id := 1; item_text := "Pikachu"; photo_id := None;
            base_price := 5000; current_bid := None; current_bidder := None;
            previous_bidder := None; is_active := false;
            channel_message_id := Some 77; discussion_message_id := None;
            created_at := 100 |} ];
     bids := []; submissions := [];
     submissions_open := false; auctions_open := true |}.

(** ** Vocabulary of the further properties *)

(** A MarkdownV2 text in which every reserved character and every backslash
    comes right after an escaping backslash. *)
Inductive escaped_v2 : string -> Prop :=
| escaped_end : escaped_v2 EmptyString
| escaped_plain c rest :
    markdown_v2_special c = false -> is_backslash c = false ->
    escaped_v2 rest -> escaped_v2 (String c rest)
| escaped_pair c rest :
    markdown_v2_special c = true \/ is_backslash c = true ->
    escaped_v2 rest -> escaped_v2 (String "\"%char (String c rest)).

(** What a MarkdownV2 text shows: a backslash makes the next character
    literal. *)
Fixpoint rendered (text : string) : string :=
  match text with
  | EmptyString => EmptyString
  | String c rest =>
      if is_backslash c
      then match rest with
           | EmptyString => EmptyString
           | String d rest' => String d (rendered rest')
           end
      else String c (rendered rest)
  end.

(** What a Markdown (version 1) text shows of a name: a backslash before one
    of _ * ` [ makes it literal. *)
Fixpoint rendered_v1 (text : string) : string :=
  match text with
  | EmptyString => EmptyString
  | String c rest =>
      if is_backslash c
      then match rest with
           | EmptyString => String c EmptyString
           | String d rest' =>
               if markdown_special d then String d (rendered_v1 rest')
               else String c (rendered_v1 rest)
           end
      else String c (rendered_v1 rest)
  end.

(** The bidder an auction names is the owner of its highest active bid, and
    no bidder is named when there is no bid. *)
Definition led (s : db) : Prop :=
  forall a, In a (auctions s) ->
    match current_bid a with
    | None => current_bidder a = None
    | Some c =>
        exists b, leads (auction_id a) (bids s) b /\ amount b = c /\
                  current_bidder a = Some (bidder_name b)
    end.

(** Two active bids of one auction never have the same amount. *)
Definition distinct_amounts (s : db) : Prop :=
  forall x y, In x (bids s) -> In y (bids s) ->
    bid_auction_id x = bid_auction_id y ->
    bid_is_active x = true -> bid_is_active y = true ->
    amount x = amount y -> x = y.

(** The notice [handle_bid_amount] sends after [record_bid] returned
    [prev_bidder]: none to the bidder themselves. *)
Definition outbid_notice (uid : Z) (prev_bidder : option (Z * string * Z))
    : option (Z * string * Z) :=
  match prev_bidder with
  | Some (who, n, c) => if who =? uid then None else Some (who, n, c)
  | None => None
  end.

(** The invariants of the ledger together: keys, [current_bid],
    amounts, [current_bidder] and the distinct amounts. *)
Definition ledger_sound (s : db) : Prop :=
  (well_keyed s /\ consistent s) /\ priced s /\ led s /\ distinct_amounts s.

(** The largest whole amount that leaves room below 2^53 for the largest
    increment: up to it every sum [current_amount + increment] the code
    computes on doubles is exact. *)
Definition exact_limit : Z := 2 ^ 53 - 5000.

(** No base price and no bid is above [exact_limit]. *)
Definition within_limit (s : db) : Prop :=
  (forall a, In a (auctions s) -> base_price a <= exact_limit) /\
  (forall b, In b (bids s) -> amount b <= exact_limit).

(** No auction and no submission carries the message id [r]: Telegram gives
    a post to the channel an id no earlier post has. *)
Definition fresh_message (r : Z) (s : db) : Prop :=
  ~ references r s /\
  forall x, In x (submissions s) -> sub_channel_message_id x <> Some r.

(** One call of a handler that writes to auctions.db, as the bot receives
    it: an item is approved with the price the wizard read, a whole number
    that is not negative, here of at most [exact_limit]; a post to the
    channel gets a new message id; a bid is a whole number above -2^53 of
    at most [exact_limit]. Auctions come from the clicks of the admins only.
    /cleanup is not part of the embedding. *)
Inductive moderated_step : db -> db -> Prop :=
| mod_save_submission s user payload now :
    moderated_step s (snd (save_submission user payload now s))
| mod_click s answered approve sid calls now :
    (forall text photo price,
       formatted calls = Some (text, photo, Some price) -> 0 <= price <= exact_limit) ->
    (forall r, channel_post calls = Some r -> fresh_message r s) ->
    moderated_step s (snd (verification_click answered approve sid calls now s))
| mod_bid_amount s m now :
    (forall amt, text m = Some amt -> - 2 ^ 53 < amt <= exact_limit) ->
    moderated_step s (snd (handle_bid_amount m now s))
| mod_remove_bid s is_admin arg :
    moderated_step s (snd (handle_remove_bid is_admin arg s))
| mod_start_auction s : moderated_step s (start_auction s)
| mod_end_auction s : moderated_step s (end_auction s).

(** Any number of such calls. *)
Inductive moderated_later : db -> db -> Prop :=
| moderated_now s : moderated_later s s
| moderated_then s s1 s2 :
    moderated_later s s1 -> moderated_step s1 s2 -> moderated_later s s2.

(** The stores the bot's handlers produce from a new database. *)
Definition moderated (s : db) : Prop := moderated_later init_db s.






(** What a click writes to a row of [submissions]: the row of [sid] gets the
    status [st] and, when the item was posted, the message id of the post. *)
Definition decide_submission (sid : Z) (st : string) (post : option Z) (x : submission)
    : submission :=
  if submission_id x =? sid
  then {| submission_id := submission_id x; user_id := user_id x;
          data := data x; status := st;
          sub_created_at := sub_created_at x;
          sub_channel_message_id :=
            match post with
            | Some r => Some r
            | None => sub_channel_message_id x
            end |}
  else x.

(** A store with one pending submission, of user 7. *)
Definition one_submission : db :=
  snd (save_submission 7 [("category"%string, JStr "shiny")] 50 init_db).

(** Calls that all go well: the item costs 5000 and is posted as message 900. *)
Definition calls_ok : verification_calls :=
  {| decoded := true;
     formatted := Some ("Pikachu"%string, Some "photo-1"%string, Some 5000);
     channel_post := Some 900;
     submitter_notified := true;
     admins_updated := true |}.

(** The post to the channel fails. *)
Definition calls_no_post : verification_calls :=
  {| decoded := true;
     formatted := Some ("Pikachu"%string, Some "photo-1"%string, Some 5000);
     channel_post := None;
     submitter_notified := true;
     admins_updated := true |}.

(** The item is posted, the message to the submitter fails. *)
Definition calls_no_notice : verification_calls :=
  {| decoded := true;
     formatted := Some ("Pikachu"%string, Some "photo-1"%string, Some 5000);
     channel_post := Some 900;
     submitter_notified := false;
     admins_updated := true |}.

(** The submission of [one_submission] approved and posted as message 900:
    auction 1, a Pikachu at 5000; then the auctions opened, a bid of 6000
    by ash and one of 7000 by gary. *)
Definition listed_store : db :=
  snd (verification_click true true 1 calls_ok 100 one_submission).

Definition open_store : db := start_auction listed_store.

Definition first_bid_store : db :=
  snd (handle_bid_amount (bid_of 42 "ash" 6000) 200 open_store).

Definition second_bid_store : db :=
  snd (handle_bid_amount (bid_of 43 "gary" 7000) 300 first_bid_store).



(** Auction 1 of these stores, as listed and after each bid. *)
Definition listed_pikachu : auction :=
  posted 900 (new_auction one_submission "Pikachu" (Some "photo-1"%string) 5000 None 100).

(** The amounts of the lines go strictly down. *)
Definition amounts_fall (lines : list (Z * string * Z * Z)) : Prop :=
  StronglySorted (fun l l' => snd (fst l') < snd (fst l)) lines.

(** One call of a handler of verified_users.db. *)
Inductive users_step (admins : list Z) : users_db -> users_db -> Prop :=
| step_verify_user v sender target sent now :
    users_step admins v (snd (verify_user admins sender target sent now v))
| step_request_verification v user sent now :
    users_step admins v (snd (request_verification user sent now v))
| step_remove_verification v sender arg sent :
    users_step admins v (snd (remove_verification admins sender arg sent v))
| step_verified_only v user now :
    users_step admins v (snd (verified_only admins user now v)).

(** Any number of calls. *)
Inductive users_later (admins : list Z) : users_db -> users_db -> Prop :=
| users_later_now v : users_later admins v v
| users_later_step v v1 v2 :
    users_later admins v v1 -> users_step admins v1 v2 -> users_later admins v v2.

(** Admin 1 and the users ash and gary. *)
Definition ash : telegram_user :=
  {| tg_id := 42; tg_username := Some "ash"%string; tg_first_name := "Ash"%string |}.

Definition gary : telegram_user :=
  {| tg_id := 43; tg_username := None; tg_first_name := "Gary"%string |}.

(** ash asked for verification and admin 1 verified ash. *)
Definition ash_verified : users_db :=
  snd (verify_user [1] 1 (Some ash) true 20
         (snd (request_verification ash true 10 init_verified_users_db))).

(** * Properties *)

(** ** ORDER BY ... LIMIT 1 *)

Section OrderByLimit1.
Context {A : Type} (before : A -> A -> bool).
Hypothesis before_irrefl : forall x, before x x = false.
Hypothesis before_trans :
  forall x y z, before x y = true -> before y z = true -> before x z = true.

Lemma fold_pick_heads (rows seen : list A) (b : A) :
  heads before seen b ->
  exists r, fold_left (pick before) rows (Some b) = Some r /\
            heads before (seen ++ rows) r.
Proof.
  revert seen b.
  induction rows as [|x rest IH]; intros seen b [Hin Hmax].
  - exists b. rewrite app_nil_r. now repeat split.
  - simpl. replace (seen ++ x :: rest) with ((seen ++ [x]) ++ rest)
      by now rewrite <- app_assoc.
    destruct (before x b) eqn:Hxb; apply IH; split.
    + apply in_or_app. right. now left.
    + intros y Hy. apply in_app_or in Hy as [Hy|[<-|[]]]; [|apply before_irrefl].
      destruct (before y x) eqn:Hyx; [|reflexivity].
      rewrite <- (Hmax y Hy). symmetry. now apply before_trans with x.
    + apply in_or_app. now left.
    + intros y Hy. apply in_app_or in Hy as [Hy|[<-|[]]]; auto.
Qed.

Lemma order_by_limit_1_some (l : list A) (r : A) :
  order_by_limit_1 before l = Some r -> heads before l r.
Proof.
  destruct l as [|x rest]; [discriminate|].
  unfold order_by_limit_1. simpl. intros H.
  destruct (fold_pick_heads rest [x] x) as (r' & Hr' & Hh).
  - split; [now left|]. intros y [<-|[]]. apply before_irrefl.
  - rewrite Hr' in H. injection H as <-. exact Hh.
Qed.

Lemma order_by_limit_1_none (l : list A) :
  order_by_limit_1 before l = None <-> l = [].
Proof.
  split; [|now intros ->].
  destruct l as [|x rest]; [reflexivity|].
  unfold order_by_limit_1. simpl. intros H.
  destruct (fold_pick_heads rest [x] x) as (r' & Hr' & _).
  - split; [now left|]. intros y [<-|[]]. apply before_irrefl.
  - congruence.
Qed.

End OrderByLimit1.

Lemma amount_desc_irrefl x : amount_desc x x = false.
Proof. unfold amount_desc. apply Z.ltb_irrefl. Qed.

Lemma amount_desc_trans x y z :
  amount_desc x y = true -> amount_desc y z = true -> amount_desc x z = true.
Proof. unfold amount_desc. rewrite !Z.ltb_lt. lia. Qed.

Lemma latest_irrefl x : timestamp_desc_bid_id_desc x x = false.
Proof.
  unfold timestamp_desc_bid_id_desc.
  rewrite !Z.ltb_irrefl. now rewrite andb_false_r.
Qed.

Lemma latest_true x y :
  timestamp_desc_bid_id_desc x y = true <->
  timestamp y < timestamp x \/ (timestamp y = timestamp x /\ bid_id y < bid_id x).
Proof.
  unfold timestamp_desc_bid_id_desc.
  rewrite orb_true_iff, andb_true_iff, !Z.ltb_lt, Z.eqb_eq. tauto.
Qed.

Lemma latest_trans x y z :
  timestamp_desc_bid_id_desc x y = true -> timestamp_desc_bid_id_desc y z = true ->
  timestamp_desc_bid_id_desc x z = true.
Proof. rewrite !latest_true. lia. Qed.

Lemma latest_false x y :
  timestamp_desc_bid_id_desc x y = false ->
  timestamp x < timestamp y \/ (timestamp x = timestamp y /\ bid_id x <= bid_id y).
Proof.
  intros H. destruct (Z_lt_le_dec (timestamp x) (timestamp y)) as [|Hge]; [now left|].
  right. assert (Hn : ~ (timestamp y < timestamp x \/
                          (timestamp y = timestamp x /\ bid_id y < bid_id x))).
  { rewrite <- latest_true. congruence. }
  lia.
Qed.

(** ** get_min_increment *)

(** C3. [get_min_increment] is a total step function: 1000 for [None], for 0
    and for every amount below 20000, then 2000 below 40000, 3000 below
    70000, 4000 below 100000 and 5000 from 100000 on; it is non-decreasing
    on the amounts from 0 up, and every value it takes is one of 1000, 2000,
    3000, 4000 and 5000. *)
Theorem get_min_increment_steps :
  get_min_increment None = 1000 /\
  get_min_increment (Some 0) = 1000 /\
  (forall c, c < 20000 -> get_min_increment (Some c) = 1000) /\
  (forall c, 20000 <= c < 40000 -> get_min_increment (Some c) = 2000) /\
  (forall c, 40000 <= c < 70000 -> get_min_increment (Some c) = 3000) /\
  (forall c, 70000 <= c < 100000 -> get_min_increment (Some c) = 4000) /\
  (forall c, 100000 <= c -> get_min_increment (Some c) = 5000) /\
  (forall c d, 0 <= c <= d ->
     get_min_increment (Some c) <= get_min_increment (Some d)) /\
  (forall current, In (get_min_increment current) [1000; 2000; 3000; 4000; 5000]).
Proof.
  assert (Hcases : forall c,
    get_min_increment (Some c) =
      if c <? 20000 then 1000 else if c <? 40000 then 2000
      else if c <? 70000 then 3000 else if c <? 100000 then 4000 else 5000).
  { intros c. simpl. destruct (Z.eqb_spec c 0) as [->|]; reflexivity. }
  repeat split; try reflexivity.
  - intros c H. rewrite Hcases. destruct (Z.ltb_spec c 20000); [reflexivity|lia].
  - intros c H. rewrite Hcases.
    destruct (Z.ltb_spec c 20000); [lia|].
    destruct (Z.ltb_spec c 40000); [reflexivity|lia].
  - intros c H. rewrite Hcases.
    destruct (Z.ltb_spec c 20000); [lia|].
    destruct (Z.ltb_spec c 40000); [lia|].
    destruct (Z.ltb_spec c 70000); [reflexivity|lia].
  - intros c H. rewrite Hcases.
    destruct (Z.ltb_spec c 20000); [lia|].
    destruct (Z.ltb_spec c 40000); [lia|].
    destruct (Z.ltb_spec c 70000); [lia|].
    destruct (Z.ltb_spec c 100000); [reflexivity|lia].
  - intros c H. rewrite Hcases.
    destruct (Z.ltb_spec c 20000); [lia|].
    destruct (Z.ltb_spec c 40000); [lia|].
    destruct (Z.ltb_spec c 70000); [lia|].
    destruct (Z.ltb_spec c 100000); [lia|reflexivity].
  - intros c d H. rewrite !Hcases.
    destruct (Z.ltb_spec c 20000), (Z.ltb_spec c 40000), (Z.ltb_spec c 70000),
      (Z.ltb_spec c 100000), (Z.ltb_spec d 20000), (Z.ltb_spec d 40000),
      (Z.ltb_spec d 70000), (Z.ltb_spec d 100000); lia.
  - intros [c|]; [|now left]. rewrite Hcases.
    destruct (c <? 20000); [now left|].
    destruct (c <? 40000); [now right; left|].
    destruct (c <? 70000); [now right; right; left|].
    destruct (c <? 100000); [now right; right; right; left|].
    now right; right; right; right; left.
Qed.

(** The steps at the boundaries of each tier. *)
Lemma get_min_increment_steps_witness :
  get_min_increment (Some 19999) = 1000 /\
  get_min_increment (Some 20000) = 2000 /\
  get_min_increment (Some 69999) = 3000 /\
  get_min_increment (Some 70000) = 4000 /\
  get_min_increment (Some 100000) = 5000 /\
  get_min_increment (Some 39999) <= get_min_increment (Some 40000).
Proof.
  destruct get_min_increment_steps
    as (_ & _ & H1 & H2 & H3 & H4 & H5 & Hmono & _).
  split; [apply H1; lia|].
  split; [apply H2; lia|].
  split; [apply H3; lia|].
  split; [apply H4; lia|].
  split; [apply H5; lia|].
  apply Hmono; lia.
Defined.

(** ** Reading the tables *)

Lemma active_bids_in aid bs x :
  In x (active_bids aid bs) <->
  In x bs /\ bid_auction_id x = aid /\ bid_is_active x = true.
Proof.
  unfold active_bids, bid_active_for.
  rewrite filter_In, andb_true_iff, Z.eqb_eq. tauto.
Qed.

Lemma active_bids_nil aid bs : active_bids aid bs = [] <-> no_active_bid aid bs.
Proof.
  split.
  - intros H x Hx Hid. destruct (bid_is_active x) eqn:Hact; [|reflexivity].
    assert (Hin : In x (active_bids aid bs)) by now apply active_bids_in.
    rewrite H in Hin. destruct Hin.
  - intros H. destruct (active_bids aid bs) as [|x rest] eqn:E; [reflexivity|].
    assert (Hin : In x (active_bids aid bs)) by (rewrite E; now left).
    apply active_bids_in in Hin as (Hx & Hid & Hact).
    rewrite (H x Hx Hid) in Hact. discriminate.
Qed.

Lemma top_bid_leads aid bs b :
  order_by_limit_1 amount_desc (active_bids aid bs) = Some b -> leads aid bs b.
Proof.
  intros H.
  apply (order_by_limit_1_some amount_desc amount_desc_irrefl amount_desc_trans) in H.
  destruct H as [Hin Hmax]. apply active_bids_in in Hin as (Hb & Hid & Hact).
  repeat split; auto.
  intros x Hx Hxid Hxact.
  assert (Hlt : amount_desc x b = false) by (apply Hmax; now apply active_bids_in).
  unfold amount_desc in Hlt. apply Z.ltb_ge in Hlt. exact Hlt.
Qed.

Lemma top_bid_none aid bs :
  order_by_limit_1 amount_desc (active_bids aid bs) = None <-> no_active_bid aid bs.
Proof.
  rewrite (order_by_limit_1_none amount_desc amount_desc_irrefl amount_desc_trans).
  apply active_bids_nil.
Qed.

Lemma last_bid_placed_last aid bs b :
  order_by_limit_1 timestamp_desc_bid_id_desc (active_bids aid bs) = Some b ->
  placed_last aid bs b.
Proof.
  intros H.
  apply (order_by_limit_1_some _ latest_irrefl latest_trans) in H.
  destruct H as [Hin Hmax]. apply active_bids_in in Hin as (Hb & Hid & Hact).
  repeat split; auto.
  intros x Hx Hxid Hxact. apply latest_false, Hmax. now apply active_bids_in.
Qed.

Lemma last_bid_none aid bs :
  order_by_limit_1 timestamp_desc_bid_id_desc (active_bids aid bs) = None <->
  no_active_bid aid bs.
Proof.
  rewrite (order_by_limit_1_none _ latest_irrefl latest_trans).
  apply active_bids_nil.
Qed.

Lemma find_update_auction aid f l :
  (forall a, auction_id (f a) = auction_id a) ->
  find (fun a => auction_id a =? aid) (update_auction aid f l) =
  option_map f (find (fun a => auction_id a =? aid) l).
Proof.
  intros Hf. induction l as [|a l IH]; [reflexivity|].
  simpl. destruct (auction_id a =? aid) eqn:E.
  - rewrite Hf, E. reflexivity.
  - rewrite E. exact IH.
Qed.

Lemma get_auction_in aid s a :
  get_auction aid s = Some a -> In a (auctions s) /\ auction_id a = aid.
Proof.
  unfold get_auction. intros H. apply find_some in H as [Hin E].
  apply Z.eqb_eq in E. now split.
Qed.

Lemma escape_markdown_plain name :
  plain_name name = true -> escape_markdown name = name.
Proof.
  induction name as [|c rest IH]; [reflexivity|].
  simpl. destruct (markdown_special c); [discriminate|].
  simpl. intros H. now rewrite IH.
Qed.

(** ** record_bid *)

(** C1, as the code has it. After [record_bid] on an existing auction,
    [get_auction] gives a record whose [current_bid] is the amount and whose
    [current_bidder] is the bidder's name as [escape_markdown] rewrites it
    (the name itself when it has none of the characters _ * ` and [);
    [previous_bidder] is the former [current_bidder], or the string None when
    there was none; and the value returned is the row (bidder id, name,
    amount) of an active bid of the auction with the highest amount, or
    nothing when the auction had no active bid. *)
Theorem record_bid_effect (s : db) (aid bidder : Z) (name : string) (amt now : Z)
    (a : auction) :
  get_auction aid s = Some a ->
  exists a',
    get_auction aid (snd (record_bid aid bidder name amt now s)) = Some a' /\
    current_bid a' = Some amt /\
    current_bidder a' = Some (escape_markdown name) /\
    (plain_name name = true -> current_bidder a' = Some name) /\
    previous_bidder a' = Some (match current_bidder a with
                               | Some n => n
                               | None => "None"%string
                               end) /\
    match fst (record_bid aid bidder name amt now s) with
    | Some row => exists b, leads aid (bids s) b /\ row = bid_row b
    | None => no_active_bid aid (bids s)
    end.
Proof.
  intros Ha.
  exists (lead_with amt (escape_markdown name) a).
  split.
  - unfold get_auction, record_bid in *. simpl.
    rewrite find_update_auction by reflexivity. now rewrite Ha.
  - repeat split.
    + intros Hplain. simpl. now rewrite escape_markdown_plain.
    + unfold record_bid. simpl.
      destruct (order_by_limit_1 amount_desc (active_bids aid (bids s))) as [b|] eqn:Htop.
      * exists b. split; [now apply top_bid_leads|reflexivity].
      * now apply top_bid_none.
Qed.

(** A first bid of 6000 by a bidder without special characters. *)
Lemma record_bid_effect_witness :
  exists a',
    get_auction 1 (snd (record_bid 1 42 "@ash" 6000 200 one_auction)) = Some a' /\
    current_bid a' = Some 6000 /\
    current_bidder a' = Some "@ash"%string /\
    previous_bidder a' = Some "None"%string.
Proof.
  destruct (record_bid_effect one_auction 1 42 "@ash" 6000 200
              (new_auction init_db "Pikachu" None 5000 None 100) eq_refl)
    as (a' & Hget & Hbid & _ & Hname & Hprev & _).
  exists a'. repeat split; auto.
Defined.

(** C1, as the claim has it, fails: the bidder @john_doe is stored as
    @john\_doe, so [current_bidder] is not the bidder's name. *)
Lemma record_bid_name_counterexample :
  option_map current_bidder
    (get_auction 1 (snd (record_bid 1 42 "@john_doe" 6000 200 one_auction)))
  = Some (Some "@john\_doe"%string) /\
  "@john\_doe"%string <> "@john_doe"%string.
Proof. split; [reflexivity|discriminate]. Qed.

(** ** Doubles of whole numbers

    [float] and the sum of two doubles on whole numbers below 2^53:
    nothing is rounded, and the comparisons are those of the integers. *)

Lemma digits2_pos_size p : SpecFloat.digits2_pos p = Pos.size p.
Proof. induction p; simpl; congruence. Qed.

Lemma digits2_pos_log2 p : Z.pos (SpecFloat.digits2_pos p) = binary_digits (Z.pos p).
Proof.
  rewrite digits2_pos_size. unfold binary_digits.
  destruct p; simpl; lia.
Qed.

Lemma iter_xO_pow p k : Z.pos (Pos.iter xO p k) = Z.pos p * 2 ^ Z.pos k.
Proof.
  induction k as [|k IH] using Pos.peano_ind.
  - simpl. lia.
  - rewrite Pos.iter_succ, Pos2Z.inj_succ, Z.pow_succ_r by lia.
    rewrite Pos2Z.inj_xO, IH. lia.
Qed.

Lemma binary_digits_shift v k :
  0 < v -> 0 <= k -> binary_digits (v * 2 ^ k) = binary_digits v + k.
Proof. intros Hv Hk. unfold binary_digits. rewrite Z.log2_mul_pow2 by lia. lia. Qed.

Lemma binary_digits_bounds v :
  0 < v -> 2 ^ (binary_digits v - 1) <= v < 2 ^ binary_digits v.
Proof.
  intros Hv. unfold binary_digits. pose proof (Z.log2_spec v Hv) as H.
  replace (Z.log2 v + 1 - 1) with (Z.log2 v) by lia.
  replace (Z.log2 v + 1) with (Z.succ (Z.log2 v)) by lia. exact H.
Qed.

Lemma binary_digits_small v : 0 < v -> v < 2 ^ 53 -> 1 <= binary_digits v <= 53.
Proof.
  intros Hv Hlt. unfold binary_digits. pose proof (Z.log2_nonneg v).
  assert (Z.log2 v < 53) by (apply Z.log2_lt_pow2; lia). lia.
Qed.

Lemma shr_exact n q :
  SpecFloat.iter_pos SpecFloat.shr_1 n
    {| SpecFloat.shr_m := Z.pos (Pos.iter xO q n);
       SpecFloat.shr_r := false; SpecFloat.shr_s := false |} =
  {| SpecFloat.shr_m := Z.pos q; SpecFloat.shr_r := false; SpecFloat.shr_s := false |}.
Proof.
  revert q. induction n as [n IH|n IH|]; intros q; simpl.
  - now rewrite !IH.
  - now rewrite !IH.
  - reflexivity.
Qed.

(** A mantissa of 53 digits with its exponent is what rounding returns. *)
Lemma binary_round_aux_fixed sx mz ez :
  Z.pos (SpecFloat.digits2_pos mz) = 53 -> -1074 <= ez <= 971 ->
  SpecFloat.binary_round_aux 53 1024 sx (Z.pos mz) ez SpecFloat.loc_Exact =
  SpecFloat.S754_finite sx mz ez.
Proof.
  intros Hd He.
  assert (E : SpecFloat.fexp 53 1024 (Z.pos (SpecFloat.digits2_pos mz) + ez) - ez = 0)
    by (rewrite Hd; unfold SpecFloat.fexp, SpecFloat.emin; lia).
  unfold SpecFloat.binary_round_aux, SpecFloat.shr_fexp.
  cbn [SpecFloat.Zdigits2 SpecFloat.shr_record_of_loc].
  rewrite E.
  cbn [SpecFloat.shr SpecFloat.shr_m SpecFloat.loc_of_shr_record
       SpecFloat.round_nearest_even SpecFloat.Zdigits2 SpecFloat.shr_record_of_loc].
  rewrite E. cbn [SpecFloat.shr SpecFloat.shr_m].
  destruct (Z.leb_spec ez (1024 - 53)); [reflexivity|lia].
Qed.

(** Rounding [M * 2^ez], a whole number [v] below 2^53, gives the double of [v]. *)
Lemma binary_round_whole sx M ez v :
  ez <= 0 -> 0 < v < 2 ^ 53 -> Z.pos M = v * 2 ^ (- ez) ->
  SpecFloat.binary_round 53 1024 sx M ez = whole_binary64 sx v.
Proof.
  intros Hez Hv HM.
  pose proof (binary_digits_small v (proj1 Hv) (proj2 Hv)) as Hd.
  assert (HD : Z.pos (SpecFloat.digits2_pos M) = binary_digits v - ez).
  { rewrite digits2_pos_log2, HM, binary_digits_shift by lia. lia. }
  assert (Hf : SpecFloat.fexp 53 1024 (Z.pos (SpecFloat.digits2_pos M) + ez)
               = binary_digits v - 53).
  { rewrite HD. unfold SpecFloat.fexp, SpecFloat.emin. lia. }
  set (t := binary_digits v - 53) in *.
  assert (Hpos : 0 < v * 2 ^ (- t)) by (apply Z.mul_pos_pos; [lia|apply Z.pow_pos_nonneg; lia]).
  assert (Hq : Z.pos (Z.to_pos (v * 2 ^ (- t))) = v * 2 ^ (- t)) by (apply Z2Pos.id; lia).
  assert (Hqd : Z.pos (SpecFloat.digits2_pos (Z.to_pos (v * 2 ^ (- t)))) = 53).
  { rewrite digits2_pos_log2, Hq, binary_digits_shift by lia. unfold t. lia. }
  unfold whole_binary64. fold t. replace (53 - binary_digits v) with (- t) by (unfold t; lia).
  unfold SpecFloat.binary_round. rewrite Hf. unfold SpecFloat.shl_align.
  destruct (t - ez) as [|n|k] eqn:En.
  - assert (ez = t) by lia. subst ez.
    rewrite <- HM. rewrite Pos2Z.id.
    apply binary_round_aux_fixed; [|unfold t; lia].
    rewrite digits2_pos_log2, HM, binary_digits_shift by lia. unfold t. lia.
  - assert (Hsplit : M = Pos.iter xO (Z.to_pos (v * 2 ^ (- t))) n).
    { apply Pos2Z.inj. rewrite iter_xO_pow, Hq, HM, <- Z.mul_assoc, <- Z.pow_add_r by lia.
      f_equal. f_equal. lia. }
    assert (Hshr : SpecFloat.iter_pos SpecFloat.shr_1 n
                     {| SpecFloat.shr_m := Z.pos M;
                        SpecFloat.shr_r := false; SpecFloat.shr_s := false |} =
                   {| SpecFloat.shr_m := Z.pos (Z.to_pos (v * 2 ^ (- t)));
                      SpecFloat.shr_r := false; SpecFloat.shr_s := false |}).
    { rewrite Hsplit. apply shr_exact. }
    unfold SpecFloat.binary_round_aux, SpecFloat.shr_fexp.
    cbn [SpecFloat.Zdigits2 SpecFloat.shr_record_of_loc].
    rewrite Hf, En. cbn [SpecFloat.shr].
    rewrite Hshr.
    cbn [SpecFloat.shr_m SpecFloat.loc_of_shr_record SpecFloat.round_nearest_even
         SpecFloat.Zdigits2 SpecFloat.shr_record_of_loc].
    replace (ez + Z.pos n) with t by lia.
    assert (E : SpecFloat.fexp 53 1024
                  (Z.pos (SpecFloat.digits2_pos (Z.to_pos (v * 2 ^ (- t)))) + t) - t = 0)
      by (rewrite Hqd; unfold SpecFloat.fexp, SpecFloat.emin; unfold t; lia).
    rewrite E. cbn [SpecFloat.shr SpecFloat.shr_m].
    destruct (Z.leb_spec t (1024 - 53)); [reflexivity|unfold t in *; lia].
  - assert (Hsplit : Pos.iter xO M k = Z.to_pos (v * 2 ^ (- t))).
    { apply Pos2Z.inj. rewrite iter_xO_pow, Hq, HM, <- Z.mul_assoc, <- Z.pow_add_r by lia.
      f_equal. f_equal. lia. }
    rewrite Hsplit.
    apply binary_round_aux_fixed; [exact Hqd|unfold t; lia].
Qed.

Lemma binary64_of_Z_pos v : 0 < v < 2 ^ 53 -> binary64_of_Z v = whole_binary64 false v.
Proof.
  intros Hv. unfold binary64_of_Z, SpecFloat.binary_normalize.
  destruct v as [|p|p]; try lia.
  apply binary_round_whole; [lia|exact Hv|cbn; lia].
Qed.

Lemma binary64_of_Z_neg v : 0 < v < 2 ^ 53 -> binary64_of_Z (- v) = whole_binary64 true v.
Proof.
  intros Hv. unfold binary64_of_Z, SpecFloat.binary_normalize.
  destruct v as [|p|p]; try lia. cbn [Z.opp].
  apply binary_round_whole; [lia|exact Hv|cbn; lia].
Qed.

Lemma whole_binary64_value v :
  0 < v < 2 ^ 53 ->
  Z.pos (Z.to_pos (v * 2 ^ (53 - binary_digits v))) = v * 2 ^ (53 - binary_digits v).
Proof.
  intros Hv. pose proof (binary_digits_small v (proj1 Hv) (proj2 Hv)).
  apply Z2Pos.id. apply Z.mul_pos_pos; [lia|apply Z.pow_pos_nonneg; lia].
Qed.

Lemma SFadd_whole a b :
  0 < a -> 0 < b -> a + b < 2 ^ 53 ->
  SpecFloat.SFadd 53 1024 (whole_binary64 false a) (whole_binary64 false b) = whole_binary64 false (a + b).
Proof.
  intros Ha Hb Hab.
  pose proof (binary_digits_small a Ha ltac:(lia)) as Hda.
  pose proof (binary_digits_small b Hb ltac:(lia)) as Hdb.
  assert (Hshift : forall m e e', e' <= e ->
            Z.pos (fst (SpecFloat.shl_align m e e')) = Z.pos m * 2 ^ (e - e')).
  { intros m e e' Hle. unfold SpecFloat.shl_align.
    destruct (e' - e) as [|n|k] eqn:E; cbn [fst]; try lia.
    - replace (e - e') with 0 by lia. lia.
    - rewrite iter_xO_pow. f_equal. f_equal. lia. }
  unfold whole_binary64 at 1 2. cbn [SpecFloat.SFadd SpecFloat.cond_Zopp].
  set (ez := Z.min (binary_digits a - 53) (binary_digits b - 53)).
  rewrite <- Pos2Z.inj_add. cbn [SpecFloat.binary_normalize].
  apply binary_round_whole; [unfold ez; lia|lia|].
  rewrite Pos2Z.inj_add, !Hshift by (unfold ez; lia).
  rewrite !whole_binary64_value by lia.
  rewrite <- !Z.mul_assoc, <- !Z.pow_add_r by (unfold ez; lia).
  replace (53 - binary_digits a + (binary_digits a - 53 - ez)) with (- ez) by lia.
  replace (53 - binary_digits b + (binary_digits b - 53 - ez)) with (- ez) by lia.
  lia.
Qed.

Lemma SFcompare_whole a b :
  0 < a < 2 ^ 53 -> 0 < b < 2 ^ 53 ->
  SpecFloat.SFcompare (whole_binary64 false a) (whole_binary64 false b) = Some (a ?= b).
Proof.
  intros Ha Hb.
  pose proof (binary_digits_small a (proj1 Ha) (proj2 Ha)) as Hda.
  pose proof (binary_digits_small b (proj1 Hb) (proj2 Hb)) as Hdb.
  pose proof (binary_digits_bounds a (proj1 Ha)) as Ba.
  pose proof (binary_digits_bounds b (proj1 Hb)) as Bb.
  unfold whole_binary64. cbn [SpecFloat.SFcompare]. f_equal.
  destruct (Z.compare_spec (binary_digits a - 53) (binary_digits b - 53)) as [E|E|E].
  - change (Pos.compare_cont Eq ?x ?y) with (Z.pos x ?= Z.pos y).
    rewrite !whole_binary64_value by lia.
    replace (binary_digits b) with (binary_digits a) by lia.
    assert (Hp : 0 < 2 ^ (53 - binary_digits a)) by (apply Z.pow_pos_nonneg; lia).
    destruct (Z.compare_spec a b),
             (Z.compare_spec (a * 2 ^ (53 - binary_digits a))
                             (b * 2 ^ (53 - binary_digits a)));
      try reflexivity; nia.
  - symmetry. apply Z.compare_lt_iff.
    assert (2 ^ binary_digits a <= 2 ^ (binary_digits b - 1)) by (apply Z.pow_le_mono_r; lia).
    lia.
  - symmetry. apply Z.compare_gt_iff.
    assert (2 ^ binary_digits b <= 2 ^ (binary_digits a - 1)) by (apply Z.pow_le_mono_r; lia).
    lia.
Qed.

Lemma SFltb_whole a b :
  0 < a < 2 ^ 53 -> 0 < b < 2 ^ 53 ->
  SpecFloat.SFltb (whole_binary64 false a) (whole_binary64 false b) = (a <? b).
Proof.
  intros Ha Hb. unfold SpecFloat.SFltb, Z.ltb.
  now rewrite SFcompare_whole.
Qed.

Lemma get_min_increment_range current :
  1000 <= get_min_increment current <= 5000.
Proof.
  unfold get_min_increment. destruct current as [c|]; [|lia].
  repeat match goal with |- context [if ?b then _ else _] => destruct b end; lia.
Qed.

Lemma SFltb_of_Z_whole bid thr :
  - 2 ^ 53 < bid < 2 ^ 53 -> 0 < thr < 2 ^ 53 ->
  SpecFloat.SFltb (binary64_of_Z bid) (whole_binary64 false thr) = (bid <? thr).
Proof.
  intros Hb Ht.
  destruct (Z.lt_trichotomy bid 0) as [Hneg|[->|Hpos]].
  - replace bid with (- (- bid)) by lia. rewrite binary64_of_Z_neg by lia.
    replace (- - bid) with bid by lia.
    symmetry. unfold whole_binary64, SpecFloat.SFltb. cbn [SpecFloat.SFcompare].
    apply Z.ltb_lt. lia.
  - symmetry. cbn. apply Z.ltb_lt. lia.
  - rewrite binary64_of_Z_pos by lia. now apply SFltb_whole.
Qed.

Lemma SFltb_of_Z_top bid :
  - 2 ^ 53 < bid < 2 ^ 53 ->
  SpecFloat.SFltb (binary64_of_Z bid) (SpecFloat.S754_finite false 4503599627370496 1) = true.
Proof.
  intros Hb.
  destruct (Z.lt_trichotomy bid 0) as [Hneg|[->|Hpos]].
  - replace bid with (- (- bid)) by lia. now rewrite binary64_of_Z_neg by lia.
  - reflexivity.
  - rewrite binary64_of_Z_pos by lia.
    pose proof (binary_digits_small bid Hpos ltac:(lia)) as Hd.
    unfold whole_binary64, SpecFloat.SFltb. cbn [SpecFloat.SFcompare].
    destruct (Z.compare_spec (binary_digits bid - 53) 1); [lia|reflexivity|lia].
Qed.

Lemma get_min_increment_binary64_whole cur :
  0 <= cur < 2 ^ 53 ->
  get_min_increment_binary64 (binary64_of_Z cur) = get_min_increment (Some cur).
Proof.
  intros Hc. destruct (Z.eq_dec cur 0) as [->|Hne]; [reflexivity|].
  unfold get_min_increment_binary64, get_min_increment.
  rewrite (binary64_of_Z_pos cur), (binary64_of_Z_pos 20000), (binary64_of_Z_pos 40000),
    (binary64_of_Z_pos 70000), (binary64_of_Z_pos 100000) by lia.
  rewrite !SFltb_whole by lia.
  destruct (Z.eqb_spec cur 0); [contradiction|].
  reflexivity.
Qed.

(** On whole amounts below 2^53 in magnitude, with a threshold of at most
    2^53, the comparison of the doubles is the one of the integers. *)
Theorem bid_below_min_binary64_whole (bid cur : Z) :
  0 <= cur -> cur + get_min_increment (Some cur) <= 2 ^ 53 ->
  - 2 ^ 53 < bid < 2 ^ 53 ->
  bid_below_min_binary64 (binary64_of_Z bid) (binary64_of_Z cur) =
  (bid <? cur + get_min_increment (Some cur)).
Proof.
  intros Hc Hthr Hb.
  pose proof (get_min_increment_range (Some cur)) as Hinc.
  unfold bid_below_min_binary64, min_bid_binary64.
  rewrite get_min_increment_binary64_whole by lia.
  set (inc := get_min_increment (Some cur)) in *.
  destruct (Z.eq_dec cur 0) as [->|Hne].
  - rewrite (binary64_of_Z_pos inc) by lia.
    change (SpecFloat.SFadd 53 1024 (binary64_of_Z 0) (whole_binary64 false inc))
      with (whole_binary64 false inc).
    rewrite SFltb_of_Z_whole by lia. reflexivity.
  - destruct (Z.eq_dec (cur + inc) (2 ^ 53)) as [Etop|Hlow].
    + assert (Hinc5 : inc = 5000).
      { unfold inc, get_min_increment.
        destruct (Z.eqb_spec cur 0); [lia|].
        repeat match goal with
               | |- context [?x <? ?y] => destruct (Z.ltb_spec x y); try lia
               end. }
      assert (cur = 2 ^ 53 - 5000) as -> by lia.
      rewrite Hinc5.
      change (SpecFloat.SFadd 53 1024 (binary64_of_Z (2 ^ 53 - 5000)) (binary64_of_Z 5000))
        with (SpecFloat.S754_finite false 4503599627370496 1).
      rewrite SFltb_of_Z_top by lia. symmetry. apply Z.ltb_lt. lia.
    + rewrite (binary64_of_Z_pos cur), (binary64_of_Z_pos inc) by lia.
      rewrite SFadd_whole by lia.
      apply SFltb_of_Z_whole; lia.
Qed.

Lemma stored_current_amount_whole a :
  (forall c, current_bid a = Some c -> 0 < c < 2 ^ 53) ->
  stored_current_amount_binary64 a = binary64_of_Z (spec_current_amount a).
Proof.
  intros Hpos. unfold stored_current_amount_binary64, spec_current_amount.
  destruct (current_bid a) as [c|]; [|reflexivity].
  cbn [option_map current_amount_binary64].
  now rewrite (binary64_of_Z_pos c) by (apply Hpos; reflexivity).
Qed.

(** The test of the code on doubles is the comparison with the threshold. *)
Lemma threshold_binary64_whole a bid :
  0 <= base_price a ->
  (forall c, current_bid a = Some c -> 0 < c) ->
  spec_threshold a <= 2 ^ 53 ->
  - 2 ^ 53 < bid < 2 ^ 53 ->
  bid_below_min_binary64 (binary64_of_Z bid) (stored_current_amount_binary64 a) =
  (bid <? spec_threshold a).
Proof.
  intros Hbase Hpos Hthr Hbid.
  pose proof (get_min_increment_range (Some (spec_current_amount a))) as Hinc.
  assert (Hcur : 0 <= spec_current_amount a).
  { unfold spec_current_amount. destruct (current_bid a) as [c|]; [|exact Hbase].
    specialize (Hpos c eq_refl). lia. }
  rewrite stored_current_amount_whole.
  - now apply bid_below_min_binary64_whole.
  - intros c Hc. split; [now apply Hpos|].
    unfold spec_threshold, spec_current_amount in Hthr, Hinc. rewrite Hc in Hthr, Hinc. lia.
Qed.

(** ** handle_bid_amount *)

Lemma get_auction_record_bid aid bidder name amt now s a :
  get_auction aid s = Some a ->
  get_auction aid (snd (record_bid aid bidder name amt now s)) =
  Some (lead_with amt (escape_markdown name) a).
Proof.
  intros Ha. unfold get_auction, record_bid in *. simpl.
  rewrite find_update_auction by reflexivity. now rewrite Ha.
Qed.

(** What the handler compares a bid with: [current_amount +
    get_min_increment current_amount], where [current_amount] is the
    auction's [current_bid] when it is set and not 0, and its [base_price]
    otherwise. *)
Lemma handle_bid_amount_compares (m : bid_message) (now : Z) (s : db)
    (aid bid_amount : Z) (a : auction) :
  bid_context m = Some aid ->
  text m = Some bid_amount ->
  get_auction aid s = Some a ->
  is_active a = true ->
  (bid_amount < current_amount_of a + get_min_increment (Some (current_amount_of a)) ->
     snd (handle_bid_amount m now s) = s /\
     (verified m = true -> auctions_open s = true -> reply_to_message m = true ->
      fst (handle_bid_amount m now s) =
        BidTooLow (current_amount_of a + get_min_increment (Some (current_amount_of a)))
                  (current_amount_of a)
                  (get_min_increment (Some (current_amount_of a))))) /\
  (current_amount_of a + get_min_increment (Some (current_amount_of a)) <= bid_amount ->
     verified m = true -> auctions_open s = true -> reply_to_message m = true ->
     (exists outbid, fst (handle_bid_amount m now s) = BidPlaced outbid) /\
     snd (handle_bid_amount m now s) =
       snd (record_bid aid (effective_user_id m) (bidder_name_of m) bid_amount now s) /\
     exists row,
       bids (snd (handle_bid_amount m now s)) = bids s ++ [row] /\
       bid_auction_id row = aid /\ amount row = bid_amount /\
       bid_is_active row = true) /\
  (current_bid a <> Some 0 ->
     current_amount_of a = match current_bid a with
                           | Some c => c
                           | None => base_price a
                           end).
Proof.
  intros Hctx Htext Ha Hact.
  split; [|split].
  - intros Hlow.
    assert (Hlt : (bid_amount <?
              current_amount_of a + get_min_increment (Some (current_amount_of a))) = true)
      by now apply Z.ltb_lt.
    unfold handle_bid_amount. rewrite Hctx, Htext, Ha, Hact. simpl negb. cbv iota.
    rewrite Hlt.
    split.
    + destruct (verified m), (auctions_open s), (reply_to_message m); reflexivity.
    + intros -> -> ->. reflexivity.
  - intros Hhigh Hver Hopen Hreply.
    assert (Hge : (bid_amount <?
              current_amount_of a + get_min_increment (Some (current_amount_of a))) = false)
      by now apply Z.ltb_ge.
    pose proof (get_auction_record_bid aid (effective_user_id m) (bidder_name_of m)
                  bid_amount now s a Ha) as Hupd.
    unfold handle_bid_amount.
    rewrite Hver, Hopen, Hreply, Hctx, Htext, Ha, Hact. simpl negb. cbv iota.
    rewrite Hge.
    destruct (record_bid aid (effective_user_id m) (bidder_name_of m) bid_amount now s)
      as [prev s'] eqn:Hrec.
    simpl in Hupd. rewrite Hupd.
    split; [eexists; reflexivity|].
    split; [reflexivity|].
    unfold record_bid in Hrec. injection Hrec as _ <-. simpl.
    eexists. split; [reflexivity|]. now repeat split.
  - intros Hnz. unfold current_amount_of.
    destruct (current_bid a) as [c|]; [|reflexivity].
    destruct (Z.eqb_spec c 0) as [->|]; [congruence|reflexivity].
Qed.

Lemma spec_threshold_compared a :
  (forall c, current_bid a = Some c -> 0 < c) ->
  current_amount_of a = spec_current_amount a /\
  current_amount_of a + get_min_increment (Some (current_amount_of a)) = spec_threshold a.
Proof.
  intros Hpos. unfold spec_threshold, spec_current_amount, current_amount_of.
  destruct (current_bid a) as [c|]; [|now split].
  specialize (Hpos c eq_refl). destruct (Z.eqb_spec c 0); [lia|now split].
Qed.

(** C2, amended. On an active auction of the data model (base price not
    negative, current bid positive when set), the bid being a whole number
    below 2^53 in magnitude and the threshold
    [currentAmount + minIncrement(currentAmount)] at most 2^53
    ([currentAmount] being the current bid if set, else the base price):
    the test [bid_amount < min_bid] that the code makes on doubles is the
    comparison of the bid with the threshold; whatever the sender, a bid
    below the threshold leaves the store as it is, and a verified sender
    answering the prompt while auctions are open is told the threshold; a
    bid at or above the threshold, so also one equal to it, is recorded: a
    new active row of the sender with that amount ends the [bids] table and
    the amount is the auction's [current_bid]. *)
Theorem handle_bid_amount_threshold (m : bid_message) (now : Z) (s : db)
    (aid bid_amount : Z) (a : auction) :
  bid_context m = Some aid ->
  text m = Some bid_amount ->
  get_auction aid s = Some a ->
  is_active a = true ->
  0 <= base_price a ->
  (forall c, current_bid a = Some c -> 0 < c) ->
  spec_threshold a <= 2 ^ 53 ->
  - 2 ^ 53 < bid_amount < 2 ^ 53 ->
  bid_below_min_binary64 (binary64_of_Z bid_amount) (stored_current_amount_binary64 a) =
    (bid_amount <? spec_threshold a) /\
  (bid_amount < spec_threshold a ->
     snd (handle_bid_amount m now s) = s /\
     (verified m = true -> auctions_open s = true -> reply_to_message m = true ->
      fst (handle_bid_amount m now s) =
        BidTooLow (spec_threshold a) (spec_current_amount a)
                  (get_min_increment (Some (spec_current_amount a))))) /\
  (spec_threshold a <= bid_amount ->
     verified m = true -> auctions_open s = true -> reply_to_message m = true ->
     (exists outbid, fst (handle_bid_amount m now s) = BidPlaced outbid) /\
     (exists row,
        bids (snd (handle_bid_amount m now s)) = bids s ++ [row] /\
        bid_auction_id row = aid /\ bidder_id row = effective_user_id m /\
        amount row = bid_amount /\ bid_is_active row = true) /\
     (exists a',
        get_auction aid (snd (handle_bid_amount m now s)) = Some a' /\
        current_bid a' = Some bid_amount)).
Proof.
  intros Hctx Htext Ha Hact Hbase Hpos Hbound Hbid.
  split; [now apply threshold_binary64_whole|].
  destruct (spec_threshold_compared a Hpos) as [Hcur Hthr].
  destruct (handle_bid_amount_compares m now s aid bid_amount a Hctx Htext Ha Hact)
    as (Hlow & Hhigh & _).
  rewrite Hthr in Hlow, Hhigh. rewrite Hcur in Hlow.
  split; [exact Hlow|].
  intros Hge Hver Hopen Hreply.
  destruct (Hhigh Hge Hver Hopen Hreply) as (Hplaced & Hsnd & row & Hrow & Hid & Hamt & Hrowact).
  split; [exact Hplaced|]. split.
  - exists row. repeat split; auto.
    rewrite Hsnd in Hrow. unfold record_bid in Hrow. cbn [snd bids] in Hrow.
    apply app_inj_tail in Hrow as [_ <-]. reflexivity.
  - rewrite Hsnd.
    exists (lead_with bid_amount (escape_markdown (bidder_name_of m)) a).
    split; [now apply get_auction_record_bid|reflexivity].
Qed.

(** On the fresh auction with base price 5000, 5999 is refused and 6000 is
    recorded, by the doubles as by the integers. *)
Lemma handle_bid_amount_threshold_witness :
  bid_below_min_binary64 (binary64_of_Z 5999) (binary64_of_Z 5000) = true /\
  snd (handle_bid_amount (bid_of 42 "ash" 5999) 200 (start_auction one_auction))
    = start_auction one_auction /\
  bid_below_min_binary64 (binary64_of_Z 6000) (binary64_of_Z 5000) = false /\
  exists row,
    bids (snd (handle_bid_amount (bid_of 42 "ash" 6000) 200 (start_auction one_auction)))
      = [row] /\
    amount row = 6000.
Proof.
  assert (Hpos : forall c,
            current_bid (new_auction init_db "Pikachu" None 5000 None 100) = Some c ->
            0 < c) by discriminate.
  assert (Hbase : 0 <= base_price (new_auction init_db "Pikachu" None 5000 None 100))
    by (simpl; lia).
  assert (Hbound : spec_threshold (new_auction init_db "Pikachu" None 5000 None 100)
                   <= 2 ^ 53) by (vm_compute; discriminate).
  assert (Hlow : - 2 ^ 53 < 5999 < 2 ^ 53) by lia.
  assert (Hhigh : - 2 ^ 53 < 6000 < 2 ^ 53) by lia.
  destruct (handle_bid_amount_threshold (bid_of 42 "ash" 5999) 200
              (start_auction one_auction) 1 5999
              (new_auction init_db "Pikachu" None 5000 None 100)
              eq_refl eq_refl eq_refl eq_refl Hbase Hpos Hbound Hlow)
    as (Htest & Hrej & _).
  destruct (handle_bid_amount_threshold (bid_of 42 "ash" 6000) 200
              (start_auction one_auction) 1 6000
              (new_auction init_db "Pikachu" None 5000 None 100)
              eq_refl eq_refl eq_refl eq_refl Hbase Hpos Hbound Hhigh)
    as (Htest' & _ & Hacc).
  split; [exact Htest|].
  split; [apply Hrej; reflexivity|].
  split; [exact Htest'|].
  destruct Hacc as (_ & (row & Hrow & _ & _ & Hamt & _) & _);
    [vm_compute; discriminate|reflexivity|reflexivity|reflexivity|].
  exists row. split; [exact Hrow|exact Hamt].
Defined.

(** C2, as the claim has it, fails beyond 2^53. A bid of 1e20, which
    [float] reads as the double 10^20, is accepted on an auction with base
    price 5000 and becomes its current bid. The threshold of the claim is
    then 10^20 + 5000, and a second bid of 10^20 is below it; but the sum
    the code computes is the double nearest to it, 10^20 itself, so the
    second bid is not below [min_bid] and is recorded as well. *)
Lemma threshold_rounded_counterexample :
  binary64_of_Z (10 ^ 20) = SpecFloat.S754_finite false 6103515625000000 14 /\
  6103515625000000 * 2 ^ 14 = 10 ^ 20 /\
  bid_below_min_binary64 (binary64_of_Z (10 ^ 20))
    (current_amount_binary64 None (binary64_of_Z 5000)) = false /\
  10 ^ 20 < 10 ^ 20 + get_min_increment (Some (10 ^ 20)) /\
  min_bid_binary64 (current_amount_binary64 (Some (binary64_of_Z (10 ^ 20)))
                      (binary64_of_Z 5000)) = binary64_of_Z (10 ^ 20) /\
  bid_below_min_binary64 (binary64_of_Z (10 ^ 20))
    (current_amount_binary64 (Some (binary64_of_Z (10 ^ 20))) (binary64_of_Z 5000))
    = false.
Proof. repeat split; vm_compute; reflexivity. Qed.

(** ** remove_last_bid *)

Lemma in_deactivate_bid id l x :
  In x (deactivate_bid id l) <->
  exists y, In y l /\ x = if bid_id y =? id then deactivate y else y.
Proof.
  unfold deactivate_bid. rewrite in_map_iff.
  split.
  - intros (y & E & Hy). exists y. now split.
  - intros (y & Hy & E). exists y. now split.
Qed.

Lemma same_id_same_row (l : list bid) (x y : bid) :
  NoDup (map bid_id l) -> In x l -> In y l -> bid_id x = bid_id y -> x = y.
Proof.
  induction l as [|z l IH]; [intros _ []|].
  simpl. intros Hnd Hx Hy E. inversion Hnd as [|? ? Hz Hnd']; subst.
  destruct Hx as [->|Hx], Hy as [->|Hy]; auto.
  - exfalso. apply Hz. rewrite E. now apply in_map.
  - exfalso. apply Hz. rewrite <- E. now apply in_map.
Qed.

Lemma get_auction_remove_last_bid aid s a last :
  get_auction aid s = Some a ->
  order_by_limit_1 timestamp_desc_bid_id_desc (active_bids aid (bids s)) = Some last ->
  get_auction aid (snd (remove_last_bid aid s)) =
  Some (retracted
          (order_by_limit_1 amount_desc
             (active_bids aid (deactivate_bid (bid_id last) (bids s))))
          (bidder_name last) a).
Proof.
  intros Ha Hlast. unfold get_auction, remove_last_bid in *. rewrite Hlast. simpl.
  rewrite find_update_auction by reflexivity. now rewrite Ha.
Qed.

Lemma bid_eq_dec_by_id (l : list bid) (Hnd : NoDup (map bid_id l)) (x y : bid) :
  In x l -> In y l -> x = y \/ x <> y.
Proof.
  intros Hx Hy. destruct (Z.eq_dec (bid_id x) (bid_id y)) as [E|E].
  - left. now apply (same_id_same_row l).
  - right. congruence.
Qed.

(** C5. When auction [aid] has an active bid, [remove_last_bid] takes the
    active bid placed last (latest timestamp, then highest bid id) and
    marks it inactive: the table has a row [gone] with its id, inactive and
    otherwise equal to it; every other row of [bids] is as it was, so the
    active bids of the auction are the ones it had without the retracted
    one. The auction's [previous_bidder] becomes the name on the retracted
    bid and its other columns stay. Its [current_bid] and [current_bidder]
    become the amount and name of a bid with the highest amount among the
    active bids that remain, which is also the pair returned; when the
    retracted bid was the auction's only active bid, both become NULL and
    the pair (None, None) is returned. *)
Theorem remove_last_bid_effect (s : db) (aid : Z) (a : auction) (x : bid) :
  get_auction aid s = Some a ->
  NoDup (map bid_id (bids s)) ->
  In x (bids s) -> bid_auction_id x = aid -> bid_is_active x = true ->
  exists last gone a',
    placed_last aid (bids s) last /\
    In gone (bids (snd (remove_last_bid aid s))) /\
    bid_id gone = bid_id last /\ bid_is_active gone = false /\
    bid_auction_id gone = aid /\ bidder_id gone = bidder_id last /\
    bidder_name gone = bidder_name last /\ amount gone = amount last /\
    timestamp gone = timestamp last /\
    (forall b, In b (bids (snd (remove_last_bid aid s))) ->
               b = gone \/ (In b (bids s) /\ b <> last)) /\
    (forall b, In b (bids s) -> b <> last ->
               In b (bids (snd (remove_last_bid aid s)))) /\
    map bid_id (bids (snd (remove_last_bid aid s))) = map bid_id (bids s) /\
    (forall b,
       In b (bids (snd (remove_last_bid aid s))) /\
       bid_auction_id b = aid /\ bid_is_active b = true <->
       In b (bids s) /\ bid_auction_id b = aid /\ bid_is_active b = true /\ b <> last) /\
    get_auction aid (snd (remove_last_bid aid s)) = Some a' /\
    previous_bidder a' = Some (bidder_name last) /\
    (auction_id a' = auction_id a /\ item_text a' = item_text a /\
     base_price a' = base_price a /\ is_active a' = is_active a /\
     channel_message_id a' = channel_message_id a) /\
    match fst (remove_last_bid aid s) with
    | Some (Some n, Some c) =>
        (exists top, leads aid (bids (snd (remove_last_bid aid s))) top /\
                     In top (bids s) /\ top <> last /\
                     n = bidder_name top /\ c = amount top) /\
        current_bid a' = Some c /\ current_bidder a' = Some n
    | Some (None, None) =>
        (forall b, In b (bids s) -> bid_auction_id b = aid ->
                   bid_is_active b = true -> b = last) /\
        no_active_bid aid (bids (snd (remove_last_bid aid s))) /\
        current_bid a' = None /\ current_bidder a' = None
    | _ => False
    end.
Proof.
  intros Ha Hnd Hx Hxid Hxact.
  destruct (order_by_limit_1 timestamp_desc_bid_id_desc (active_bids aid (bids s)))
    as [last|] eqn:Hlast.
  2:{ apply last_bid_none in Hlast. rewrite (Hlast x Hx Hxid) in Hxact. discriminate. }
  pose proof (get_auction_remove_last_bid aid s a last Ha Hlast) as Hget.
  pose proof (last_bid_placed_last _ _ _ Hlast) as Hpl.
  destruct Hpl as (Hin & Hid & Hact & Hlatest).
  assert (Hbids : bids (snd (remove_last_bid aid s)) = deactivate_bid (bid_id last) (bids s)).
  { unfold remove_last_bid. now rewrite Hlast. }
  assert (Hfst : fst (remove_last_bid aid s) =
                 Some (option_map bidder_name
                         (order_by_limit_1 amount_desc
                            (active_bids aid (deactivate_bid (bid_id last) (bids s)))),
                       option_map amount
                         (order_by_limit_1 amount_desc
                            (active_bids aid (deactivate_bid (bid_id last) (bids s)))))).
  { unfold remove_last_bid. now rewrite Hlast. }
  assert (Hkept : forall b, In b (bids s) -> b <> last ->
                    In b (deactivate_bid (bid_id last) (bids s))).
  { intros b Hb Hne. apply in_deactivate_bid. exists b. split; [assumption|].
    destruct (Z.eqb_spec (bid_id b) (bid_id last)) as [E|E]; [|reflexivity].
    exfalso. apply Hne. now apply (same_id_same_row (bids s)). }
  assert (Hrows : forall b, In b (deactivate_bid (bid_id last) (bids s)) ->
                    b = deactivate last \/ (In b (bids s) /\ b <> last)).
  { intros b Hb. apply in_deactivate_bid in Hb as (y & Hy & ->).
    destruct (Z.eqb_spec (bid_id y) (bid_id last)) as [E|E].
    - left. f_equal. now apply (same_id_same_row (bids s)).
    - right. split; [assumption|congruence]. }
  assert (Hactive : forall b,
            In b (deactivate_bid (bid_id last) (bids s)) /\
            bid_auction_id b = aid /\ bid_is_active b = true <->
            In b (bids s) /\ bid_auction_id b = aid /\ bid_is_active b = true /\ b <> last).
  { intros b. split.
    - intros (Hb & Hbid & Hbact). destruct (Hrows b Hb) as [->|[Hb' Hne]].
      + discriminate.
      + now repeat split.
    - intros (Hb & Hbid & Hbact & Hne). split; [now apply Hkept|now split]. }
  rewrite Hbids, Hfst, Hget.
  eexists last, (deactivate last), _. split; [now repeat split|].
  split; [apply in_deactivate_bid; exists last; now rewrite Z.eqb_refl|].
  do 7 (split; [reflexivity || exact Hid|]).
  split; [exact Hrows|].
  split; [exact Hkept|].
  split.
  { unfold deactivate_bid. rewrite map_map. apply map_ext.
    intros b. now destruct (bid_id b =? bid_id last). }
  split; [exact Hactive|].
  split; [reflexivity|].
  split; [reflexivity|].
  split; [now repeat split|].
  destruct (order_by_limit_1 amount_desc
              (active_bids aid (deactivate_bid (bid_id last) (bids s))))
    as [top|] eqn:Htop; simpl.
  - split; [|now split]. exists top.
    pose proof (top_bid_leads _ _ _ Htop) as Hl.
    destruct Hl as (Ht & Htid & Htact & Htmax).
    destruct (proj1 (Hactive top) (conj Ht (conj Htid Htact))) as (Ht' & _ & _ & Hne).
    split; [now repeat split|]. now repeat split.
  - apply top_bid_none in Htop.
    split; [|split; [exact Htop|now split]].
    intros b Hb Hbid Hbact.
    destruct (bid_eq_dec_by_id (bids s) Hnd b last Hb Hin) as [E|Hne]; [exact E|].
    exfalso. rewrite (Htop b (Hkept b Hb Hne) Hbid) in Hbact. discriminate.
Qed.

(** Retracting the bid of 7000 placed after one of 6000: its row is
    inactive afterwards. *)
Lemma remove_last_bid_effect_witness :
  exists last gone a',
    placed_last 1 (bids two_bids) last /\
    amount last = 7000 /\
    In gone (bids (snd (remove_last_bid 1 two_bids))) /\
    bid_id gone = bid_id last /\ bid_is_active gone = false /\
    get_auction 1 (snd (remove_last_bid 1 two_bids)) = Some a' /\
    previous_bidder a' = Some (bidder_name last).
Proof.
  destruct (remove_last_bid_effect two_bids 1
              (lead_with 7000 "@gary"
                 (lead_with 6000 "@ash"
                    (new_auction init_db "Pikachu" None 5000 None 100)))
              (mk_bid 2 1 43 "@gary" 7000 300 true))
    as (last & gone & a' & Hpl & Hgone & Hgid & Hgact & _ & _ & _ & _ & _ & _ & _ & _ & _
        & Hget & Hprev & _).
  - reflexivity.
  - simpl. repeat constructor; simpl; intuition discriminate.
  - simpl. now right; left.
  - reflexivity.
  - reflexivity.
  - exists last, gone, a'.
    split; [exact Hpl|]. split; [|now repeat split].
    destruct Hpl as (Hin & _ & Hact & Hlatest).
    simpl in Hin.
    destruct Hin as [<-|[<-|[]]]; [|reflexivity].
    exfalso.
    destruct (Hlatest (mk_bid 2 1 43 "@gary" 7000 300 true)) as [H|[H _]];
      simpl; auto; simpl in H; lia.
Defined.

(** C6. On an auction with no active bid, [remove_last_bid] returns [None]
    and leaves the store as it is, and [handle_remove_bid] answers that
    there are no active bids to remove. That is the case of the second of
    two calls in a row on an auction that has had a single bid: the first
    returns the pair (None, None), the second returns [None] and changes
    nothing. *)
Theorem remove_last_bid_nothing_to_remove (s : db) (aid : Z) :
  (no_active_bid aid (bids s) ->
     remove_last_bid aid s = (None, s) /\
     (forall a, get_auction aid s = Some a ->
                handle_remove_bid true (Some aid) s = (NoActiveBidsToRemove aid, s))) /\
  (forall b, filter (fun x => bid_auction_id x =? aid) (bids s) = [b] ->
             bid_is_active b = true ->
             fst (remove_last_bid aid s) = Some (None, None) /\
             remove_last_bid aid (snd (remove_last_bid aid s)) =
               (None, snd (remove_last_bid aid s)) /\
             (forall a, get_auction aid s = Some a ->
                        handle_remove_bid true (Some aid) (snd (remove_last_bid aid s)) =
                          (NoActiveBidsToRemove aid, snd (remove_last_bid aid s)))).
Proof.
  assert (Hidle : forall s0, no_active_bid aid (bids s0) ->
            remove_last_bid aid s0 = (None, s0) /\
            (forall a, get_auction aid s0 = Some a ->
               handle_remove_bid true (Some aid) s0 = (NoActiveBidsToRemove aid, s0))).
  { intros s0 Hnone.
    assert (Hrm : remove_last_bid aid s0 = (None, s0)).
    { unfold remove_last_bid. apply last_bid_none in Hnone. now rewrite Hnone. }
    split; [exact Hrm|].
    intros a Ha. unfold handle_remove_bid. simpl. now rewrite Ha, Hrm. }
  split; [apply Hidle|].
  intros b Hfilter Hbact.
  assert (Hsole : forall y, In y (bids s) -> bid_auction_id y = aid -> y = b).
  { intros y Hy Hyid.
    assert (Hin : In y (filter (fun x => bid_auction_id x =? aid) (bids s))).
    { apply filter_In. split; [assumption|now apply Z.eqb_eq]. }
    rewrite Hfilter in Hin. destruct Hin as [->|[]]. reflexivity. }
  assert (Hb : In b (bids s) /\ bid_auction_id b = aid).
  { assert (Hin : In b (filter (fun x => bid_auction_id x =? aid) (bids s)))
      by (rewrite Hfilter; now left).
    apply filter_In in Hin as [Hin E]. apply Z.eqb_eq in E. now split. }
  destruct Hb as [Hbin Hbid].
  destruct (order_by_limit_1 timestamp_desc_bid_id_desc (active_bids aid (bids s)))
    as [last|] eqn:Hlast.
  2:{ apply last_bid_none in Hlast. rewrite (Hlast b Hbin Hbid) in Hbact. discriminate. }
  assert (last = b) as ->.
  { apply last_bid_placed_last in Hlast as (Hin & Hid & _). now apply Hsole. }
  assert (Hnone : no_active_bid aid (deactivate_bid (bid_id b) (bids s))).
  { intros y Hy Hyid. apply in_deactivate_bid in Hy as (z & Hz & ->).
    destruct (Z.eqb_spec (bid_id z) (bid_id b)) as [E|E]; [reflexivity|].
    exfalso. apply E. f_equal. now apply Hsole. }
  assert (Hs1 : bids (snd (remove_last_bid aid s)) = deactivate_bid (bid_id b) (bids s)).
  { unfold remove_last_bid. now rewrite Hlast. }
  split.
  { unfold remove_last_bid. rewrite Hlast. simpl.
    apply top_bid_none in Hnone. now rewrite Hnone. }
  rewrite <- Hs1 in Hnone.
  destruct (Hidle _ Hnone) as [Hrm Hh].
  split; [exact Hrm|].
  intros a Ha. rewrite (get_auction_remove_last_bid aid s a b Ha Hlast) in Hh.
  eapply Hh. reflexivity.
Qed.

(** Two retractions in a row after a single bid of 6000. *)
Lemma remove_last_bid_nothing_to_remove_witness :
  fst (remove_last_bid 1 single_bid) = Some (None, None) /\
  remove_last_bid 1 (snd (remove_last_bid 1 single_bid)) =
    (None, snd (remove_last_bid 1 single_bid)) /\
  handle_remove_bid true (Some 1) (snd (remove_last_bid 1 single_bid)) =
    (NoActiveBidsToRemove 1, snd (remove_last_bid 1 single_bid)).
Proof.
  destruct (remove_last_bid_nothing_to_remove single_bid 1) as [_ H].
  destruct (H (mk_bid 1 1 42 "@ash" 6000 200 true) eq_refl eq_refl)
    as (H1 & H2 & H3).
  split; [exact H1|]. split; [exact H2|].
  apply (H3 (lead_with 6000 "@ash" (new_auction init_db "Pikachu" None 5000 None 100))).
  reflexivity.
Defined.

(** ** The consistency invariant *)

Lemma next_rowid_above (ids : list Z) (i : Z) : In i ids -> i < next_rowid ids.
Proof.
  unfold next_rowid. induction ids as [|j ids IH]; [intros []|].
  cbn [fold_right In]. intros [->|H]; [lia|]. specialize (IH H). lia.
Qed.

Lemma next_rowid_fresh (ids : list Z) : ~ In (next_rowid ids) ids.
Proof. intros H. apply next_rowid_above in H. lia. Qed.

Lemma agrees_ext bs bs' aid cb :
  (forall x, bid_auction_id x = aid -> bid_is_active x = true ->
             (In x bs <-> In x bs')) ->
  agrees bs aid cb -> agrees bs' aid cb.
Proof.
  intros Hext [Hnone Hsome]. split.
  - rewrite Hnone. split; intros H x Hx Hid;
      (destruct (bid_is_active x) eqn:Hact; [|reflexivity]);
      rewrite <- Hact; apply H; auto; now apply (Hext x Hid Hact).
  - intros c Hc. destruct (Hsome c Hc) as (b & (Hb & Hid & Hact & Hmax) & Hamt).
    exists b. split; [|exact Hamt].
    repeat split; auto.
    + now apply (Hext b Hid Hact).
    + intros x Hx Hxid Hxact. apply Hmax; auto. now apply (Hext x Hxid Hxact).
Qed.

Lemma agrees_top aid bs :
  agrees bs aid (option_map amount (order_by_limit_1 amount_desc (active_bids aid bs))).
Proof.
  destruct (order_by_limit_1 amount_desc (active_bids aid bs)) as [top|] eqn:Htop; simpl.
  - split.
    + split; [discriminate|]. intros Hnone. apply top_bid_none in Hnone. congruence.
    + intros c [= <-]. exists top. split; [now apply top_bid_leads|reflexivity].
  - split.
    + split; [intros _; now apply top_bid_none|reflexivity].
    + discriminate.
Qed.

Lemma in_update_auction aid f l a' :
  In a' (update_auction aid f l) <->
  exists a, In a l /\ a' = if auction_id a =? aid then f a else a.
Proof.
  unfold update_auction. rewrite in_map_iff.
  split.
  - intros (a & E & Ha). exists a. now split.
  - intros (a & Ha & E). exists a. now split.
Qed.

Lemma consistent_same_bids s s' :
  bids s' = bids s ->
  (forall a', In a' (auctions s') ->
     exists a, In a (auctions s) /\ auction_id a' = auction_id a /\
               current_bid a' = current_bid a) ->
  consistent s -> consistent s'.
Proof.
  intros Hb Ha Hc a' Ha'. destruct (Ha a' Ha') as (a & Hin & -> & ->).
  rewrite Hb. now apply Hc.
Qed.

Lemma well_keyed_same_bids s s' :
  bids s' = bids s ->
  (forall a, In a (auctions s) -> exists a', In a' (auctions s') /\ auction_id a' = auction_id a) ->
  well_keyed s -> well_keyed s'.
Proof.
  intros Hb Ha [Href Hnd]. unfold well_keyed. rewrite Hb. split; [|exact Hnd].
  intros b Hin. destruct (Href b Hin) as (a & Hain & E).
  destruct (Ha a Hain) as (a' & Ha' & E'). exists a'. split; [assumption|congruence].
Qed.

Lemma save_auction_outcomes text photo price ref now s :
  (exists e, save_auction text photo price ref now s = (Raise e, s)) \/
  save_auction text photo price ref now s = (Return None, s) \/
  exists p, save_auction text photo price ref now s =
              (Return (Some (next_rowid (map auction_id (auctions s)))),
               with_auctions s (auctions s ++ [new_auction s text photo p ref now])).
Proof.
  unfold save_auction, insert_auction.
  destruct price as [p|]; [|left; eauto].
  destruct (String.eqb text EmptyString); [left; eauto|].
  destruct (supplied ref) as [r|]; [destruct (channel_message_known r s)|];
    simpl; eauto.
Qed.

Lemma insert_keeps_invariant s a :
  auction_id a = next_rowid (map auction_id (auctions s)) ->
  current_bid a = None ->
  well_keyed s /\ consistent s ->
  well_keyed (with_auctions s (auctions s ++ [a])) /\
  consistent (with_auctions s (auctions s ++ [a])).
Proof.
  intros Hid Hcb [Hk Hc]. split.
  - apply (well_keyed_same_bids s); [reflexivity| |exact Hk].
    intros x Hx. exists x. split; [|reflexivity]. simpl. apply in_or_app. now left.
  - intros x Hx. simpl in Hx. apply in_app_or in Hx as [Hx|[<-|[]]]; simpl.
    + now apply Hc.
    + rewrite Hcb. split; [|discriminate].
      split; [|reflexivity]. intros _ b Hb Hbid. exfalso.
      destruct Hk as [Href _]. destruct (Href b Hb) as (a0 & Ha0 & E).
      apply (next_rowid_fresh (map auction_id (auctions s))).
      rewrite <- Hid, <- Hbid, <- E. now apply in_map.
Qed.

Lemma save_auction_keeps_invariant text photo price ref now s :
  well_keyed s /\ consistent s ->
  well_keyed (snd (save_auction text photo price ref now s)) /\
  consistent (snd (save_auction text photo price ref now s)).
Proof.
  intros H.
  destruct (save_auction_outcomes text photo price ref now s)
    as [(e & ->)|[->|(p & ->)]]; [exact H|exact H|].
  now apply insert_keeps_invariant.
Qed.

Lemma relabel_keeps_invariant s s' aid f :
  bids s' = bids s ->
  auctions s' = update_auction aid f (auctions s) ->
  (forall a, auction_id (f a) = auction_id a /\ current_bid (f a) = current_bid a) ->
  well_keyed s /\ consistent s -> well_keyed s' /\ consistent s'.
Proof.
  intros Hb Ha Hf [Hk Hc]. split.
  - apply (well_keyed_same_bids s); auto.
    intros a Hin. rewrite Ha.
    exists (if auction_id a =? aid then f a else a). split.
    + apply in_update_auction. now exists a.
    + destruct (auction_id a =? aid); [apply Hf|reflexivity].
  - apply (consistent_same_bids s); auto.
    intros a' Ha'. rewrite Ha in Ha'. apply in_update_auction in Ha' as (a & Hin & ->).
    exists a. split; [assumption|].
    destruct (auction_id a =? aid); [apply Hf|now split].
Qed.

Lemma approve_submission_keeps_invariant sid text photo price message_id now s :
  well_keyed s /\ consistent s ->
  well_keyed (approve_submission sid text photo price message_id now s) /\
  consistent (approve_submission sid text photo price message_id now s).
Proof.
  intros H. unfold approve_submission.
  set (s1 := with_submissions s (set_status sid "processing" (submissions s))).
  assert (H1 : well_keyed s1 /\ consistent s1) by exact H.
  pose proof (save_auction_keeps_invariant text photo price None now s1 H1) as H2.
  destruct (save_auction text photo price None now s1) as [[[aid|]|e] s2]; simpl in H2;
    try exact H2.
  apply (relabel_keeps_invariant s2 _ aid (posted message_id)); auto.
Qed.

Lemma min_increment_positive current : 0 < get_min_increment current.
Proof.
  destruct current as [c|]; simpl; [|lia].
  destruct (c =? 0), (c <? 20000), (c <? 40000), (c <? 70000), (c <? 100000); lia.
Qed.

Lemma deactivate_bid_ids id l : map bid_id (deactivate_bid id l) = map bid_id l.
Proof.
  unfold deactivate_bid. rewrite map_map. apply map_ext.
  intros b. now destruct (bid_id b =? id).
Qed.

Lemma record_bid_keeps_invariant s aid bidder name amt now a :
  get_auction aid s = Some a ->
  spec_amount_precondition a amt ->
  well_keyed s /\ consistent s ->
  well_keyed (snd (record_bid aid bidder name amt now s)) /\
  consistent (snd (record_bid aid bidder name amt now s)).
Proof.
  intros Ha Hpre [[Href Hnd] Hc].
  apply get_auction_in in Ha as [Hain Haid].
  unfold record_bid. simpl.
  set (row := {| bid_id := next_rowid (map bid_id (bids s)); bid_auction_id := aid;
                 bidder_id := bidder; bidder_name := escape_markdown name;
                 amount := amt; timestamp := now; bid_is_active := true |}).
  assert (Hkeep : forall a1, In a1 (auctions s) ->
            exists a', In a' (update_auction aid (lead_with amt (escape_markdown name))
                                (auctions s)) /\
                       auction_id a' = auction_id a1).
  { intros a1 Ha1.
    exists (if auction_id a1 =? aid then lead_with amt (escape_markdown name) a1 else a1).
    split; [apply in_update_auction; now exists a1|].
    now destruct (auction_id a1 =? aid). }
  split; [split|]; simpl.
  - intros b Hb. apply in_app_or in Hb as [Hb|[<-|[]]].
    + destruct (Href b Hb) as (a1 & Ha1 & E).
      destruct (Hkeep a1 Ha1) as (a' & Ha' & E'). exists a'. split; [assumption|congruence].
    + destruct (Hkeep a Hain) as (a' & Ha' & E'). exists a'. split; [assumption|].
      simpl. congruence.
  - rewrite map_app. simpl.
    apply (Permutation_NoDup (Permutation_cons_append _ _)).
    constructor; [apply next_rowid_fresh|exact Hnd].
  - intros a' Ha'. simpl in Ha'. apply in_update_auction in Ha' as (a1 & Ha1 & ->).
    simpl. destruct (Z.eqb_spec (auction_id a1) aid) as [E|E]; simpl.
    + rewrite E. split.
      * split; [discriminate|]. intros Hnone.
        assert (Hrow : bid_is_active row = false).
        { apply Hnone; [apply in_or_app; right; now left|reflexivity]. }
        discriminate.
      * intros c [= <-]. exists row. split; [|reflexivity].
        repeat split; [apply in_or_app; right; now left|].
        intros x Hx Hxid Hxact. apply in_app_or in Hx as [Hx|[<-|[]]]; [|simpl; lia].
        destruct (Hc a Hain) as [Hnone Hsome]. rewrite Haid in *.
        unfold spec_amount_precondition in Hpre.
        destruct (current_bid a) as [c|].
        -- destruct (Hsome c eq_refl) as (b & (_ & _ & _ & Hmax) & Hamt).
           specialize (Hmax x Hx Hxid Hxact).
           pose proof (min_increment_positive (Some c)). simpl amount. lia.
        -- destruct Hnone as [Hnone _]. rewrite (Hnone eq_refl x Hx Hxid) in Hxact.
           discriminate.
    + apply (agrees_ext (bids s)); [|now apply Hc].
      intros x Hxid Hxact. split; intros Hx.
      * apply in_or_app. now left.
      * apply in_app_or in Hx as [Hx|[<-|[]]]; [assumption|].
        simpl in Hxid. congruence.
Qed.

Lemma remove_last_bid_keeps_invariant s aid :
  well_keyed s /\ consistent s ->
  well_keyed (snd (remove_last_bid aid s)) /\ consistent (snd (remove_last_bid aid s)).
Proof.
  intros [[Href Hnd] Hc]. unfold remove_last_bid.
  destruct (order_by_limit_1 timestamp_desc_bid_id_desc (active_bids aid (bids s)))
    as [last|] eqn:Hlast; [|split; [split|]; assumption].
  apply last_bid_placed_last in Hlast as (Hlin & Hlid & _).
  set (top := order_by_limit_1 amount_desc
                (active_bids aid (deactivate_bid (bid_id last) (bids s)))).
  split; [split|]; simpl.
  - intros b Hb. apply in_deactivate_bid in Hb as (y & Hy & ->).
    destruct (Href y Hy) as (a1 & Ha1 & E).
    exists (if auction_id a1 =? aid then retracted top (bidder_name last) a1 else a1).
    split; [apply in_update_auction; now exists a1|].
    destruct (auction_id a1 =? aid), (bid_id y =? bid_id last); simpl; exact E.
  - now rewrite deactivate_bid_ids.
  - intros a' Ha'. simpl in Ha'. apply in_update_auction in Ha' as (a1 & Ha1 & ->).
    simpl. destruct (Z.eqb_spec (auction_id a1) aid) as [E|E]; simpl.
    + rewrite E. apply agrees_top.
    + apply (agrees_ext (bids s)); [|now apply Hc].
      intros x Hxid Hxact. split; intros Hx.
      * apply in_deactivate_bid. exists x. split; [assumption|].
        destruct (Z.eqb_spec (bid_id x) (bid_id last)) as [Eid|]; [|reflexivity].
        exfalso. apply E. rewrite <- Hxid, <- Hlid. f_equal.
        now apply (same_id_same_row (bids s)).
      * apply in_deactivate_bid in Hx as (y & Hy & ->).
        destruct (bid_id y =? bid_id last); [discriminate|assumption].
Qed.

Lemma reachable_invariant s : reachable s -> well_keyed s /\ consistent s.
Proof.
  induction 1 as [ | s text photo price ref now _ IH
                   | s sid text photo price message_id now _ IH
                   | s aid bidder name amt now a _ IH Ha Hact Hpre
                   | s aid _ IH
                   | s user payload now _ IH
                   | s _ IH | s _ IH ].
  - split; [split|]; simpl; [intros b []|constructor|intros a []].
  - now apply save_auction_keeps_invariant.
  - now apply approve_submission_keeps_invariant.
  - now apply (record_bid_keeps_invariant s aid bidder name amt now a).
  - now apply remove_last_bid_keeps_invariant.
  - exact IH.
  - exact IH.
  - exact IH.
Qed.

(** C4. In every store the ledger's operations produce from a new database,
    each auction's [current_bid] is NULL exactly when no active bid refers to
    the auction, and otherwise equals the highest amount among its active
    bids; and from such a store the invariant still holds after an auction
    creation, after [record_bid] on an existing active auction with an amount
    that meets its precondition, and after [remove_last_bid]. *)
Theorem current_bid_consistent (s : db) :
  reachable s ->
  consistent s /\
  (forall text photo price ref now,
     consistent (snd (save_auction text photo price ref now s))) /\
  (forall aid bidder name amt now a,
     get_auction aid s = Some a -> is_active a = true ->
     spec_amount_precondition a amt ->
     consistent (snd (record_bid aid bidder name amt now s))) /\
  (forall aid, consistent (snd (remove_last_bid aid s))).
Proof.
  intros Hs. split; [|split; [|split]].
  - now apply reachable_invariant.
  - intros. apply reachable_invariant. now constructor.
  - intros aid bidder name amt now a Ha Hact Hpre.
    apply reachable_invariant. now apply (reach_record_bid s aid bidder name amt now a).
  - intros. apply reachable_invariant. now constructor.
Qed.

(** The store after a bid of 6000 on the fresh auction. *)
Lemma current_bid_consistent_witness :
  consistent (snd (record_bid 1 42 "ash" 6000 200 one_auction)).
Proof.
  apply current_bid_consistent.
  apply (reach_record_bid one_auction 1 42 "ash" 6000 200
           (new_auction init_db "Pikachu" None 5000 None 100)).
  - exact (reach_save_auction init_db "Pikachu" None (Some 5000) None 100 reach_init_db).
  - reflexivity.
  - reflexivity.
  - unfold spec_amount_precondition. simpl. lia.
Defined.

(** ** save_auction *)

Lemma supplied_nonzero r : r <> 0 -> supplied (Some r) = Some r.
Proof. intros H. simpl. now destruct (Z.eqb_spec r 0). Qed.

Lemma channel_message_known_iff r s : channel_message_known r s = true <-> references r s.
Proof.
  unfold channel_message_known, references. rewrite existsb_exists.
  split; intros (a & Ha & E); exists a; (split; [assumption|]).
  - destruct (channel_message_id a) as [c|]; [|discriminate].
    simpl in E. apply Z.eqb_eq in E. now subst.
  - rewrite E. simpl. apply Z.eqb_refl.
Qed.

Lemma nonempty_eqb text : text <> EmptyString -> String.eqb text EmptyString = false.
Proof. intros H. now apply String.eqb_neq. Qed.

Lemma save_auction_duplicate text photo price r now s :
  text <> EmptyString -> r <> 0 -> references r s ->
  save_auction text photo (Some price) (Some r) now s = (Return None, s).
Proof.
  intros Htext Hr Href. unfold save_auction.
  rewrite (nonempty_eqb _ Htext), (supplied_nonzero _ Hr).
  apply channel_message_known_iff in Href. now rewrite Href.
Qed.

Lemma save_auction_inserts text photo price ref now s :
  text <> EmptyString ->
  (forall r, supplied ref = Some r -> ~ references r s) ->
  save_auction text photo (Some price) ref now s =
  (Return (Some (next_rowid (map auction_id (auctions s)))),
   with_auctions s (auctions s ++ [new_auction s text photo price ref now])).
Proof.
  intros Htext Hnew. unfold save_auction, insert_auction.
  rewrite (nonempty_eqb _ Htext).
  destruct (supplied ref) as [r|] eqn:Hsup; [|reflexivity].
  destruct (channel_message_known r s) eqn:Hknown; [|reflexivity].
  exfalso. apply (Hnew r eq_refl). now apply channel_message_known_iff.
Qed.

Lemma rows_for_zero r s : ~ references r s -> rows_for r s = 0%nat.
Proof.
  intros H. unfold rows_for.
  destruct (filter (fun a => sql_eq (channel_message_id a) r) (auctions s))
    as [|a l] eqn:E; [reflexivity|].
  exfalso. apply H, channel_message_known_iff.
  unfold channel_message_known. apply existsb_exists. exists a.
  assert (Hin : In a (filter (fun a => sql_eq (channel_message_id a) r) (auctions s)))
    by (rewrite E; now left).
  now apply filter_In in Hin.
Qed.

(** C7, as the code has it. With a non-empty item text and a base price:
    when a channel message id is supplied (not None, not 0) and some
    auction of the table, active or not, carries it, [save_auction] returns
    [None] without raising and leaves the store as it is; otherwise it appends
    one auction, with a new id, NULL [current_bid] and [current_bidder], and
    the active flag set. Two calls with the same supplied id, on a store
    where no auction carried it, leave exactly one auction row for it, the
    second call returning [None]. *)
Theorem save_auction_idempotent (text : string) (photo : option string) (price : Z)
    (ref : option Z) (now : Z) (s : db) :
  text <> EmptyString ->
  (forall r, ref = Some r -> r <> 0 -> references r s ->
     save_auction text photo (Some price) ref now s = (Return None, s)) /\
  ((forall r, supplied ref = Some r -> ~ references r s) ->
     exists a,
       save_auction text photo (Some price) ref now s =
         (Return (Some (auction_id a)), with_auctions s (auctions s ++ [a])) /\
       (forall a0, In a0 (auctions s) -> auction_id a0 < auction_id a) /\
       item_text a = text /\ base_price a = price /\
       channel_message_id a = ref /\
       current_bid a = None /\ current_bidder a = None /\ is_active a = true) /\
  (forall r text' photo' price' now',
     ref = Some r -> r <> 0 -> ~ references r s -> text' <> EmptyString ->
     save_auction text' photo' (Some price') ref now'
       (snd (save_auction text photo (Some price) ref now s)) =
       (Return None, snd (save_auction text photo (Some price) ref now s)) /\
     rows_for r (snd (save_auction text photo (Some price) ref now s)) = 1%nat).
Proof.
  intros Htext. split; [|split].
  - intros r -> Hr Href. now apply save_auction_duplicate.
  - intros Hnew. exists (new_auction s text photo price ref now).
    split; [now apply save_auction_inserts|].
    split; [|now repeat split].
    intros a0 Ha0. simpl. apply next_rowid_above. now apply in_map.
  - intros r text' photo' price' now' -> Hr Hnone Htext'.
    rewrite (save_auction_inserts text photo price (Some r) now s Htext).
    2:{ intros r'. rewrite (supplied_nonzero _ Hr). now intros [= <-]. }
    simpl. split.
    + apply save_auction_duplicate; auto.
      exists (new_auction s text photo price (Some r) now).
      split; [simpl; apply in_or_app; right; now left|reflexivity].
    + pose proof (rows_for_zero r s Hnone) as Hz. unfold rows_for in *. simpl.
      rewrite filter_app, length_app, Hz. simpl. now rewrite Z.eqb_refl.
Qed.

(** Posting the channel message 77 twice on a new database. *)
Lemma save_auction_idempotent_witness :
  save_auction "Pikachu" None (Some 5000) (Some 77) 200
    (snd (save_auction "Pikachu" None (Some 5000) (Some 77) 100 init_db)) =
    (Return None, snd (save_auction "Pikachu" None (Some 5000) (Some 77) 100 init_db)) /\
  rows_for 77 (snd (save_auction "Pikachu" None (Some 5000) (Some 77) 100 init_db)) = 1%nat.
Proof.
  destruct (save_auction_idempotent "Pikachu" None 5000 (Some 77) 100 init_db)
    as (_ & _ & H).
  - discriminate.
  - apply (H 77 "Pikachu"%string None 5000 200).
    + reflexivity.
    + discriminate.
    + intros (a & [] & _).
    + discriminate.
Defined.

(** C7, as the claim has it, fails: no active auction carries the channel
    message id 77, only a closed one, and [save_auction] still returns [None]
    and inserts nothing. *)
Lemma save_auction_closed_counterexample :
  existsb (fun a => is_active a && sql_eq (channel_message_id a) 77)
    (auctions closed_auction_store) = false /\
  save_auction "Pikachu" None (Some 5000) (Some 77) 200 closed_auction_store =
    (Return None, closed_auction_store).
Proof. split; reflexivity. Qed.

(** ** A channel message id is never free again *)

Lemma references_update_auction r aid f l a :
  In a l -> channel_message_id a = Some r ->
  (auction_id a = aid -> channel_message_id (f a) = Some r) ->
  exists a', In a' (update_auction aid f l) /\ channel_message_id a' = Some r.
Proof.
  intros Ha Hr Hf.
  exists (if auction_id a =? aid then f a else a).
  split; [apply in_update_auction; now exists a|].
  destruct (Z.eqb_spec (auction_id a) aid); auto.
Qed.

Lemma references_save_auction r text photo price ref now s :
  references r s -> references r (snd (save_auction text photo price ref now s)).
Proof.
  intros (a & Ha & Hr).
  destruct (save_auction_outcomes text photo price ref now s)
    as [(e & ->)|[->|(p & ->)]].
  - now exists a.
  - now exists a.
  - exists a. split; [simpl; apply in_or_app; now left|assumption].
Qed.

Lemma references_record_bid r aid bidder name amt now s :
  references r s -> references r (snd (record_bid aid bidder name amt now s)).
Proof.
  intros (a & Ha & Hr). unfold record_bid. simpl.
  now apply (references_update_auction r aid _ _ a).
Qed.

Lemma references_remove_last_bid r aid s :
  references r s -> references r (snd (remove_last_bid aid s)).
Proof.
  intros (a & Ha & Hr). unfold remove_last_bid.
  destruct (order_by_limit_1 timestamp_desc_bid_id_desc (active_bids aid (bids s)));
    simpl; [|now exists a].
  now apply (references_update_auction r aid _ _ a).
Qed.

Lemma references_approve_submission r sid text photo price message_id now s :
  references r s ->
  references r (approve_submission sid text photo price message_id now s).
Proof.
  intros (a & Ha & Hr). unfold approve_submission.
  set (s1 := with_submissions s (set_status sid "processing" (submissions s))).
  assert (Ha1 : In a (auctions s1)) by exact Ha.
  destruct (save_auction_outcomes text photo price None now s1)
    as [(e & ->)|[->|(p & ->)]].
  - now exists a.
  - now exists a.
  - unfold references. simpl.
    apply (references_update_auction r _ _ _ a); auto.
    + apply in_or_app. now left.
    + intros E. exfalso.
      apply (next_rowid_fresh (map auction_id (auctions s))).
      rewrite <- E. now apply in_map.
Qed.

Lemma references_handle_bid_amount r m now s :
  references r s -> references r (snd (handle_bid_amount m now s)).
Proof.
  intros H. unfold handle_bid_amount.
  destruct (verified m); cbn [negb]; [|exact H].
  destruct (auctions_open s); cbn [negb]; [|exact H].
  destruct (reply_to_message m); [|exact H].
  destruct (bid_context m) as [aid|]; [|exact H].
  destruct (text m) as [bid_amount|]; [|exact H].
  destruct (get_auction aid s) as [a|]; [|exact H].
  destruct (is_active a); cbn [negb]; [|exact H].
  destruct (bid_amount <? _); [exact H|].
  pose proof (references_record_bid r aid (effective_user_id m) (bidder_name_of m)
                bid_amount now s H) as H'.
  destruct (record_bid aid (effective_user_id m) (bidder_name_of m) bid_amount now s)
    as [prev s'].
  cbn [snd] in H'. now destruct (get_auction aid s').
Qed.

Lemma references_handle_remove_bid r is_admin arg s :
  references r s -> references r (snd (handle_remove_bid is_admin arg s)).
Proof.
  intros H. unfold handle_remove_bid.
  destruct is_admin; cbn [negb]; [|exact H].
  destruct arg as [aid|]; [|exact H].
  destruct (get_auction aid s) as [a|]; [|exact H].
  pose proof (references_remove_last_bid r aid s H) as H'.
  destruct (remove_last_bid aid s) as [[[nb na]|] s']; exact H'.
Qed.

Lemma references_step r s s' : ledger_step s s' -> references r s -> references r s'.
Proof.
  intros Hstep H. destruct Hstep.
  - now apply references_save_auction.
  - now apply references_approve_submission.
  - now apply references_record_bid.
  - now apply references_handle_bid_amount.
  - now apply references_remove_last_bid.
  - now apply references_handle_remove_bid.
  - exact H.
  - exact H.
  - exact H.
Qed.

Lemma references_later r s s' : later s s' -> references r s -> references r s'.
Proof.
  induction 1 as [|s s1 s2 _ IH Hstep]; [auto|].
  intros H. apply (references_step r s1); auto.
Qed.

(** C10. The guard of [save_auction] looks at every auction row, whatever
    its active flag: once an auction, closed ones included, carries the
    channel message id [r], then after any further writes of the bot to the
    store a call of [save_auction] with [r] returns [None] and inserts
    nothing, so no second auction ever gets [r] through it. *)
Theorem channel_message_never_reused (s s' : db) (a : auction) (r : Z)
    (text : string) (photo : option string) (price now : Z) :
  In a (auctions s) -> channel_message_id a = Some r -> r <> 0 ->
  later s s' ->
  text <> EmptyString ->
  save_auction text photo (Some price) (Some r) now s' = (Return None, s') /\
  rows_for r (snd (save_auction text photo (Some price) (Some r) now s')) = rows_for r s'.
Proof.
  intros Ha Hr Hnz Hlater Htext.
  assert (Href : references r s') by (apply (references_later r s); [assumption|now exists a]).
  rewrite (save_auction_duplicate text photo price r now s' Htext Hnz Href).
  now split.
Qed.

(** The closed auction of [closed_auction_store] keeps 77 taken, also after
    another auction was created and bid on. *)
Lemma channel_message_never_reused_witness :
  save_auction "Eevee" None (Some 3000) (Some 77) 400
    (snd (record_bid 2 42 "ash" 9000 300
            (snd (save_auction "Mew" None (Some 8000) None 200 closed_auction_store)))) =
  (Return None,
   snd (record_bid 2 42 "ash" 9000 300
          (snd (save_auction "Mew" None (Some 8000) None 200 closed_auction_store)))).
Proof.
  apply (channel_message_never_reused closed_auction_store _
           (mk_auction 1 "Pikachu" None 5000 None None None false (Some 77) None 100)
           77 "Eevee" None 3000 400).
  - now left.
  - reflexivity.
  - discriminate.
  - eapply later_step; [eapply later_step; [apply later_now|]|].
    + apply (step_save_auction closed_auction_store "Mew" None (Some 8000) None 200).
    + apply step_record_bid.
  - discriminate.
Defined.

(** ** The bidding scenario *)

Lemma active_bids_app aid l1 l2 :
  active_bids aid (l1 ++ l2) = active_bids aid l1 ++ active_bids aid l2.
Proof. apply filter_app. Qed.

Lemma deactivate_bid_app id l1 l2 :
  deactivate_bid id (l1 ++ l2) = deactivate_bid id l1 ++ deactivate_bid id l2.
Proof. apply map_app. Qed.

Lemma no_active_bid_deactivate aid id bs :
  no_active_bid aid bs -> no_active_bid aid (deactivate_bid id bs).
Proof.
  intros H x Hx Hid. apply in_deactivate_bid in Hx as (y & Hy & ->).
  destruct (bid_id y =? id); [reflexivity|now apply H].
Qed.

Lemma retract_second_of_two s aid u1 n1 c1 t1 u2 n2 c2 t2 :
  no_active_bid aid (bids s) -> t1 <= t2 ->
  remove_last_bid aid
    (snd (record_bid aid u2 n2 c2 t2 (snd (record_bid aid u1 n1 c1 t1 s)))) =
  (Some (Some (escape_markdown n1), Some c1),
   {| auctions :=
        update_auction aid
          (retracted
             (Some (mk_bid (next_rowid (map bid_id (bids s))) aid u1
                      (escape_markdown n1) c1 t1 true))
             (escape_markdown n2))
          (auctions (snd (record_bid aid u2 n2 c2 t2 (snd (record_bid aid u1 n1 c1 t1 s)))));
      bids := deactivate_bid
                (next_rowid (map bid_id (bids (snd (record_bid aid u1 n1 c1 t1 s)))))
                (bids (snd (record_bid aid u2 n2 c2 t2 (snd (record_bid aid u1 n1 c1 t1 s)))));
      submissions := submissions s;
      submissions_open := submissions_open s;
      auctions_open := auctions_open s |}).
Proof.
  intros Hnone Hle.
  set (row1 := mk_bid (next_rowid (map bid_id (bids s))) aid u1 (escape_markdown n1) c1 t1 true).
  set (row2 := mk_bid (next_rowid (map bid_id (bids s ++ [row1]))) aid u2
                 (escape_markdown n2) c2 t2 true).
  assert (Hids : bid_id row1 < bid_id row2).
  { apply next_rowid_above. rewrite map_app. apply in_or_app. right. now left. }
  assert (Hbids : bids (snd (record_bid aid u2 n2 c2 t2 (snd (record_bid aid u1 n1 c1 t1 s))))
                  = (bids s ++ [row1]) ++ [row2]) by reflexivity.
  assert (Hact : active_bids aid ((bids s ++ [row1]) ++ [row2]) = [row1; row2]).
  { rewrite !active_bids_app. apply active_bids_nil in Hnone. rewrite Hnone.
    unfold active_bids, bid_active_for. simpl. now rewrite Z.eqb_refl. }
  assert (Hlast : order_by_limit_1 timestamp_desc_bid_id_desc [row1; row2] = Some row2).
  { unfold order_by_limit_1. simpl. unfold timestamp_desc_bid_id_desc. simpl timestamp.
    destruct (Z.ltb_spec t1 t2) as [|Hge]; [reflexivity|].
    assert (t1 = t2) as -> by lia. rewrite Z.eqb_refl.
    apply Z.ltb_lt in Hids. now rewrite Hids. }
  assert (Hrest : active_bids aid (deactivate_bid (bid_id row2) ((bids s ++ [row1]) ++ [row2]))
                  = [row1]).
  { rewrite !deactivate_bid_app, !active_bids_app.
    pose proof (no_active_bid_deactivate aid (bid_id row2) _ Hnone) as Hn.
    apply active_bids_nil in Hn. rewrite Hn.
    unfold deactivate_bid, active_bids, bid_active_for.
    cbn [map filter app].
    rewrite Z.eqb_refl.
    destruct (Z.eqb_spec (bid_id row1) (bid_id row2)) as [E|_]; [lia|].
    cbn [bid_auction_id bid_is_active row1 deactivate andb]. rewrite Z.eqb_refl.
    now rewrite andb_false_r. }
  unfold remove_last_bid. rewrite Hbids, Hact, Hlast.
  cbv zeta. rewrite Hrest. reflexivity.
Qed.

Lemma handle_bid_amount_low m now s aid amt a :
  auctions_open s = true -> answering aid amt m ->
  get_auction aid s = Some a -> is_active a = true ->
  amt < current_amount_of a + get_min_increment (Some (current_amount_of a)) ->
  handle_bid_amount m now s =
  (BidTooLow (current_amount_of a + get_min_increment (Some (current_amount_of a)))
     (current_amount_of a) (get_min_increment (Some (current_amount_of a))), s).
Proof.
  intros Hopen (Hver & Hreply & Hctx & Htext) Ha Hact Hlow.
  apply Z.ltb_lt in Hlow.
  unfold handle_bid_amount.
  rewrite Hver, Hopen, Hreply, Hctx, Htext, Ha, Hact. cbn [negb]. cbv iota zeta.
  now rewrite Hlow.
Qed.

Lemma handle_bid_amount_high m now s aid amt a :
  auctions_open s = true -> answering aid amt m ->
  get_auction aid s = Some a -> is_active a = true ->
  current_amount_of a + get_min_increment (Some (current_amount_of a)) <= amt ->
  exists outbid,
    handle_bid_amount m now s =
    (BidPlaced outbid,
     snd (record_bid aid (effective_user_id m) (bidder_name_of m) amt now s)).
Proof.
  intros Hopen (Hver & Hreply & Hctx & Htext) Ha Hact Hhigh.
  apply Z.ltb_ge in Hhigh.
  pose proof (get_auction_record_bid aid (effective_user_id m) (bidder_name_of m)
                amt now s a Ha) as Hupd.
  unfold handle_bid_amount.
  rewrite Hver, Hopen, Hreply, Hctx, Htext, Ha, Hact. cbn [negb]. cbv iota zeta.
  rewrite Hhigh.
  destruct (record_bid aid (effective_user_id m) (bidder_name_of m) amt now s)
    as [prev s'].
  cbn [snd] in *. rewrite Hupd. eexists. reflexivity.
Qed.

(** C9. On an active auction with base price 5000 and no bid, while
    auctions are open: a bid of 6000 is placed (the threshold is 5000 + 1000);
    a bid of 6999 is then refused with the threshold 7000 = 6000 + 1000 and
    changes nothing; a bid of 7000 is placed; and one [remove_last_bid], the
    bid of 7000 not being older than the one of 6000, returns the first
    bidder with 6000 and leaves [current_bid] 6000 and [current_bidder] the
    first bidder, as the first bid had set it. *)
Theorem bidding_scenario (s : db) (aid : Z) (a : auction)
    (m1 m2 m3 : bid_message) (t1 t2 t3 : Z) :
  auctions_open s = true ->
  get_auction aid s = Some a -> is_active a = true ->
  base_price a = 5000 -> current_bid a = None -> no_active_bid aid (bids s) ->
  answering aid 6000 m1 -> answering aid 6999 m2 -> answering aid 7000 m3 ->
  t1 <= t3 ->
  exists s1 s3 s4 o1 o3 a1 a3 a4,
    handle_bid_amount m1 t1 s = (BidPlaced o1, s1) /\
    get_auction aid s1 = Some a1 /\ current_bid a1 = Some 6000 /\
    handle_bid_amount m2 t2 s1 = (BidTooLow 7000 6000 1000, s1) /\
    handle_bid_amount m3 t3 s1 = (BidPlaced o3, s3) /\
    get_auction aid s3 = Some a3 /\ current_bid a3 = Some 7000 /\
    remove_last_bid aid s3 =
      (Some (Some (escape_markdown (bidder_name_of m1)), Some 6000), s4) /\
    get_auction aid s4 = Some a4 /\
    current_bid a4 = Some 6000 /\
    current_bidder a4 = current_bidder a1 /\
    current_bidder a4 = Some (escape_markdown (bidder_name_of m1)).
Proof.
  intros Hopen Ha Hact Hbase Hcb Hnone H1 H2 H3 Hle.
  set (s1 := snd (record_bid aid (effective_user_id m1) (bidder_name_of m1) 6000 t1 s)).
  set (s3 := snd (record_bid aid (effective_user_id m3) (bidder_name_of m3) 7000 t3 s1)).
  set (a1 := lead_with 6000 (escape_markdown (bidder_name_of m1)) a).
  set (a3 := lead_with 7000 (escape_markdown (bidder_name_of m3)) a1).
  assert (Hcur : current_amount_of a = 5000).
  { unfold current_amount_of. now rewrite Hcb. }
  assert (Ha1 : get_auction aid s1 = Some a1) by now apply get_auction_record_bid.
  assert (Ha3 : get_auction aid s3 = Some a3) by now apply get_auction_record_bid.
  destruct (handle_bid_amount_high m1 t1 s aid 6000 a Hopen H1 Ha Hact) as [o1 Hr1].
  { rewrite Hcur. simpl. lia. }
  pose proof (handle_bid_amount_low m2 t2 s1 aid 6999 a1 Hopen H2 Ha1 Hact) as Hr2.
  destruct (handle_bid_amount_high m3 t3 s1 aid 7000 a1 Hopen H3 Ha1 Hact) as [o3 Hr3].
  { simpl. lia. }
  pose proof (retract_second_of_two s aid (effective_user_id m1) (bidder_name_of m1) 6000 t1
                (effective_user_id m3) (bidder_name_of m3) 7000 t3 Hnone Hle) as Hrm.
  fold s1 in Hrm. fold s3 in Hrm.
  eexists s1, s3, _, o1, o3, a1, a3, _.
  split; [exact Hr1|]. split; [exact Ha1|]. split; [reflexivity|].
  split; [apply Hr2; simpl; lia|].
  split; [exact Hr3|]. split; [exact Ha3|]. split; [reflexivity|].
  split; [exact Hrm|].
  split.
  - unfold get_auction. cbn [auctions]. rewrite find_update_auction by reflexivity.
    fold (get_auction aid s3). rewrite Ha3. reflexivity.
  - now repeat split.
Qed.

(** The scenario on the fresh auction of [one_auction]. *)
Lemma bidding_scenario_witness :
  exists s1 s3 s4 o1 o3 a1 a3 a4,
    handle_bid_amount (bid_of 42 "ash" 6000) 200 (start_auction one_auction)
      = (BidPlaced o1, s1) /\
    get_auction 1 s1 = Some a1 /\ current_bid a1 = Some 6000 /\
    handle_bid_amount (bid_of 43 "gary" 6999) 250 s1 = (BidTooLow 7000 6000 1000, s1) /\
    handle_bid_amount (bid_of 43 "gary" 7000) 300 s1 = (BidPlaced o3, s3) /\
    get_auction 1 s3 = Some a3 /\ current_bid a3 = Some 7000 /\
    remove_last_bid 1 s3 =
      (Some (Some (escape_markdown (bidder_name_of (bid_of 42 "ash" 6000))), Some 6000), s4) /\
    get_auction 1 s4 = Some a4 /\
    current_bid a4 = Some 6000 /\
    current_bidder a4 = current_bidder a1 /\
    current_bidder a4 = Some (escape_markdown (bidder_name_of (bid_of 42 "ash" 6000))).
Proof.
  apply (bidding_scenario (start_auction one_auction) 1
           (new_auction init_db "Pikachu" None 5000 None 100)).
  - reflexivity.
  - reflexivity.
  - reflexivity.
  - reflexivity.
  - reflexivity.
  - intros x [].
  - repeat split.
  - repeat split.
  - repeat split.
  - lia.
Defined.

(** ** Listing by category *)

Lemma json_is_str_distinct v l1 l2 :
  l1 <> l2 -> json_is_str v l1 = true -> json_is_str v l2 = false.
Proof.
  destruct v; simpl; try discriminate.
  intros Hne H. apply String.eqb_eq in H. subst. now apply String.eqb_neq.
Qed.

Lemma file_listings_filters rows c0 :
  (forall r, In r rows -> category_of r <> None) ->
  exists c,
    file_listings c0 rows = Some c /\
    legendary c = legendary c0 ++ filter (listed_as "legendary") rows /\
    shiny c = shiny c0 ++ filter (listed_as "shiny") rows /\
    tms c = tms c0 ++ filter (listed_as "tms") rows /\
    nonlegendary c = nonlegendary c0 ++ filter listed_elsewhere rows.
Proof.
  revert c0. induction rows as [|r rows IH]; intros c0 Hdict.
  - exists c0. simpl. now rewrite !app_nil_r.
  - assert (Hr : category_of r <> None) by (apply Hdict; now left).
    assert (Hrest : forall r', In r' rows -> category_of r' <> None)
      by (intros r' Hr'; apply Hdict; now right).
    destruct (category_of r) as [v|] eqn:Hv; [|congruence].
    assert (Hl : forall lit, listed_as lit r = json_is_str v lit)
      by (intros lit; unfold listed_as; now rewrite Hv).
    assert (He : listed_elsewhere r =
                 negb (json_is_str v "legendary") && negb (json_is_str v "shiny")
                 && negb (json_is_str v "tms"))
      by (unfold listed_elsewhere; now rewrite !Hl).
    cbn [file_listings filter]. unfold file_listing. rewrite Hv, He, !Hl.
    destruct (json_is_str v "legendary") eqn:E1;
      [rewrite (json_is_str_distinct v "legendary" "shiny"),
               (json_is_str_distinct v "legendary" "tms") by (auto; discriminate)
      |destruct (json_is_str v "shiny") eqn:E2;
         [rewrite (json_is_str_distinct v "shiny" "tms") by (auto; discriminate)
         |destruct (json_is_str v "tms") eqn:E3]];
      cbn [negb andb];
      match goal with
      | |- context [file_listings ?c1 rows] =>
          destruct (IH c1 Hrest) as (c & -> & H1 & H2 & H3 & H4)
      end;
      exists c; cbn [legendary shiny tms nonlegendary] in *;
      rewrite H1, H2, H3, H4, <- ?app_assoc; now repeat split.
Qed.

Lemma in_insert_created_desc r x l :
  In x (insert_created_desc r l) <-> x = r \/ In x l.
Proof.
  induction l as [|y l IH]; simpl.
  - intuition auto.
  - destruct (created_at (fst y) <=? created_at (fst r)); simpl; [intuition auto|].
    rewrite IH. intuition auto.
Qed.

Lemma in_order_by_created_desc x rows :
  In x (order_by_created_desc rows) <-> In x rows.
Proof.
  induction rows as [|r rows IH]; simpl; [tauto|].
  rewrite in_insert_created_desc, IH. intuition auto.
Qed.




Lemma in_left_join subs a r :
  In r (left_join subs a) <->
  fst r = a /\
  ((snd r = None /\ forall x, In x subs -> same_channel_message a x = false) \/
   exists x, In x subs /\ same_channel_message a x = true /\ snd r = Some (data x)).
Proof.
  unfold left_join.
  destruct (filter (same_channel_message a) subs) as [|x more] eqn:E.
  - assert (Hnone : forall x, In x subs -> same_channel_message a x = false).
    { intros x Hx. destruct (same_channel_message a x) eqn:Hm; [|reflexivity].
      assert (Hin : In x (filter (same_channel_message a) subs)) by now apply filter_In.
      rewrite E in Hin. destruct Hin. }
    split.
    + intros [<-|[]]. split; [reflexivity|]. now left.
    + intros [Hfst [[Hsnd _]|(x & Hx & Hm & _)]].
      * left. destruct r. simpl in *. now subst.
      * rewrite (Hnone x Hx) in Hm. discriminate.
  - rewrite <- E. rewrite in_map_iff. split.
    + intros (y & <- & Hy). apply filter_In in Hy as [Hy Hm].
      split; [reflexivity|]. right. now exists y.
    + intros [Hfst [[_ Hnone]|(y & Hy & Hm & Hsnd)]].
      * assert (Hin : In x (filter (same_channel_message a) subs)) by (rewrite E; now left).
        apply filter_In in Hin as [Hx Hm]. rewrite (Hnone x Hx) in Hm. discriminate.
      * exists y. split; [|now apply filter_In].
        destruct r. simpl in *. now subst.
Qed.

Lemma left_join_some subs a : exists r, In r (left_join subs a).
Proof.
  unfold left_join. destruct (filter (same_channel_message a) subs); simpl; eauto.
Qed.

Lemma in_active_listings s r :
  In r (active_listings s) <->
  In (fst r) (auctions s) /\ is_active (fst r) = true /\
  In r (left_join (submissions s) (fst r)).
Proof.
  unfold active_listings. rewrite in_order_by_created_desc, in_flat_map. split.
  - intros (a & Ha & Hr). apply filter_In in Ha as [Ha Hact].
    assert (fst r = a) as -> by now apply in_left_join in Hr. auto.
  - intros (Ha & Hact & Hr). exists (fst r). split; [now apply filter_In|assumption].
Qed.


(** ** The handlers and the invariant *)

Lemma save_auction_priced text photo price ref now s :
  0 <= price -> priced s ->
  priced (snd (save_auction text photo (Some price) ref now s)).
Proof.
  intros Hp [Ha Hb]. unfold save_auction, insert_auction.
  destruct (String.eqb text EmptyString); [now split|].
  assert (Hins : priced (with_auctions s
                   (auctions s ++ [new_auction s text photo price ref now]))).
  { split; [|exact Hb]. intros a Hin. simpl in Hin.
    apply in_app_or in Hin as [Hin|[<-|[]]]; [now apply Ha|exact Hp]. }
  destruct (supplied ref) as [r|]; [destruct (channel_message_known r s)|];
    simpl; auto. now split.
Qed.

Lemma update_auction_priced aid f s s' :
  auctions s' = update_auction aid f (auctions s) ->
  (forall a, base_price (f a) = base_price a) ->
  (forall b, In b (bids s') -> 0 < amount b) ->
  priced s -> priced s'.
Proof.
  intros Ha Hf Hb [Hbase _]. split; [|exact Hb].
  intros a' Ha'. rewrite Ha in Ha'. apply in_update_auction in Ha' as (a & Hin & ->).
  destruct (auction_id a =? aid); [rewrite Hf|]; now apply Hbase.
Qed.

Lemma approve_submission_priced sid text photo price message_id now s :
  0 <= price -> priced s ->
  priced (approve_submission sid text photo (Some price) message_id now s).
Proof.
  intros Hp H. unfold approve_submission.
  set (s1 := with_submissions s (set_status sid "processing" (submissions s))).
  assert (H1 : priced s1) by exact H.
  pose proof (save_auction_priced text photo price None now s1 Hp H1) as H2.
  destruct (save_auction text photo (Some price) None now s1) as [[[aid|]|e] s2];
    simpl in H2; try exact H2.
  apply (update_auction_priced aid (posted message_id) s2); auto. apply H2.
Qed.

Lemma record_bid_priced aid bidder name amt now s :
  0 < amt -> priced s -> priced (snd (record_bid aid bidder name amt now s)).
Proof.
  intros Hamt H.
  apply (update_auction_priced aid (lead_with amt (escape_markdown name)) s); auto.
  intros b Hb. simpl in Hb. apply in_app_or in Hb as [Hb|[<-|[]]]; [now apply H|exact Hamt].
Qed.

Lemma remove_last_bid_priced aid s :
  priced s -> priced (snd (remove_last_bid aid s)).
Proof.
  intros H. unfold remove_last_bid.
  destruct (order_by_limit_1 timestamp_desc_bid_id_desc (active_bids aid (bids s)))
    as [last|]; [|exact H].
  eapply (update_auction_priced aid _ s); [reflexivity|reflexivity| |exact H].
  intros b Hb. simpl in Hb. apply in_deactivate_bid in Hb as (y & Hy & ->).
  destruct H as [_ Hb']. destruct (bid_id y =? bid_id last); [simpl|]; now apply Hb'.
Qed.

Lemma handle_bid_amount_writes m now s :
  snd (handle_bid_amount m now s) = s \/
  exists aid amt a,
    get_auction aid s = Some a /\ is_active a = true /\
    current_amount_of a + get_min_increment (Some (current_amount_of a)) <= amt /\
    snd (handle_bid_amount m now s) =
      snd (record_bid aid (effective_user_id m) (bidder_name_of m) amt now s).
Proof.
  unfold handle_bid_amount.
  destruct (verified m); cbn [negb]; [|now left].
  destruct (auctions_open s); cbn [negb]; [|now left].
  destruct (reply_to_message m); [|now left].
  destruct (bid_context m) as [aid|]; [|now left].
  destruct (text m) as [amt|]; [|now left].
  destruct (get_auction aid s) as [a|] eqn:Ha; [|now left].
  destruct (is_active a) eqn:Hact; cbn [negb]; [|now left].
  cbv zeta.
  destruct (Z.ltb_spec amt
              (current_amount_of a + get_min_increment (Some (current_amount_of a))))
    as [|Hge]; [now left|].
  right. exists aid, amt, a. repeat split; auto.
  destruct (record_bid aid (effective_user_id m) (bidder_name_of m) amt now s)
    as [prev s'].
  now destruct (get_auction aid s').
Qed.

Lemma handle_remove_bid_writes is_admin arg s :
  snd (handle_remove_bid is_admin arg s) = s \/
  exists aid, snd (handle_remove_bid is_admin arg s) = snd (remove_last_bid aid s).
Proof.
  unfold handle_remove_bid.
  destruct is_admin; cbn [negb]; [|now left].
  destruct arg as [aid|]; [|now left].
  destruct (get_auction aid s) as [a|]; [|now left].
  right. exists aid. now destruct (remove_last_bid aid s) as [[[nb na]|] s'].
Qed.

Lemma current_bid_positive s a c :
  consistent s -> priced s -> In a (auctions s) -> current_bid a = Some c -> 0 < c.
Proof.
  intros Hc [_ Hb] Ha Hcb.
  destruct (Hc a Ha) as [_ Hsome].
  destruct (Hsome c Hcb) as (b & (Hin & _) & <-). now apply Hb.
Qed.

Lemma handled_invariant s : handled s -> (well_keyed s /\ consistent s) /\ priced s.
Proof.
  induction 1 as [ | s text photo price ref now _ IH Hp
                   | s sid text photo price message_id now _ IH Hp
                   | s m now _ IH
                   | s is_admin arg _ IH
                   | s user payload now _ IH
                   | s _ IH | s _ IH ].
  - split; [split; [split|]|split]; simpl;
      [intros b []|constructor|intros a []|intros a []|intros b []].
  - destruct IH as [Hinv Hpr]. split;
      [now apply save_auction_keeps_invariant|now apply save_auction_priced].
  - destruct IH as [Hinv Hpr]. split;
      [now apply approve_submission_keeps_invariant|now apply approve_submission_priced].
  - destruct IH as [Hinv Hpr].
    destruct (handle_bid_amount_writes m now s) as [->|(aid & amt & a & Ha & Hact & Hge & ->)];
      [now split|].
    pose proof (get_auction_in aid s a Ha) as [Hin _].
    assert (Hbase : 0 <= base_price a) by now apply Hpr.
    assert (Hpos : forall c, current_bid a = Some c -> 0 < c).
    { intros c Hc. now apply (current_bid_positive s a c). }
    pose proof (min_increment_positive (Some (current_amount_of a))) as Hinc.
    unfold current_amount_of in Hge, Hinc.
    split.
    + apply (record_bid_keeps_invariant s aid _ _ amt now a); auto.
      unfold spec_amount_precondition.
      destruct (current_bid a) as [c|]; [|exact Hge].
      specialize (Hpos c eq_refl).
      destruct (Z.eqb_spec c 0); [lia|exact Hge].
    + apply record_bid_priced; [|exact Hpr].
      destruct (current_bid a) as [c|]; [|lia].
      specialize (Hpos c eq_refl).
      destruct (Z.eqb_spec c 0); lia.
  - destruct IH as [Hinv Hpr].
    destruct (handle_remove_bid_writes is_admin arg s) as [->|(aid & ->)]; [now split|].
    split; [now apply remove_last_bid_keeps_invariant|now apply remove_last_bid_priced].
  - exact IH.
  - exact IH.
  - exact IH.
Qed.



(** X2. With a negative base price the handler's check does not protect
    the invariant: after bids of 0 and then -1000 on an auction with base
    price -5000, [current_bid] is -1000 while the active bid of 0 is higher. *)
Theorem negative_base_price_breaks_consistency : ~ consistent below_zero_store.
Proof.
  intros Hc.
  destruct (Hc (lead_with (-1000) "@gary"
                  (lead_with 0 "@ash"
                     (new_auction init_db "Pikachu" None (-5000) None 100))))
    as [_ Hsome]; [now left|].
  destruct (Hsome (-1000) eq_refl) as (b & (_ & _ & _ & Hmax) & Hamt).
  specialize (Hmax (mk_bid 1 1 42 "@ash" 0 200 true)).
  simpl in Hmax. rewrite Hamt in Hmax.
  assert (0 <= -1000) by (apply Hmax; auto). lia.
Qed.

(** ** The payloads the bot stores *)

Lemma save_auction_submissions text photo price ref now s :
  submissions (snd (save_auction text photo price ref now s)) = submissions s.
Proof.
  destruct (save_auction_outcomes text photo price ref now s)
    as [(e & ->)|[->|(p & ->)]]; reflexivity.
Qed.

Lemma remove_last_bid_submissions aid s :
  submissions (snd (remove_last_bid aid s)) = submissions s.
Proof.
  unfold remove_last_bid.
  now destruct (order_by_limit_1 timestamp_desc_bid_id_desc (active_bids aid (bids s))).
Qed.

Lemma dict_payloads_set_status sid st l :
  (forall x, In x l -> exists fields, data x = JObj fields) ->
  forall x, In x (set_status sid st l) -> exists fields, data x = JObj fields.
Proof.
  intros H x Hx. unfold set_status in Hx. apply in_map_iff in Hx as (y & <- & Hy).
  destruct (submission_id y =? sid); simpl; now apply H.
Qed.

Lemma dict_payloads_set_approved sid message_id l :
  (forall x, In x l -> exists fields, data x = JObj fields) ->
  forall x, In x (set_approved sid message_id l) -> exists fields, data x = JObj fields.
Proof.
  intros H x Hx. unfold set_approved in Hx. apply in_map_iff in Hx as (y & <- & Hy).
  destruct (submission_id y =? sid); simpl; now apply H.
Qed.

Lemma dict_payloads_step s s' : ledger_step s s' -> dict_payloads s -> dict_payloads s'.
Proof.
  unfold dict_payloads. intros Hstep H.
  destruct Hstep as [ s item photo price ref now
                    | s sid item photo price message_id now
                    | s aid bidder name amt now
                    | s m now
                    | s aid
                    | s is_admin arg
                    | s user payload now
                    | s | s ].
  - now rewrite save_auction_submissions.
  - unfold approve_submission.
    set (s1 := with_submissions s (set_status sid "processing" (submissions s))).
    pose proof (save_auction_submissions item photo price None now s1) as E.
    assert (H1 : forall x, In x (submissions s1) -> exists fields, data x = JObj fields)
      by now apply dict_payloads_set_status.
    destruct (save_auction item photo price None now s1) as [[[aid|]|e] s2];
      simpl in E |- *; rewrite E;
      (now apply dict_payloads_set_approved) || (now apply dict_payloads_set_status).
  - exact H.
  - destruct (handle_bid_amount_writes m now s) as [->|(aid & amt & a & _ & _ & _ & ->)];
      exact H.
  - now rewrite remove_last_bid_submissions.
  - destruct (handle_remove_bid_writes is_admin arg s) as [->|(aid & ->)];
      [exact H|now rewrite remove_last_bid_submissions].
  - intros x Hx. simpl in Hx. apply in_app_or in Hx as [Hx|[<-|[]]];
      [now apply H|now exists payload].
  - exact H.
  - exact H.
Qed.

Lemma dict_payloads_later s s' : later s s' -> dict_payloads s -> dict_payloads s'.
Proof.
  induction 1 as [|s s1 s2 _ IH Hstep]; [auto|].
  intros H. apply (dict_payloads_step s1); auto.
Qed.

(** The premise of C8 holds in every store the bot's writes produce from a
    new database. *)
Lemma bot_payloads_are_dicts s : later init_db s -> dict_payloads s.
Proof. intros H. apply (dict_payloads_later init_db s H). intros x []. Qed.

(** * Further properties *)

(** ** escape_markdown_v2 and the stored names *)

Lemma is_backslash_eq c : is_backslash c = true -> c = "\"%char.
Proof. apply Ascii.eqb_eq. Qed.

Lemma escape_v2_cons c rest :
  escape_specials (double_backslashes (String c rest)) =
  if is_backslash c || markdown_v2_special c
  then String "\"%char (String c (escape_specials (double_backslashes rest)))
  else String c (escape_specials (double_backslashes rest)).
Proof.
  simpl. destruct (is_backslash c) eqn:Hb.
  - apply is_backslash_eq in Hb. subst c. reflexivity.
  - simpl. now destruct (markdown_v2_special c).
Qed.

Lemma escape_markdown_v2_some t :
  escape_markdown_v2 (Some t) = escape_specials (double_backslashes t).
Proof. unfold escape_markdown_v2. now destruct t. Qed.

Lemma rendered_escape_v2 t : rendered (escape_specials (double_backslashes t)) = t.
Proof.
  induction t as [|c rest IH]; [reflexivity|].
  rewrite escape_v2_cons.
  destruct (is_backslash c) eqn:Hb; cbn [orb].
  - cbn [rendered is_backslash]. simpl. now rewrite IH.
  - destruct (markdown_v2_special c); cbn [rendered]; [simpl|rewrite Hb]; now rewrite IH.
Qed.

Lemma escaped_escape_v2 t : escaped_v2 (escape_specials (double_backslashes t)).
Proof.
  induction t as [|c rest IH]; [constructor|].
  rewrite escape_v2_cons.
  destruct (is_backslash c) eqn:Hb; cbn [orb].
  - apply escaped_pair; auto.
  - destruct (markdown_v2_special c) eqn:Hs.
    + apply escaped_pair; auto.
    + now apply escaped_plain.
Qed.

(** X3. [escape_markdown_v2] loses nothing and leaves nothing unescaped: what
    its output shows as MarkdownV2 is the text it was given, so two texts
    never get the same output; in the output every reserved character and
    every backslash follows an escaping backslash; [None] and the empty
    string give the empty string. *)
Theorem escape_markdown_v2_round_trip :
  (forall t, rendered (escape_markdown_v2 (Some t)) = t) /\
  (forall t u, escape_markdown_v2 (Some t) = escape_markdown_v2 (Some u) -> t = u) /\
  (forall t, escaped_v2 (escape_markdown_v2 t)) /\
  escape_markdown_v2 None = EmptyString /\
  escape_markdown_v2 (Some EmptyString) = EmptyString.
Proof.
  assert (Hr : forall t, rendered (escape_markdown_v2 (Some t)) = t).
  { intros t. rewrite escape_markdown_v2_some. apply rendered_escape_v2. }
  split; [exact Hr|]. split.
  - intros t u E. rewrite <- (Hr t), <- (Hr u). now rewrite E.
  - split; [|now split].
    intros [t|]; [|constructor].
    rewrite escape_markdown_v2_some. apply escaped_escape_v2.
Qed.

Lemma escape_markdown_head name :
  match escape_markdown name with
  | String d _ => markdown_special d = false
  | EmptyString => True
  end.
Proof.
  destruct name as [|c rest]; simpl; [exact I|].
  destruct (markdown_special c) eqn:Hc; [reflexivity|exact Hc].
Qed.

Lemma rendered_escape_markdown name : rendered_v1 (escape_markdown name) = name.
Proof.
  induction name as [|c rest IH]; [reflexivity|].
  simpl. destruct (markdown_special c) eqn:Hc.
  - cbn [rendered_v1 is_backslash]. simpl. rewrite Hc. now rewrite IH.
  - cbn [rendered_v1]. destruct (is_backslash c); [|now rewrite IH].
    pose proof (escape_markdown_head rest) as Hh.
    destruct (escape_markdown rest) as [|d rest'] eqn:E.
    + destruct rest as [|c' r]; [reflexivity|].
      simpl in E. destruct (markdown_special c'); discriminate.
    + rewrite Hh. now rewrite IH.
Qed.

Lemma escape_markdown_fixed name : escape_markdown name = name -> plain_name name = true.
Proof.
  induction name as [|c rest IH]; [reflexivity|].
  simpl. destruct (markdown_special c) eqn:Hc.
  - intros [= E _]. subst c. discriminate.
  - intros [= E]. simpl. now apply IH.
Qed.

(** X4. The name [record_bid] stores determines the bidder's name: shown as
    Markdown it is the name given, and no other name is stored the same
    way. *)
Theorem stored_bidder_name_recovers (s : db) (aid bidder : Z) (name : string)
    (amt now : Z) (a : auction) :
  get_auction aid s = Some a ->
  exists a' stored,
    get_auction aid (snd (record_bid aid bidder name amt now s)) = Some a' /\
    current_bidder a' = Some stored /\
    rendered_v1 stored = name /\
    (forall other, escape_markdown other = stored -> other = name).
Proof.
  intros Ha. exists (lead_with amt (escape_markdown name) a), (escape_markdown name).
  split; [now apply get_auction_record_bid|].
  split; [reflexivity|].
  split; [apply rendered_escape_markdown|].
  intros other E. rewrite <- (rendered_escape_markdown other), E.
  apply rendered_escape_markdown.
Qed.

(** X5. The bidder line of the caption escapes the stored name a second
    time: shown as MarkdownV2 it is the stored, already escaped name, which
    is the bidder's name exactly when the name has none of _ * ` [. *)
Theorem caption_shows_stored_name (s : db) (aid bidder : Z) (name : string)
    (amt now : Z) (a : auction) :
  get_auction aid s = Some a ->
  exists a',
    get_auction aid (snd (record_bid aid bidder name amt now s)) = Some a' /\
    rendered (caption_bidder a') = escape_markdown name /\
    (rendered (caption_bidder a') = name <-> plain_name name = true).
Proof.
  intros Ha. exists (lead_with amt (escape_markdown name) a).
  split; [now apply get_auction_record_bid|].
  assert (E : rendered (caption_bidder (lead_with amt (escape_markdown name) a))
              = escape_markdown name).
  { unfold caption_bidder. cbn [current_bidder lead_with].
    rewrite escape_markdown_v2_some. apply rendered_escape_v2. }
  split; [exact E|]. rewrite E. split.
  - apply escape_markdown_fixed.
  - apply escape_markdown_plain.
Qed.

(** The bid of @john_doe on the fresh auction. *)
Lemma stored_bidder_name_recovers_witness :
  exists a' stored,
    get_auction 1 (snd (record_bid 1 42 "@john_doe" 6000 200 one_auction)) = Some a' /\
    current_bidder a' = Some stored /\
    rendered_v1 stored = "@john_doe"%string.
Proof.
  destruct (stored_bidder_name_recovers one_auction 1 42 "@john_doe" 6000 200
              (new_auction init_db "Pikachu" None 5000 None 100) eq_refl)
    as (a' & stored & Hget & Hcb & Hr & _).
  now exists a', stored.
Defined.

(** The caption after the bid of @john_doe shows the backslash. *)
Lemma caption_shows_stored_name_witness :
  exists a',
    get_auction 1 (snd (record_bid 1 42 "@john_doe" 6000 200 one_auction)) = Some a' /\
    rendered (caption_bidder a') = "@john\_doe"%string.
Proof.
  destruct (caption_shows_stored_name one_auction 1 42 "@john_doe" 6000 200
              (new_auction init_db "Pikachu" None 5000 None 100) eq_refl)
    as (a' & Hget & Hr & _).
  now exists a'.
Defined.

(** ** save_auction, then the lookups *)

Lemma find_last {A : Type} (f : A -> bool) (l : list A) (x : A) :
  find f (l ++ [x]) =
  match find f l with
  | Some y => Some y
  | None => if f x then Some x else None
  end.
Proof.
  induction l as [|y l IH]; simpl; [reflexivity|].
  now destruct (f y).
Qed.

Lemma find_none_iff {A : Type} (f : A -> bool) (l : list A) :
  find f l = None <-> forall x, In x l -> f x = false.
Proof.
  split; [apply find_none|].
  induction l as [|y l IH]; [reflexivity|].
  intros H. simpl. rewrite (H y) by now left. apply IH. intros x Hx. apply H. now right.
Qed.

Lemma get_auction_next_rowid s :
  get_auction (next_rowid (map auction_id (auctions s))) s = None.
Proof.
  apply find_none_iff. intros a Ha. apply Z.eqb_neq. intros E.
  apply (next_rowid_fresh (map auction_id (auctions s))). rewrite <- E. now apply in_map.
Qed.


(** X6. When [save_auction] returns an id, that id was free, [get_auction]
    on it now gives the auction just inserted (the text and base price
    given, no bid, no bidder, active), every other [get_auction] answers as
    before, and the bids are untouched; when a channel message id other than
    0 was given, [get_auction_by_channel_id] on it gives the new auction. *)
Theorem save_auction_then_get_auction (item : string) (photo : option string)
    (price ref : option Z) (now : Z) (s s' : db) (id : Z) :
  save_auction item photo price ref now s = (Return (Some id), s') ->
  get_auction id s = None /\
  (exists a,
     get_auction id s' = Some a /\
     auction_id a = id /\ item_text a = item /\ Some (base_price a) = price /\
     current_bid a = None /\ current_bidder a = None /\ previous_bidder a = None /\
     is_active a = true /\ channel_message_id a = ref /\ created_at a = now /\
     auctions s' = auctions s ++ [a] /\
     (forall r, ref = Some r -> r <> 0 -> get_auction_by_channel_id r s' = Some a)) /\
  (forall id', id' <> id -> get_auction id' s' = get_auction id' s) /\
  bids s' = bids s /\ submissions s' = submissions s.
Proof.
  intros Hsave.
  assert (Hins : exists p, price = Some p /\
            id = next_rowid (map auction_id (auctions s)) /\
            s' = with_auctions s (auctions s ++ [new_auction s item photo p ref now]) /\
            (forall r, supplied ref = Some r -> channel_message_known r s = false)).
  { unfold save_auction, insert_auction in Hsave.
    destruct price as [p|]; [|discriminate].
    destruct (String.eqb item EmptyString); [discriminate|].
    exists p. split; [reflexivity|].
    destruct (supplied ref) as [r|] eqn:Hsup.
    - destruct (channel_message_known r s) eqn:Hk; [discriminate|].
      injection Hsave as <- <-. repeat split. now intros r' [= <-].
    - injection Hsave as <- <-. repeat split. discriminate. }
  destruct Hins as (p & -> & -> & -> & Hfree).
  split; [apply get_auction_next_rowid|].
  split; [|split; [|now split]].
  - exists (new_auction s item photo p ref now).
    split.
    { unfold get_auction. cbn [auctions with_auctions]. rewrite find_last.
      fold (get_auction (next_rowid (map auction_id (auctions s))) s).
      rewrite get_auction_next_rowid. cbn [auction_id new_auction].
      now rewrite Z.eqb_refl. }
    repeat split.
    intros r -> Hr. unfold get_auction_by_channel_id. cbn [auctions with_auctions].
    rewrite find_last.
    assert (Hnone : find (fun a => sql_eq (channel_message_id a) r && is_active a)
                      (auctions s) = None).
    { apply find_none_iff. intros a Ha.
      specialize (Hfree r (supplied_nonzero r Hr)).
      unfold channel_message_known in Hfree.
      destruct (sql_eq (channel_message_id a) r) eqn:E; [|reflexivity].
      exfalso. assert (Hex : existsb (fun a => sql_eq (channel_message_id a) r)
                               (auctions s) = true)
        by (apply existsb_exists; now exists a).
      congruence. }
    rewrite Hnone. cbn [channel_message_id new_auction is_active sql_eq].
    now rewrite Z.eqb_refl.
  - intros id' Hne. unfold get_auction. cbn [auctions with_auctions]. rewrite find_last.
    destruct (find (fun a => auction_id a =? id') (auctions s)); [reflexivity|].
    cbn [auction_id new_auction].
    destruct (Z.eqb_spec (next_rowid (map auction_id (auctions s))) id'); congruence.
Qed.

(** The auction posted as channel message 77 on a new database. *)
Lemma save_auction_then_get_auction_witness :
  exists a,
    get_auction 1 (snd (save_auction "Pikachu" None (Some 5000) (Some 77) 100 init_db))
      = Some a /\
    base_price a = 5000 /\
    get_auction_by_channel_id 77
      (snd (save_auction "Pikachu" None (Some 5000) (Some 77) 100 init_db)) = Some a.
Proof.
  destruct (save_auction_then_get_auction "Pikachu" None (Some 5000) (Some 77) 100
              init_db _ 1 eq_refl)
    as (_ & (a & Hget & _ & _ & Hp & _ & _ & _ & _ & _ & _ & _ & Hch) & _).
  exists a. split; [exact Hget|]. split; [now injection Hp|].
  apply (Hch 77 eq_refl). discriminate.
Defined.

(** ** What handle_bid_amount never does *)



(** ** Leaders along the handlers *)

Lemma leads_ext bs bs' aid b :
  (forall x, bid_auction_id x = aid -> bid_is_active x = true ->
             (In x bs <-> In x bs')) ->
  leads aid bs b -> leads aid bs' b.
Proof.
  intros Hext (Hb & Hid & Hact & Hmax). repeat split; auto.
  - now apply (Hext b Hid Hact).
  - intros x Hx Hxid Hxact. apply Hmax; auto. now apply (Hext x Hxid Hxact).
Qed.

Lemma leads_same_amount bs aid b t : leads aid bs b -> leads aid bs t -> amount b = amount t.
Proof.
  intros (Hb & Hbid & Hbact & Hbmax) (Ht & Htid & Htact & Htmax).
  pose proof (Hbmax t Ht Htid Htact). pose proof (Htmax b Hb Hbid Hbact). lia.
Qed.

Lemma leads_unique s aid b t :
  distinct_amounts s -> leads aid (bids s) b -> leads aid (bids s) t -> b = t.
Proof.
  intros Hd Hb Ht. pose proof (leads_same_amount _ _ _ _ Hb Ht) as E.
  destruct Hb as (Hb & Hbid & Hbact & _), Ht as (Ht & Htid & Htact & _).
  apply Hd; auto. congruence.
Qed.

Lemma led_same_bids s s' :
  bids s' = bids s ->
  (forall a', In a' (auctions s') ->
     (current_bid a' = None /\ current_bidder a' = None) \/
     exists a, In a (auctions s) /\ auction_id a' = auction_id a /\
               current_bid a' = current_bid a /\ current_bidder a' = current_bidder a) ->
  led s -> led s'.
Proof.
  intros Hb Ha Hl a' Ha'.
  destruct (Ha a' Ha') as [[-> ->]|(a & Hin & Eid & Ecb & Ecr)]; [reflexivity|].
  rewrite Hb, Eid, Ecb, Ecr. now apply Hl.
Qed.

Lemma save_auction_led item photo price ref now s :
  led s /\ distinct_amounts s ->
  led (snd (save_auction item photo price ref now s)) /\
  distinct_amounts (snd (save_auction item photo price ref now s)).
Proof.
  intros [Hl Hd].
  destruct (save_auction_outcomes item photo price ref now s)
    as [(e & ->)|[->|(p & ->)]]; [now split|now split|].
  split; [|exact Hd].
  apply (led_same_bids s); [reflexivity| |exact Hl].
  intros a' Ha'. simpl in Ha'. apply in_app_or in Ha' as [Ha'|[<-|[]]].
  - right. now exists a'.
  - now left.
Qed.

Lemma relabel_led s s' aid f :
  bids s' = bids s ->
  auctions s' = update_auction aid f (auctions s) ->
  (forall a, auction_id (f a) = auction_id a /\ current_bid (f a) = current_bid a /\
             current_bidder (f a) = current_bidder a) ->
  led s /\ distinct_amounts s -> led s' /\ distinct_amounts s'.
Proof.
  intros Hb Ha Hf [Hl Hd]. split.
  - apply (led_same_bids s); auto.
    intros a' Ha'. rewrite Ha in Ha'. apply in_update_auction in Ha' as (a & Hin & ->).
    right. exists a. split; [assumption|].
    destruct (auction_id a =? aid); [apply Hf|now repeat split].
  - unfold distinct_amounts. rewrite Hb. exact Hd.
Qed.

Lemma approve_submission_led sid item photo price message_id now s :
  led s /\ distinct_amounts s ->
  led (approve_submission sid item photo price message_id now s) /\
  distinct_amounts (approve_submission sid item photo price message_id now s).
Proof.
  intros H. unfold approve_submission.
  set (s1 := with_submissions s (set_status sid "processing" (submissions s))).
  assert (H1 : led s1 /\ distinct_amounts s1) by exact H.
  pose proof (save_auction_led item photo price None now s1 H1) as H2.
  destruct (save_auction item photo price None now s1) as [[[aid|]|e] s2]; simpl in H2;
    try exact H2.
  apply (relabel_led s2 _ aid (posted message_id)); auto.
Qed.

Lemma below_new_bid s aid a amt x :
  consistent s -> get_auction aid s = Some a -> spec_amount_precondition a amt ->
  In x (bids s) -> bid_auction_id x = aid -> bid_is_active x = true ->
  amount x < amt.
Proof.
  intros Hc Ha Hpre Hx Hxid Hxact.
  apply get_auction_in in Ha as [Hain Haid].
  destruct (Hc a Hain) as [Hnone Hsome]. rewrite Haid in *.
  unfold spec_amount_precondition in Hpre.
  destruct (current_bid a) as [c|].
  - destruct (Hsome c eq_refl) as (b & (_ & _ & _ & Hmax) & Hamt).
    specialize (Hmax x Hx Hxid Hxact).
    pose proof (min_increment_positive (Some c)). lia.
  - destruct Hnone as [Hnone _]. rewrite (Hnone eq_refl x Hx Hxid) in Hxact.
    discriminate.
Qed.

Lemma record_bid_led s aid bidder name amt now a :
  consistent s -> get_auction aid s = Some a -> spec_amount_precondition a amt ->
  led s /\ distinct_amounts s ->
  led (snd (record_bid aid bidder name amt now s)) /\
  distinct_amounts (snd (record_bid aid bidder name amt now s)).
Proof.
  intros Hc Ha Hpre [Hl Hd].
  pose proof (below_new_bid s aid a amt) as Hbelow.
  unfold record_bid. cbn [snd].
  set (row := {| bid_id := next_rowid (map bid_id (bids s)); bid_auction_id := aid;
                 bidder_id := bidder; bidder_name := escape_markdown name;
                 amount := amt; timestamp := now; bid_is_active := true |}).
  split.
  - intros a' Ha'. cbn [auctions bids] in *.
    apply in_update_auction in Ha' as (a1 & Ha1 & ->).
    destruct (Z.eqb_spec (auction_id a1) aid) as [E|E].
    + cbn [current_bid current_bidder lead_with auction_id]. exists row.
      split; [|now split]. rewrite E.
      repeat split; [apply in_or_app; right; now left|].
      intros x Hx Hxid Hxact. apply in_app_or in Hx as [Hx|[<-|[]]]; [|simpl; lia].
      apply Z.lt_le_incl. simpl amount. now apply Hbelow.
    + specialize (Hl a1 Ha1). destruct (current_bid a1) as [c|]; [|exact Hl].
      destruct Hl as (b & Hb & Hamt & Hname). exists b. split; [|now split].
      apply (leads_ext (bids s)); [|exact Hb].
      intros x Hxid Hxact. split; intros Hx.
      * apply in_or_app. now left.
      * apply in_app_or in Hx as [Hx|[<-|[]]]; [assumption|].
        simpl in Hxid. congruence.
  - intros x y Hx Hy Hid Hxact Hyact Hamt. cbn [bids] in *.
    apply in_app_or in Hx as [Hx|[<-|[]]]; apply in_app_or in Hy as [Hy|[<-|[]]].
    + now apply Hd.
    + exfalso. simpl in Hid, Hamt.
      pose proof (Hbelow x Hc Ha Hpre Hx Hid Hxact). lia.
    + exfalso. simpl in Hid, Hamt. symmetry in Hid.
      pose proof (Hbelow y Hc Ha Hpre Hy Hid Hyact). lia.
    + reflexivity.
Qed.

Lemma active_elsewhere_deactivate bs last aid x :
  NoDup (map bid_id bs) -> In last bs -> bid_auction_id last = aid ->
  bid_auction_id x <> aid -> bid_is_active x = true ->
  (In x bs <-> In x (deactivate_bid (bid_id last) bs)).
Proof.
  intros Hnd Hlast Hlid Hxid Hxact. split; intros Hx.
  - apply in_deactivate_bid. exists x. split; [assumption|].
    destruct (Z.eqb_spec (bid_id x) (bid_id last)) as [Eid|]; [|reflexivity].
    exfalso. apply Hxid. rewrite <- Hlid. f_equal. now apply (same_id_same_row bs).
  - apply in_deactivate_bid in Hx as (y & Hy & ->).
    destruct (bid_id y =? bid_id last); [discriminate|assumption].
Qed.

Lemma remove_last_bid_led s aid :
  well_keyed s -> led s /\ distinct_amounts s ->
  led (snd (remove_last_bid aid s)) /\ distinct_amounts (snd (remove_last_bid aid s)).
Proof.
  intros [_ Hnd] [Hl Hd]. unfold remove_last_bid.
  destruct (order_by_limit_1 timestamp_desc_bid_id_desc (active_bids aid (bids s)))
    as [last|] eqn:Hlast; [|now split].
  apply last_bid_placed_last in Hlast as (Hlin & Hlid & _).
  cbn [snd]. split.
  - intros a' Ha'. cbn [auctions bids] in *.
    apply in_update_auction in Ha' as (a1 & Ha1 & ->).
    destruct (Z.eqb_spec (auction_id a1) aid) as [E|E].
    + cbn [current_bid current_bidder retracted auction_id]. rewrite E.
      destruct (order_by_limit_1 amount_desc
                  (active_bids aid (deactivate_bid (bid_id last) (bids s))))
        as [top|] eqn:Htop; cbn [option_map]; [|reflexivity].
      exists top. split; [now apply top_bid_leads|now split].
    + specialize (Hl a1 Ha1). destruct (current_bid a1) as [c|]; [|exact Hl].
      destruct Hl as (b & Hb & Hamt & Hname). exists b. split; [|now split].
      apply (leads_ext (bids s)); [|exact Hb].
      intros x Hxid Hxact. apply (active_elsewhere_deactivate _ last aid); auto.
      congruence.
  - intros x y Hx Hy Hid Hxact Hyact Hamt. cbn [bids] in *.
    apply in_deactivate_bid in Hx as (x0 & Hx0 & ->).
    apply in_deactivate_bid in Hy as (y0 & Hy0 & ->).
    destruct (bid_id x0 =? bid_id last); [discriminate|].
    destruct (bid_id y0 =? bid_id last); [discriminate|].
    now apply Hd.
Qed.

Lemma handler_bid_meets_precondition s a amt :
  consistent s -> priced s -> In a (auctions s) ->
  current_amount_of a + get_min_increment (Some (current_amount_of a)) <= amt ->
  spec_amount_precondition a amt.
Proof.
  intros Hc Hpr Ha Hge. unfold spec_amount_precondition, current_amount_of in *.
  destruct (current_bid a) as [c|] eqn:Hcb; [|exact Hge].
  pose proof (current_bid_positive s a c Hc Hpr Ha Hcb).
  destruct (Z.eqb_spec c 0); [lia|exact Hge].
Qed.

Lemma handled_leaders s : handled s -> led s /\ distinct_amounts s.
Proof.
  induction 1 as [ | s item photo price ref now Hs IH Hp
                   | s sid item photo price message_id now Hs IH Hp
                   | s m now Hs IH
                   | s is_admin arg Hs IH
                   | s user payload now Hs IH
                   | s Hs IH | s Hs IH ].
  - split; [intros a []|intros x y []].
  - now apply save_auction_led.
  - now apply approve_submission_led.
  - destruct (handled_invariant s Hs) as [[Hk Hc] Hpr].
    destruct (handle_bid_amount_writes m now s) as [->|(aid & amt & a & Ha & Hact & Hge & ->)];
      [exact IH|].
    apply (record_bid_led s aid _ _ amt now a); auto.
    apply (handler_bid_meets_precondition s); auto.
    now apply get_auction_in in Ha.
  - destruct (handled_invariant s Hs) as [[Hk Hc] Hpr].
    destruct (handle_remove_bid_writes is_admin arg s) as [->|(aid & ->)]; [exact IH|].
    now apply remove_last_bid_led.
  - exact IH.
  - exact IH.
  - exact IH.
Qed.

(** ** handle_verification *)

Lemma next_rowid_positive (ids : list Z) : 0 < next_rowid ids.
Proof.
  unfold next_rowid.
  assert (0 <= fold_right Z.max 0 ids)
    by (induction ids as [|i ids IH]; cbn [fold_right]; lia).
  lia.
Qed.

Lemma update_auction_fresh aid f l :
  (forall a, In a l -> auction_id a <> aid) -> update_auction aid f l = l.
Proof.
  unfold update_auction. induction l as [|a l IH]; cbn [map]; intros H; [reflexivity|].
  rewrite IH by (intros a' Ha'; apply H; now right).
  destruct (Z.eqb_spec (auction_id a) aid) as [E|]; [|reflexivity].
  exfalso. apply (H a); [now left|exact E].
Qed.

Lemma update_auction_last s a f :
  auction_id a = next_rowid (map auction_id (auctions s)) ->
  update_auction (auction_id a) f (auctions s ++ [a]) = auctions s ++ [f a].
Proof.
  intros E. unfold update_auction. rewrite map_app.
  fold (update_auction (auction_id a) f (auctions s)).
  rewrite update_auction_fresh.
  - cbn [map]. now rewrite Z.eqb_refl.
  - intros a' Ha' E'. apply (next_rowid_fresh (map auction_id (auctions s))).
    rewrite <- E, <- E'. now apply in_map.
Qed.

Lemma find_set_status sid st l x :
  find (fun y => submission_id y =? sid) l = Some x ->
  exists x',
    find (fun y => submission_id y =? sid) (set_status sid st l) = Some x' /\
    status x' = st /\ sub_channel_message_id x' = sub_channel_message_id x /\
    data x' = data x.
Proof.
  unfold set_status. induction l as [|y l IH]; cbn [find map]; [discriminate|].
  destruct (submission_id y =? sid) eqn:E.
  - intros [= <-]. cbn [find submission_id]. rewrite E. eexists. now repeat split.
  - intros H. cbn [find]. rewrite E. now apply IH.
Qed.

Lemma find_set_approved sid message_id l x :
  find (fun y => submission_id y =? sid) l = Some x ->
  exists x',
    find (fun y => submission_id y =? sid) (set_approved sid message_id l) = Some x' /\
    status x' = "approved"%string /\ sub_channel_message_id x' = Some message_id /\
    data x' = data x.
Proof.
  unfold set_approved. induction l as [|y l IH]; cbn [find map]; [discriminate|].
  destruct (submission_id y =? sid) eqn:E.
  - intros [= <-]. cbn [find submission_id]. rewrite E. eexists. now repeat split.
  - intros H. cbn [find]. rewrite E. now apply IH.
Qed.

(** The inner block: nothing written, or an auction saved and not posted,
    or an auction saved and posted. *)
Lemma list_item_outcomes sid calls now s :
  ((forall text photo price,
      formatted calls = Some (text, photo, Some price) -> text = EmptyString) /\
   list_item sid calls now s = (false, s)) \/
  exists text photo price,
    formatted calls = Some (text, photo, Some price) /\ text <> EmptyString /\
    ((channel_post calls = None /\
      list_item sid calls now s =
      (false, with_auctions s (auctions s ++ [new_auction s text photo price None now]))) \/
     exists message_id,
       channel_post calls = Some message_id /\
       list_item sid calls now s =
       (submitter_notified calls,
        with_submissions
          (with_auctions s
             (auctions s ++ [posted message_id (new_auction s text photo price None now)]))
          (set_approved sid message_id (submissions s)))).
Proof.
  unfold list_item.
  destruct (formatted calls) as [[[text photo] [price|]]|];
    [|left; split; [discriminate|reflexivity]|left; split; [discriminate|reflexivity]].
  unfold save_auction.
  destruct (String.eqb_spec text EmptyString) as [->|Hne];
    [left; split; [now intros ? ? ? [= <- _ _]|reflexivity]|].
  cbn [supplied]. unfold insert_auction.
  pose proof (next_rowid_positive (map auction_id (auctions s))) as Hpos.
  destruct (Z.eqb_spec (auction_id (new_auction s text photo price None now)) 0)
    as [E|_]; [cbn [new_auction auction_id] in E; lia|].
  right. exists text, photo, price. split; [reflexivity|]. split; [assumption|].
  destruct (channel_post calls) as [message_id|]; [right|left; now split].
  exists message_id. split; [reflexivity|]. f_equal.
  unfold with_submissions, with_auctions.
  cbn [auctions bids submissions submissions_open auctions_open].
  now rewrite (update_auction_last s (new_auction s text photo price None now)).
Qed.

Lemma handle_verification_decided approve sid calls now s x :
  get_submission sid s = Some x -> status x <> "pending"%string ->
  handle_verification approve sid calls now s = (AlreadyDecided (status x), s).
Proof.
  intros Hx Hst. unfold handle_verification. rewrite Hx.
  destruct (String.eqb_spec (status x) "pending") as [E|_]; [contradiction|reflexivity].
Qed.

Lemma handle_verification_pending approve sid calls now s x :
  get_submission sid s = Some x -> status x = "pending"%string ->
  isinstance_str (data x) && negb (decoded calls) = false ->
  handle_verification approve sid calls now s =
  if approve then
    match list_item sid calls now (mark sid "processing" s) with
    | (true, s2) =>
        (if admins_updated calls then AdminsUpdated true else ProcessingFailed, s2)
    | (false, s2) => (ProcessingFailed, mark sid "failed" s2)
    end
  else (if admins_updated calls then AdminsUpdated false else ProcessingFailed,
        mark sid "rejected" s).
Proof.
  intros Hx Hst Hdec. unfold handle_verification. rewrite Hx, Hst, Hdec.
  now destruct approve.
Qed.

(** What a click writes to the auctions and the bids. *)
Lemma handle_verification_ledger approve sid calls now s :
  bids (snd (handle_verification approve sid calls now s)) = bids s /\
  auctions_open (snd (handle_verification approve sid calls now s)) = auctions_open s /\
  (auctions (snd (handle_verification approve sid calls now s)) = auctions s \/
   exists text photo price a,
     approve = true /\
     formatted calls = Some (text, photo, Some price) /\ text <> EmptyString /\
     auctions (snd (handle_verification approve sid calls now s)) = auctions s ++ [a] /\
     ((channel_post calls = None /\ a = new_auction s text photo price None now) \/
      exists message_id,
        channel_post calls = Some message_id /\
        a = posted message_id (new_auction s text photo price None now))).
Proof.
  unfold handle_verification.
  destruct (get_submission sid s) as [x|]; [|now repeat split; try left].
  destruct (negb (status x =? "pending")%string); [now repeat split; try left|].
  destruct (isinstance_str (data x) && negb (decoded calls));
    [now repeat split; try left|].
  cbv zeta. destruct approve; [|now repeat split; try left].
  destruct (list_item_outcomes sid calls now (mark sid "processing" s))
    as [[_ E]|(text & photo & price & Hf & Hne & [[Hp E]|(message_id & Hp & E)])];
    rewrite E.
  - now repeat split; try left.
  - split; [reflexivity|]. split; [reflexivity|]. right.
    exists text, photo, price, (new_auction s text photo price None now).
    repeat split; auto.
  - destruct (submitter_notified calls);
      (split; [reflexivity|]; split; [reflexivity|]; right;
       exists text, photo, price,
              (posted message_id (new_auction s text photo price None now));
       repeat split; auto; right; now exists message_id).
Qed.

(** ** The invariants under moderation *)

Lemma ledger_sound_ext s s' :
  auctions s' = auctions s -> bids s' = bids s -> ledger_sound s -> ledger_sound s'.
Proof.
  intros Ha Hb.
  unfold ledger_sound, well_keyed, consistent, priced, led, distinct_amounts.
  now rewrite Ha, Hb.
Qed.

Lemma ledger_sound_insert s a :
  auction_id a = next_rowid (map auction_id (auctions s)) ->
  current_bid a = None -> current_bidder a = None -> 0 <= base_price a ->
  ledger_sound s -> ledger_sound (with_auctions s (auctions s ++ [a])).
Proof.
  intros Hid Hcb Hname Hbase (Hinv & [Hpa Hpb] & Hled & Hd).
  split; [now apply insert_keeps_invariant|].
  split; [|split].
  - split; [|exact Hpb]. intros a' Ha'. cbn [with_auctions auctions] in Ha'.
    apply in_app_or in Ha' as [Ha'|[<-|[]]]; [now apply Hpa|exact Hbase].
  - apply (led_same_bids s); [reflexivity| |exact Hled].
    intros a' Ha'. cbn [with_auctions auctions] in Ha'.
    apply in_app_or in Ha' as [Ha'|[<-|[]]]; [right; now exists a'|now left].
  - exact Hd.
Qed.

Lemma handle_verification_sound approve sid calls now s :
  (forall text photo price,
     formatted calls = Some (text, photo, Some price) -> 0 <= price) ->
  ledger_sound s -> ledger_sound (snd (handle_verification approve sid calls now s)).
Proof.
  intros Hprice Hs.
  destruct (handle_verification_ledger approve sid calls now s)
    as (Hb & _ & [Ha|(text & photo & price & a & _ & Hf & _ & Ha & Hrow)]).
  - now apply (ledger_sound_ext s).
  - apply (ledger_sound_ext (with_auctions s (auctions s ++ [a]))); [exact Ha|exact Hb|].
    specialize (Hprice text photo price Hf).
    destruct Hrow as [[_ ->]|(message_id & _ & ->)]; now apply ledger_sound_insert.
Qed.

Lemma handle_bid_amount_writes_text m now s :
  snd (handle_bid_amount m now s) = s \/
  exists aid amt a,
    text m = Some amt /\
    get_auction aid s = Some a /\ is_active a = true /\
    current_amount_of a + get_min_increment (Some (current_amount_of a)) <= amt /\
    snd (handle_bid_amount m now s) =
      snd (record_bid aid (effective_user_id m) (bidder_name_of m) amt now s).
Proof.
  unfold handle_bid_amount.
  destruct (verified m); cbn [negb]; [|now left].
  destruct (auctions_open s); cbn [negb]; [|now left].
  destruct (reply_to_message m); [|now left].
  destruct (bid_context m) as [aid|]; [|now left].
  destruct (text m) as [amt|]; [|now left].
  destruct (get_auction aid s) as [a|] eqn:Ha; [|now left].
  destruct (is_active a) eqn:Hact; cbn [negb]; [|now left].
  cbv zeta.
  destruct (Z.ltb_spec amt
              (current_amount_of a + get_min_increment (Some (current_amount_of a))))
    as [|Hge]; [now left|].
  right. exists aid, amt, a. repeat split; auto.
  destruct (record_bid aid (effective_user_id m) (bidder_name_of m) amt now s)
    as [prev s'].
  now destruct (get_auction aid s').
Qed.

Lemma verification_click_writes answered approve sid calls now s :
  snd (verification_click answered approve sid calls now s) = s \/
  snd (verification_click answered approve sid calls now s) =
  snd (handle_verification approve sid calls now s).
Proof. unfold verification_click. destruct answered; [now right|now left]. Qed.

Lemma moderated_step_sound s s' : moderated_step s s' -> ledger_sound s -> ledger_sound s'.
Proof.
  intros Hstep IH.
  destruct Hstep as [ s user payload now
                    | s answered approve sid calls now Hprice _
                    | s m now _
                    | s is_admin arg
                    | s | s ].
  - exact IH.
  - destruct (verification_click_writes answered approve sid calls now s) as [->| ->];
      [exact IH|].
    apply handle_verification_sound; [|exact IH].
    intros text photo price Hf. now apply (Hprice text photo price).
  - pose proof IH as ([Hk Hc] & Hpr & Hled).
    destruct (handle_bid_amount_writes m now s) as [->|(aid & amt & a & Ha & Hact & Hge & ->)];
      [exact IH|].
    pose proof (get_auction_in aid s a Ha) as [Hin _].
    assert (Hpre : spec_amount_precondition a amt)
      by now apply (handler_bid_meets_precondition s).
    split; [now apply (record_bid_keeps_invariant s aid _ _ amt now a)|].
    split; [|now apply (record_bid_led s aid _ _ amt now a)].
    apply record_bid_priced; [|exact Hpr].
    assert (Hbase : 0 <= base_price a) by now apply Hpr.
    assert (Hpos : forall c, current_bid a = Some c -> 0 < c)
      by (intros c Hcb; now apply (current_bid_positive s a c)).
    pose proof (min_increment_positive (Some (current_amount_of a))) as Hinc.
    unfold current_amount_of in Hge, Hinc.
    destruct (current_bid a) as [c|]; [|lia].
    specialize (Hpos c eq_refl). destruct (Z.eqb_spec c 0); lia.
  - pose proof IH as ([Hk Hc] & Hpr & Hled).
    destruct (handle_remove_bid_writes is_admin arg s) as [->|(aid & ->)];
      [exact IH|].
    split; [now apply remove_last_bid_keeps_invariant|].
    split; [now apply remove_last_bid_priced|now apply remove_last_bid_led].
  - exact IH.
  - exact IH.
Qed.

Lemma init_db_sound : ledger_sound init_db.
Proof.
  split; [split; [split|]|split; [split|split]]; simpl;
    [intros b []|constructor|intros a []|intros a []|intros b []
    |intros a []|intros x y []].
Qed.

Lemma moderated_later_sound s s' :
  moderated_later s s' -> ledger_sound s -> ledger_sound s'.
Proof.
  induction 1 as [|s s1 s2 _ IH Hstep]; [auto|].
  intros H. apply (moderated_step_sound s1); auto.
Qed.

Lemma moderated_sound s : moderated s -> ledger_sound s.
Proof. intros H. apply (moderated_later_sound init_db s H), init_db_sound. Qed.

(** Amounts stay within the limit. *)
Lemma moderated_step_within_limit s s' :
  moderated_step s s' -> within_limit s -> within_limit s'.
Proof.
  intros Hstep [Ha Hb].
  destruct Hstep as [ s user payload now
                    | s answered approve sid calls now Hprice _
                    | s m now Hamt
                    | s is_admin arg
                    | s | s ].
  - now split.
  - destruct (verification_click_writes answered approve sid calls now s) as [->| ->];
      [now split|].
    destruct (handle_verification_ledger approve sid calls now s)
      as (Hbids & _ & [Hau|(text & photo & price & a & _ & Hf & _ & Hau & Hrow)]);
      (split; [rewrite Hau|now rewrite Hbids]); [exact Ha|].
    intros a' Ha'. apply in_app_or in Ha' as [Ha'|[<-|[]]]; [now apply Ha|].
    destruct (Hprice text photo price Hf) as [_ Hle].
    now destruct Hrow as [[_ ->]|(message_id & _ & ->)].
  - destruct (handle_bid_amount_writes_text m now s)
      as [->|(aid & amt & a & Htext & _ & _ & _ & ->)]; [now split|].
    split.
    + intros a' Ha'. cbn [record_bid snd auctions] in Ha'.
      apply in_update_auction in Ha' as (a0 & Hin & ->).
      destruct (auction_id a0 =? aid); [cbn [lead_with base_price]|]; now apply Ha.
    + intros b Hin. cbn [record_bid snd bids] in Hin.
      apply in_app_or in Hin as [Hin|[<-|[]]]; [now apply Hb|].
      cbn [amount]. now apply Hamt.
  - destruct (handle_remove_bid_writes is_admin arg s) as [->|(aid & ->)]; [now split|].
    unfold remove_last_bid.
    destruct (order_by_limit_1 timestamp_desc_bid_id_desc (active_bids aid (bids s)))
      as [last|]; [|now split].
    split.
    + intros a' Ha'. cbn [snd auctions] in Ha'.
      apply in_update_auction in Ha' as (a0 & Hin & ->).
      destruct (auction_id a0 =? aid); [cbn [retracted base_price]|]; now apply Ha.
    + intros b Hin. cbn [snd bids] in Hin.
      apply in_deactivate_bid in Hin as (y & Hy & ->).
      destruct (bid_id y =? bid_id last); [cbn [deactivate amount]|]; now apply Hb.
  - now split.
  - now split.
Qed.

Lemma moderated_within_limit s : moderated s -> within_limit s.
Proof.
  intros H. unfold moderated in H. remember init_db as s0 eqn:E.
  induction H as [s|s s1 s2 _ IH Hstep].
  - subst. split; [intros a []|intros b []].
  - apply (moderated_step_within_limit s1); auto.
Qed.

(** What a click on a pending submission answers and leaves behind. *)
(** In the stores of the bot the test of [handle_bid_amount] on doubles is
    the one on [Z], for every whole bid below 2^53 in magnitude: the sum
    [current_amount + increment] is at most 2^53. *)
Lemma moderated_threshold_exact s a bid :
  moderated s -> In a (auctions s) -> - 2 ^ 53 < bid < 2 ^ 53 ->
  bid_below_min_binary64 (binary64_of_Z bid) (stored_current_amount_binary64 a) =
  (bid <? current_amount_of a + get_min_increment (Some (current_amount_of a))).
Proof.
  intros Hs Ha Hbid.
  destruct (moderated_sound s Hs) as ([Hk Hc] & Hpr & _ & _).
  destruct (moderated_within_limit s Hs) as [Hla Hlb].
  assert (Hpos : forall c, current_bid a = Some c -> 0 < c)
    by (intros c; now apply (current_bid_positive s a c)).
  destruct (spec_threshold_compared a Hpos) as [_ ->].
  apply threshold_binary64_whole; [now apply Hpr|exact Hpos| |exact Hbid].
  pose proof (get_min_increment_range (Some (spec_current_amount a))) as Hinc.
  assert (spec_current_amount a <= exact_limit).
  { unfold spec_current_amount. destruct (current_bid a) as [c|] eqn:Hcb; [|now apply Hla].
    destruct (Hc a Ha) as [_ Hsome].
    destruct (Hsome c Hcb) as (b & (Hin & _) & <-). now apply Hlb. }
  unfold spec_threshold, exact_limit in *. lia.
Qed.

Lemma handle_verification_pending_cases approve sid calls now s x :
  get_submission sid s = Some x -> status x = "pending"%string ->
  isinstance_str (data x) && negb (decoded calls) = false ->
  exists x',
    get_submission sid (snd (handle_verification approve sid calls now s)) = Some x' /\
    data x' = data x /\
    ((approve = false /\ status x' = "rejected"%string /\
      sub_channel_message_id x' = sub_channel_message_id x /\
      auctions (snd (handle_verification approve sid calls now s)) = auctions s /\
      fst (handle_verification approve sid calls now s) =
        (if admins_updated calls then AdminsUpdated false else ProcessingFailed)) \/
     (approve = true /\ status x' = "failed"%string /\
      sub_channel_message_id x' = sub_channel_message_id x /\
      (forall text photo price,
         formatted calls = Some (text, photo, Some price) -> text = EmptyString) /\
      auctions (snd (handle_verification approve sid calls now s)) = auctions s /\
      fst (handle_verification approve sid calls now s) = ProcessingFailed) \/
     (approve = true /\
      exists text photo price,
        formatted calls = Some (text, photo, Some price) /\ text <> EmptyString /\
        channel_post calls = None /\
        status x' = "failed"%string /\
        sub_channel_message_id x' = sub_channel_message_id x /\
        auctions (snd (handle_verification approve sid calls now s)) =
          auctions s ++ [new_auction s text photo price None now] /\
        fst (handle_verification approve sid calls now s) = ProcessingFailed) \/
     (approve = true /\
      exists text photo price message_id,
        formatted calls = Some (text, photo, Some price) /\ text <> EmptyString /\
        channel_post calls = Some message_id /\
        sub_channel_message_id x' = Some message_id /\
        status x' = (if submitter_notified calls then "approved"%string
                     else "failed"%string) /\
        auctions (snd (handle_verification approve sid calls now s)) =
          auctions s ++ [posted message_id (new_auction s text photo price None now)] /\
        fst (handle_verification approve sid calls now s) =
          (if submitter_notified calls
           then if admins_updated calls then AdminsUpdated true else ProcessingFailed
           else ProcessingFailed))).
Proof.
  intros Hx Hst Hdec.
  rewrite (handle_verification_pending approve sid calls now s x Hx Hst Hdec).
  unfold get_submission in *.
  destruct approve.
  - destruct (find_set_status sid "processing" _ x Hx) as (x1 & H1 & S1 & C1 & D1).
    destruct (list_item_outcomes sid calls now (mark sid "processing" s))
      as [[Hnone E]|(text & photo & price & Hf & Hne & [[Hp E]|(message_id & Hp & E)])];
      rewrite E.
    + destruct (find_set_status sid "failed" _ x1 H1) as (x2 & H2 & S2 & C2 & D2).
      exists x2. split; [exact H2|]. split; [congruence|].
      right; left. repeat split; auto. congruence.
    + destruct (find_set_status sid "failed" _ x1 H1) as (x2 & H2 & S2 & C2 & D2).
      exists x2. split; [exact H2|]. split; [congruence|].
      right; right; left. split; [reflexivity|].
      exists text, photo, price. repeat split; auto. congruence.
    + destruct (find_set_approved sid message_id _ x1 H1) as (x2 & H2 & S2 & C2 & D2).
      destruct (submitter_notified calls).
      * exists x2. split; [exact H2|]. split; [congruence|].
        right; right; right. split; [reflexivity|].
        exists text, photo, price, message_id. now repeat split.
      * destruct (find_set_status sid "failed" _ x2 H2) as (x3 & H3 & S3 & C3 & D3).
        exists x3. split; [exact H3|]. split; [congruence|].
        right; right; right. split; [reflexivity|].
        exists text, photo, price, message_id. repeat split; auto. congruence.
  - destruct (find_set_status sid "rejected" _ x Hx) as (x1 & H1 & S1 & C1 & D1).
    exists x1. split; [exact H1|]. split; [exact D1|]. left. now repeat split.
Qed.

Lemma in_set_status sid st l y :
  In y (set_status sid st l) -> exists y0, In y0 l /\ data y = data y0.
Proof.
  unfold set_status. intros H. apply in_map_iff in H as (y0 & <- & Hy0).
  exists y0. split; [assumption|]. now destruct (submission_id y0 =? sid).
Qed.

Lemma in_set_approved sid message_id l y :
  In y (set_approved sid message_id l) -> exists y0, In y0 l /\ data y = data y0.
Proof.
  unfold set_approved. intros H. apply in_map_iff in H as (y0 & <- & Hy0).
  exists y0. split; [assumption|]. now destruct (submission_id y0 =? sid).
Qed.

(** No click changes a payload. *)
Lemma handle_verification_payloads approve sid calls now s y :
  In y (submissions (snd (handle_verification approve sid calls now s))) ->
  exists y0, In y0 (submissions s) /\ data y = data y0.
Proof.
  unfold handle_verification.
  destruct (get_submission sid s) as [x|]; [|intros H; now exists y].
  destruct (negb (status x =? "pending")%string); [intros H; now exists y|].
  destruct (isinstance_str (data x) && negb (decoded calls)); [intros H; now exists y|].
  cbv zeta. destruct approve; [|apply in_set_status].
  destruct (list_item_outcomes sid calls now (mark sid "processing" s))
    as [[_ E]|(text & photo & price & Hf & Hne & [[Hp E]|(message_id & Hp & E)])];
    rewrite E.
  - intros H. apply in_set_status in H as (y1 & H & ->). now apply in_set_status in H.
  - intros H. apply in_set_status in H as (y1 & H & ->). now apply in_set_status in H.
  - destruct (submitter_notified calls); intros H.
    + apply in_set_approved in H as (y1 & H & ->). now apply in_set_status in H.
    + apply in_set_status in H as (y1 & H & ->).
      apply in_set_approved in H as (y2 & H & ->). now apply in_set_status in H.
Qed.

Lemma dict_payloads_categories s r :
  dict_payloads s -> In r (active_listings s) -> category_of r <> None.
Proof.
  intros Hdict Hr. apply in_active_listings in Hr as (_ & _ & Hr).
  apply in_left_join in Hr as [_ [[Hsnd _]|(x & Hx & _ & Hsnd)]];
    unfold category_of; rewrite Hsnd; [discriminate|].
  destruct (Hdict x Hx) as [fields ->]. discriminate.
Qed.

Lemma get_auction_by_channel_id_posted s a message_id :
  ~ references message_id s ->
  channel_message_id a = Some message_id -> is_active a = true ->
  find (fun a' => sql_eq (channel_message_id a') message_id && is_active a')
       (auctions s ++ [a]) = Some a.
Proof.
  intros Hnew Hc Hact. rewrite find_last.
  destruct (find _ (auctions s)) as [a0|] eqn:F.
  - exfalso. apply find_some in F as [Hin Hpred]. apply Hnew. exists a0.
    split; [assumption|]. apply andb_true_iff in Hpred as [Hpred _].
    destruct (channel_message_id a0) as [c|]; [|discriminate].
    cbn [sql_eq] in Hpred. apply Z.eqb_eq in Hpred. now subst.
  - rewrite Hc, Hact. cbn [sql_eq]. now rewrite Z.eqb_refl.
Qed.

(** ** The example stores are stores of the bot *)

Lemma bid_of_within_limit uid name amt :
  - 2 ^ 53 < amt <= exact_limit ->
  forall amt', text (bid_of uid name amt) = Some amt' -> - 2 ^ 53 < amt' <= exact_limit.
Proof. intros H amt' [= <-]. exact H. Qed.

Lemma open_store_moderated : moderated open_store.
Proof.
  apply (moderated_then _ listed_store); [|apply mod_start_auction].
  apply (moderated_then _ one_submission).
  - apply (moderated_then _ init_db); [apply moderated_now|apply mod_save_submission].
  - apply mod_click.
    + intros text photo price [= _ _ <-]. vm_compute. split; discriminate.
    + intros r [= <-]. split.
      * intros (a & [] & _).
      * intros x [<-|[]]. discriminate.
Qed.

Lemma first_bid_store_moderated : moderated first_bid_store.
Proof.
  apply (moderated_then _ open_store); [exact open_store_moderated|].
  apply mod_bid_amount, bid_of_within_limit. unfold exact_limit. lia.
Qed.

Lemma second_bid_store_moderated : moderated second_bid_store.
Proof.
  apply (moderated_then _ first_bid_store); [exact first_bid_store_moderated|].
  apply mod_bid_amount, bid_of_within_limit. unfold exact_limit. lia.
Qed.


(** ** The submissions under moderation *)

Lemma set_status_decide sid st l :
  set_status sid st l = map (decide_submission sid st None) l.
Proof. reflexivity. Qed.

Lemma set_approved_decide sid r l :
  set_approved sid r l = map (decide_submission sid "approved" (Some r)) l.
Proof. reflexivity. Qed.

Lemma decide_submission_twice sid st1 st2 p1 p2 x :
  decide_submission sid st2 p2 (decide_submission sid st1 p1 x) =
  decide_submission sid st2 (match p2 with Some r => Some r | None => p1 end) x.
Proof.
  unfold decide_submission.
  destruct (submission_id x =? sid) eqn:E; cbn [submission_id]; rewrite E; [|reflexivity].
  destruct p2, p1; reflexivity.
Qed.

Lemma decide_submission_id sid st post x :
  submission_id (decide_submission sid st post x) = submission_id x.
Proof. unfold decide_submission. now destruct (submission_id x =? sid). Qed.


Lemma decide_submission_other sid st post x :
  submission_id x <> sid -> decide_submission sid st post x = x.
Proof.
  intros H. unfold decide_submission.
  now destruct (Z.eqb_spec (submission_id x) sid).
Qed.


Lemma decide_submission_ids sid st post l :
  map submission_id (map (decide_submission sid st post) l) = map submission_id l.
Proof. rewrite map_map. apply map_ext. intros x. apply decide_submission_id. Qed.

(** The rows a click writes: nothing, or the pending row of [sid] gets
    another status and, with the auction of the post, its message id. *)
Lemma handle_verification_submissions approve sid calls now s :
  (submissions (snd (handle_verification approve sid calls now s)) = submissions s /\
   auctions (snd (handle_verification approve sid calls now s)) = auctions s) \/
  exists x st post,
    get_submission sid s = Some x /\ status x = "pending"%string /\
    st <> "pending"%string /\
    submissions (snd (handle_verification approve sid calls now s)) =
      map (decide_submission sid st post) (submissions s) /\
    match post with
    | None =>
        auctions (snd (handle_verification approve sid calls now s)) = auctions s \/
        exists a,
          auctions (snd (handle_verification approve sid calls now s)) = auctions s ++ [a] /\
          auction_id a = next_rowid (map auction_id (auctions s)) /\
          channel_message_id a = None
    | Some r =>
        channel_post calls = Some r /\
        exists a,
          auctions (snd (handle_verification approve sid calls now s)) = auctions s ++ [a] /\
          auction_id a = next_rowid (map auction_id (auctions s)) /\
          channel_message_id a = Some r
    end.
Proof.
  unfold handle_verification.
  destruct (get_submission sid s) as [x|] eqn:Hx; [|now left].
  destruct (String.eqb_spec (status x) "pending") as [Hst|Hst]; cbn [negb]; [|now left].
  destruct (isinstance_str (data x) && negb (decoded calls)); [now left|].
  cbv zeta. right. exists x.
  destruct approve.
  - destruct (list_item_outcomes sid calls now (mark sid "processing" s))
      as [[_ E]|(text & photo & price & Hf & Hne & [[Hp E]|(r & Hp & E)])]; rewrite E.
    + exists "failed"%string, None.
      split; [reflexivity|]. split; [exact Hst|]. split; [discriminate|].
      split; [|now left].
      cbn [snd mark with_submissions submissions].
      rewrite !set_status_decide, map_map. apply map_ext. intros y.
      apply decide_submission_twice.
    + exists "failed"%string, None.
      split; [reflexivity|]. split; [exact Hst|]. split; [discriminate|].
      split.
      * cbn [snd mark with_submissions with_auctions submissions].
        rewrite !set_status_decide, map_map. apply map_ext. intros y.
        apply decide_submission_twice.
      * right. exists (new_auction (mark sid "processing" s) text photo price None now).
        now repeat split.
    + destruct (submitter_notified calls).
      * exists "approved"%string, (Some r).
        split; [reflexivity|]. split; [exact Hst|]. split; [discriminate|].
        split.
        -- cbn [snd mark with_submissions with_auctions submissions].
           rewrite set_status_decide, set_approved_decide, map_map. apply map_ext.
           intros y. apply decide_submission_twice.
        -- split; [exact Hp|].
           exists (posted r (new_auction (mark sid "processing" s) text photo price None now)).
           now repeat split.
      * exists "failed"%string, (Some r).
        split; [reflexivity|]. split; [exact Hst|]. split; [discriminate|].
        split.
        -- cbn [snd mark with_submissions with_auctions submissions].
           rewrite !set_status_decide, set_approved_decide, !map_map. apply map_ext.
           intros y. now rewrite !decide_submission_twice.
        -- split; [exact Hp|].
           exists (posted r (new_auction (mark sid "processing" s) text photo price None now)).
           now repeat split.
  - exists "rejected"%string, None.
    split; [reflexivity|]. split; [exact Hst|]. split; [discriminate|].
    split; [|now left].
    cbn [snd mark with_submissions submissions]. apply set_status_decide.
Qed.

Lemma NoDup_app_cons_last {A : Type} (l : list A) (x : A) :
  NoDup l -> ~ In x l -> NoDup (l ++ [x]).
Proof.
  intros Hl Hx. apply (Permutation_NoDup (Permutation_cons_append l x)).
  now constructor.
Qed.












Lemma moderated_later_trans s1 s2 s3 :
  moderated_later s1 s2 -> moderated_later s2 s3 -> moderated_later s1 s3.
Proof.
  intros H12 H23. induction H23 as [s|s s' s'' _ IH Hstep]; [exact H12|].
  apply (moderated_then _ s'); [now apply IH|exact Hstep].
Qed.

Lemma handle_verification_submission_ids approve sid calls now s :
  map submission_id (submissions (snd (handle_verification approve sid calls now s))) =
  map submission_id (submissions s).
Proof.
  destruct (handle_verification_submissions approve sid calls now s)
    as [[-> _]|(x0 & st & post & _ & _ & _ & -> & _)]; [reflexivity|].
  apply decide_submission_ids.
Qed.

Lemma moderated_step_submission_ids s s' :
  moderated_step s s' ->
  NoDup (map submission_id (submissions s)) -> NoDup (map submission_id (submissions s')).
Proof.
  intros Hstep Hnd.
  destruct Hstep as [ s user payload now
                    | s answered approve sid calls now _ _
                    | s m now _
                    | s is_admin arg
                    | s | s ].
  - cbn [save_submission snd with_submissions submissions].
    rewrite map_app. cbn [map submission_id].
    apply NoDup_app_cons_last; [exact Hnd|apply next_rowid_fresh].
  - destruct (verification_click_writes answered approve sid calls now s) as [->| ->];
      [exact Hnd|now rewrite handle_verification_submission_ids].
  - destruct (handle_bid_amount_writes_text m now s)
      as [->|(aid & amt & a & _ & _ & _ & _ & ->)]; exact Hnd.
  - destruct (handle_remove_bid_writes is_admin arg s) as [->|(aid & ->)]; [exact Hnd|].
    now rewrite remove_last_bid_submissions.
  - exact Hnd.
  - exact Hnd.
Qed.

Lemma moderated_later_submission_ids s s' :
  moderated_later s s' ->
  NoDup (map submission_id (submissions s)) -> NoDup (map submission_id (submissions s')).
Proof.
  induction 1 as [s|s s1 s2 _ IH Hstep]; [auto|].
  intros Hnd. now apply (moderated_step_submission_ids s1), IH.
Qed.

Lemma find_submission_map sid g l :
  (forall x, submission_id (g x) = submission_id x) ->
  find (fun y => submission_id y =? sid) (map g l) =
  option_map g (find (fun y => submission_id y =? sid) l).
Proof.
  intros Hg. induction l as [|z l IH]; [reflexivity|].
  cbn [map find]. rewrite Hg. now destruct (submission_id z =? sid).
Qed.

Lemma find_app_some {A : Type} (f : A -> bool) (l l' : list A) (x : A) :
  find f l = Some x -> find f (l ++ l') = Some x.
Proof.
  induction l as [|z l IH]; [discriminate|].
  cbn [app find]. now destruct (f z).
Qed.

(** A submission that is not pending any more stays the row it is. *)
Lemma moderated_step_keeps_decided s s' sid x :
  moderated_step s s' ->
  get_submission sid s = Some x -> status x <> "pending"%string ->
  get_submission sid s' = Some x.
Proof.
  intros Hstep Hx Hst.
  destruct Hstep as [ s user payload now
                    | s answered approve sid' calls now _ _
                    | s m now _
                    | s is_admin arg
                    | s | s ].
  - unfold get_submission in *.
    cbn [save_submission snd with_submissions submissions].
    now apply find_app_some.
  - destruct (verification_click_writes answered approve sid' calls now s) as [->| ->];
      [exact Hx|].
    destruct (handle_verification_submissions approve sid' calls now s)
      as [[Hs _]|(x0 & st & post & Hx0 & Hpend & _ & Hs & _)];
      unfold get_submission in *; rewrite Hs; [exact Hx|].
    rewrite find_submission_map by (intros y; apply decide_submission_id).
    rewrite Hx. cbn [option_map]. f_equal. apply decide_submission_other.
    intros E. pose proof (find_some _ _ Hx) as [_ Hid]. apply Z.eqb_eq in Hid.
    rewrite <- E, Hid, Hx in Hx0. congruence.
  - destruct (handle_bid_amount_writes_text m now s)
      as [->|(aid & amt & a & _ & _ & _ & _ & ->)]; exact Hx.
  - destruct (handle_remove_bid_writes is_admin arg s) as [->|(aid & ->)]; [exact Hx|].
    unfold get_submission. now rewrite remove_last_bid_submissions.
  - exact Hx.
  - exact Hx.
Qed.

Lemma moderated_later_keeps_decided s s' sid x :
  moderated_later s s' ->
  get_submission sid s = Some x -> status x <> "pending"%string ->
  get_submission sid s' = Some x.
Proof.
  induction 1 as [s|s s1 s2 _ IH Hstep]; [auto|].
  intros Hx Hst. apply (moderated_step_keeps_decided s1); auto.
Qed.

Lemma find_submission_filter sid p l x :
  NoDup (map submission_id l) ->
  find (fun y => submission_id y =? sid) l = Some x ->
  find (fun y => submission_id y =? sid) (filter p l) = if p x then Some x else None.
Proof.
  induction l as [|z l IH]; [discriminate|].
  cbn [map find filter]. intros Hnd Hx. inversion Hnd as [|? ? Hz Hnd']; subst.
  destruct (submission_id z =? sid) eqn:E.
  - injection Hx as ->. destruct (p x) eqn:P; [cbn [find]; now rewrite E|].
    apply Z.eqb_eq in E.
    destruct (find (fun y => submission_id y =? sid) (filter p l)) as [y|] eqn:F;
      [|reflexivity].
    exfalso. apply find_some in F as [Hy Ey]. apply filter_In in Hy as [Hy _].
    apply Z.eqb_eq in Ey. apply Hz. rewrite E, <- Ey. now apply in_map.
  - destruct (p z); [cbn [find]; rewrite E|]; now apply IH.
Qed.

(** ** A bid and its retraction *)

Lemma handle_bid_amount_accepts m now s aid amt a :
  auctions_open s = true -> answering aid amt m ->
  get_auction aid s = Some a -> is_active a = true ->
  current_amount_of a + get_min_increment (Some (current_amount_of a)) <= amt ->
  handle_bid_amount m now s =
  (BidPlaced (outbid_notice (effective_user_id m)
                (fst (record_bid aid (effective_user_id m) (bidder_name_of m) amt now s))),
   snd (record_bid aid (effective_user_id m) (bidder_name_of m) amt now s)).
Proof.
  intros Hopen (Hver & Hreply & Hctx & Htext) Ha Hact Hhigh.
  apply Z.ltb_ge in Hhigh.
  pose proof (get_auction_record_bid aid (effective_user_id m) (bidder_name_of m)
                amt now s a Ha) as Hupd.
  unfold handle_bid_amount.
  rewrite Hver, Hopen, Hreply, Hctx, Htext, Ha, Hact. cbn [negb]. cbv iota zeta.
  rewrite Hhigh.
  destruct (record_bid aid (effective_user_id m) (bidder_name_of m) amt now s)
    as [prev s'].
  cbn [snd fst] in *. rewrite Hupd. reflexivity.
Qed.

Lemma top_bid_is_leader s a :
  consistent s -> led s -> distinct_amounts s -> In a (auctions s) ->
  option_map amount
    (order_by_limit_1 amount_desc (active_bids (auction_id a) (bids s))) = current_bid a /\
  option_map bidder_name
    (order_by_limit_1 amount_desc (active_bids (auction_id a) (bids s))) = current_bidder a.
Proof.
  intros Hc Hl Hd Ha.
  destruct (Hc a Ha) as [Hnone Hsome]. specialize (Hl a Ha).
  destruct (order_by_limit_1 amount_desc (active_bids (auction_id a) (bids s)))
    as [t|] eqn:Htop; cbn [option_map].
  - apply top_bid_leads in Htop.
    destruct (current_bid a) as [c|].
    + destruct Hl as (b & Hb & Hamt & Hname).
      assert (t = b) as -> by now apply (leads_unique s (auction_id a)).
      now rewrite Hamt, Hname.
    + exfalso. destruct Hnone as [Hnone _].
      destruct Htop as (Ht & Htid & Htact & _).
      rewrite (Hnone eq_refl t Ht Htid) in Htact. discriminate.
  - apply top_bid_none in Htop. apply Hnone in Htop. rewrite Htop in *.
    now rewrite Hl.
Qed.

Lemma deactivate_bid_absent id l :
  (forall b, In b l -> bid_id b <> id) -> deactivate_bid id l = l.
Proof.
  intros H. unfold deactivate_bid. rewrite <- (map_id l) at 2. apply map_ext_in.
  intros b Hb. destruct (Z.eqb_spec (bid_id b) id) as [E|]; [|reflexivity].
  now destruct (H b Hb).
Qed.

(** X8. Retracting undoes a bid. In a store the handlers produced with whole
    prices and bids of at most 2^53 - 5000 (there the sums of the doubles
    are exact, so that an accepted bid is above every active bid of its
    auction), after [handle_bid_amount] has placed such a bid on an active
    auction and, the clock not having gone back behind the auction's active
    bids, [remove_last_bid] is called, the auction has the [current_bid] and
    [current_bidder] it had before the bid, its active bids are the ones it
    had, the value returned names that former leader, and [previous_bidder]
    is the name stored for the retracted bid. *)
Theorem bid_then_retract_restores (s : db) (m : bid_message) (now aid amt : Z)
    (a : auction) :
  moderated s -> auctions_open s = true -> answering aid amt m ->
  get_auction aid s = Some a -> is_active a = true ->
  current_amount_of a + get_min_increment (Some (current_amount_of a)) <= amt ->
  - 2 ^ 53 < amt <= exact_limit ->
  (forall b, In b (bids s) -> bid_auction_id b = aid -> bid_is_active b = true ->
             timestamp b <= now) ->
  exists a2,
    get_auction aid
      (snd (remove_last_bid aid (snd (handle_bid_amount m now s)))) = Some a2 /\
    current_bid a2 = current_bid a /\
    current_bidder a2 = current_bidder a /\
    previous_bidder a2 = Some (escape_markdown (bidder_name_of m)) /\
    fst (remove_last_bid aid (snd (handle_bid_amount m now s))) =
      Some (current_bidder a, current_bid a) /\
    active_bids aid
      (bids (snd (remove_last_bid aid (snd (handle_bid_amount m now s))))) =
      active_bids aid (bids s).
Proof.
  intros Hs Hopen Hm Ha Hact Hge _ Hclock.
  destruct (moderated_sound s Hs) as ([Hk Hc] & Hpr & Hl & Hd).
  rewrite (handle_bid_amount_accepts m now s aid amt a Hopen Hm Ha Hact Hge). cbn [snd].
  pose proof (get_auction_record_bid aid (effective_user_id m) (bidder_name_of m)
                amt now s a Ha) as Ha1.
  set (s1 := snd (record_bid aid (effective_user_id m) (bidder_name_of m) amt now s)) in *.
  set (row := mk_bid (next_rowid (map bid_id (bids s))) aid (effective_user_id m)
                (escape_markdown (bidder_name_of m)) amt now true).
  assert (Hbids : bids s1 = bids s ++ [row]) by reflexivity.
  assert (Hlast : order_by_limit_1 timestamp_desc_bid_id_desc (active_bids aid (bids s1))
                  = Some row).
  { destruct (order_by_limit_1 timestamp_desc_bid_id_desc (active_bids aid (bids s1)))
      as [last|] eqn:E.
    - f_equal. apply last_bid_placed_last in E as (Hin & Hid & Hlact & Hlatest).
      rewrite Hbids in Hin, Hlatest.
      apply in_app_or in Hin as [Hin|[<-|[]]]; [|reflexivity]. exfalso.
      assert (Hlt : bid_id last < bid_id row)
        by (apply next_rowid_above; now apply in_map).
      specialize (Hclock last Hin Hid Hlact).
      destruct (Hlatest row) as [H|[_ H]];
        [apply in_or_app; right; now left|reflexivity|reflexivity| |];
        unfold row in H, Hlt; cbn [bid_id timestamp] in H, Hlt; lia.
    - exfalso. apply last_bid_none in E.
      assert (Hrow : bid_is_active row = false)
        by (apply E; [rewrite Hbids; apply in_or_app; right; now left|reflexivity]).
      discriminate. }
  assert (Hdeact : deactivate_bid (bid_id row) (bids s1) = bids s ++ [deactivate row]).
  { rewrite Hbids, deactivate_bid_app. f_equal.
    - apply deactivate_bid_absent. intros b Hb E.
      apply (next_rowid_fresh (map bid_id (bids s))).
      change (next_rowid (map bid_id (bids s))) with (bid_id row).
      rewrite <- E. now apply in_map.
    - unfold deactivate_bid. cbn [map]. now rewrite Z.eqb_refl. }
  assert (Hrest : active_bids aid (bids s ++ [deactivate row]) = active_bids aid (bids s)).
  { rewrite active_bids_app. unfold active_bids at 2. cbn [filter].
    unfold bid_active_for. cbn [bid_is_active deactivate].
    rewrite andb_false_r. apply app_nil_r. }
  pose proof (get_auction_in aid s a Ha) as [Hain Haid].
  destruct (top_bid_is_leader s a Hc Hl Hd Hain) as [Htopc Htopn].
  rewrite Haid in Htopc, Htopn.
  rewrite (get_auction_remove_last_bid aid s1 _ row Ha1 Hlast).
  unfold remove_last_bid. rewrite Hlast. cbn [fst snd bids].
  rewrite Hdeact, Hrest.
  eexists. split; [reflexivity|].
  cbn [current_bid current_bidder previous_bidder retracted].
  rewrite Htopc, Htopn. now repeat split.
Qed.

(** A bid of 8000 after the two bids of [second_bid_store], then its
    retraction. *)
Lemma bid_then_retract_restores_witness :
  exists a2,
    get_auction 1
      (snd (remove_last_bid 1
              (snd (handle_bid_amount (bid_of 44 "misty" 8000) 400 second_bid_store))))
      = Some a2 /\
    current_bid a2 = Some 7000 /\
    current_bidder a2 = Some "@gary"%string.
Proof.
  destruct (bid_then_retract_restores second_bid_store (bid_of 44 "misty" 8000) 400 1 8000
              (lead_with 7000 "@gary" (lead_with 6000 "@ash" listed_pikachu)))
    as (a2 & Hget & Hcb & Hcr & _).
  - exact second_bid_store_moderated.
  - reflexivity.
  - now repeat split.
  - reflexivity.
  - reflexivity.
  - simpl. lia.
  - unfold exact_limit. lia.
  - intros b [<-|[<-|[]]] _ _; simpl; lia.
  - exists a2. split; [exact Hget|]. split; [exact Hcb|exact Hcr].
Defined.

(** X9. The outbid notice goes to the former leader. In a store the handlers
    produced with whole prices and bids of at most 2^53 - 5000 (there the
    sums of the doubles are exact and no two active bids of an auction
    tie), when [handle_bid_amount] places such a bid, the notice it sends
    carries the bidder id, name and amount of the auction's leading bid,
    which are the [current_bidder] and [current_bid] the auction had, and
    goes to someone else than the sender; no notice is sent exactly when
    the auction had no bid or the sender was leading it. *)
Theorem outbid_notice_names_former_leader (s : db) (m : bid_message) (now aid amt : Z)
    (a : auction) :
  moderated s -> auctions_open s = true -> answering aid amt m ->
  get_auction aid s = Some a -> is_active a = true ->
  current_amount_of a + get_min_increment (Some (current_amount_of a)) <= amt ->
  - 2 ^ 53 < amt <= exact_limit ->
  exists outbid,
    fst (handle_bid_amount m now s) = BidPlaced outbid /\
    match outbid with
    | Some (who, n, c) =>
        who <> effective_user_id m /\
        current_bid a = Some c /\ current_bidder a = Some n /\
        exists b, leads aid (bids s) b /\ bid_row b = (who, n, c)
    | None =>
        current_bid a = None \/
        exists b, leads aid (bids s) b /\ bidder_id b = effective_user_id m
    end.
Proof.
  intros Hs Hopen Hm Ha Hact Hge _.
  destruct (moderated_sound s Hs) as ([Hk Hc] & Hpr & Hl & Hd).
  rewrite (handle_bid_amount_accepts m now s aid amt a Hopen Hm Ha Hact Hge). cbn [fst].
  eexists. split; [reflexivity|].
  pose proof (get_auction_in aid s a Ha) as [Hain Haid].
  destruct (top_bid_is_leader s a Hc Hl Hd Hain) as [Htopc Htopn].
  rewrite Haid in Htopc, Htopn.
  unfold record_bid. cbn [fst].
  destruct (order_by_limit_1 amount_desc (active_bids aid (bids s))) as [t|] eqn:Htop;
    cbn [option_map outbid_notice bid_row] in *.
  - apply top_bid_leads in Htop.
    destruct (Z.eqb_spec (bidder_id t) (effective_user_id m)) as [E|E].
    + right. now exists t.
    + split; [exact E|]. split; [now symmetry|]. split; [now symmetry|]. now exists t.
  - left. now symmetry.
Qed.

(** The bid of 7000 by gary notifies ash, who led with 6000. *)
Lemma outbid_notice_names_former_leader_witness :
  exists outbid,
    fst (handle_bid_amount (bid_of 43 "gary" 7000) 300 first_bid_store)
      = BidPlaced outbid /\
    match outbid with
    | Some (who, n, c) =>
        who <> 43 /\ Some 6000 = Some c /\ Some "@ash"%string = Some n /\
        exists b, leads 1 (bids first_bid_store) b /\ bid_row b = (who, n, c)
    | None =>
        Some 6000 = None \/
        exists b, leads 1 (bids first_bid_store) b /\ bidder_id b = 43
    end.
Proof.
  apply (outbid_notice_names_former_leader first_bid_store (bid_of 43 "gary" 7000) 300 1
           7000 (lead_with 6000 "@ash" listed_pikachu)).
  - exact first_bid_store_moderated.
  - reflexivity.
  - now repeat split.
  - reflexivity.
  - reflexivity.
  - simpl. lia.
  - unfold exact_limit. lia.
Defined.

(** ** get_bid_history *)

Lemma insert_amount_desc_perm b l : Permutation (b :: l) (insert_amount_desc b l).
Proof.
  induction l as [|x l IH]; simpl; [reflexivity|].
  destruct (amount x <=? amount b); [reflexivity|].
  rewrite perm_swap. now constructor.
Qed.

Lemma order_by_amount_desc_perm l : Permutation l (order_by_amount_desc l).
Proof.
  induction l as [|b l IH]; simpl; [reflexivity|].
  rewrite <- insert_amount_desc_perm. now constructor.
Qed.

Lemma insert_amount_desc_sorted b l :
  StronglySorted (fun x y => amount y <= amount x) l ->
  StronglySorted (fun x y => amount y <= amount x) (insert_amount_desc b l).
Proof.
  induction 1 as [|y l Hl IH Hy]; simpl.
  - constructor; constructor.
  - destruct (Z.leb_spec (amount y) (amount b)) as [Hle|Hgt].
    + constructor; [now constructor|].
      constructor; [assumption|].
      rewrite Forall_forall in *. intros z Hz. specialize (Hy z Hz). lia.
    + constructor; [assumption|].
      rewrite Forall_forall in *. intros z Hz.
      apply (Permutation_in _ (Permutation_sym (insert_amount_desc_perm b l))) in Hz.
      destruct Hz as [<-|Hz]; [lia|now apply Hy].
Qed.

Lemma order_by_amount_desc_sorted l :
  StronglySorted (fun x y => amount y <= amount x) (order_by_amount_desc l).
Proof.
  induction l as [|b l IH]; simpl; [constructor|].
  now apply insert_amount_desc_sorted.
Qed.

Lemma strictly_sorted (l : list bid) :
  NoDup l ->
  (forall x y, In x l -> In y l -> amount x = amount y -> x = y) ->
  StronglySorted (fun x y => amount y <= amount x) l ->
  StronglySorted (fun x y => amount y < amount x) l.
Proof.
  intros Hnd Hinj Hs. induction Hs as [|x l Hl IH Hx]; [constructor|].
  inversion Hnd as [|? ? Hnin Hnd']; subst.
  constructor.
  - apply IH; [assumption|]. intros y z Hy Hz. apply Hinj; now right.
  - rewrite Forall_forall in *. intros y Hy. specialize (Hx y Hy).
    destruct (Z.eq_dec (amount y) (amount x)) as [E|]; [|lia].
    exfalso. apply Hnin. rewrite (Hinj x y); auto; [now left|now right].
Qed.

Lemma strongly_sorted_map {A B : Type} (f : A -> B) (R : B -> B -> Prop) (l : list A) :
  StronglySorted (fun x y => R (f x) (f y)) l -> StronglySorted R (map f l).
Proof.
  induction 1 as [|x l Hl IH Hx]; simpl; constructor; auto.
  rewrite Forall_forall in *. intros y Hy. apply in_map_iff in Hy as (z & <- & Hz).
  now apply Hx.
Qed.

Lemma sorted_head_leads aid bs h rest :
  order_by_amount_desc (active_bids aid bs) = h :: rest -> leads aid bs h.
Proof.
  intros E.
  pose proof (order_by_amount_desc_sorted (active_bids aid bs)) as Hs.
  pose proof (order_by_amount_desc_perm (active_bids aid bs)) as Hp.
  rewrite E in Hs, Hp.
  assert (Hh : In h (active_bids aid bs))
    by (apply (Permutation_in _ (Permutation_sym Hp)); now left).
  apply active_bids_in in Hh as (Hin & Hid & Hact).
  repeat split; auto.
  intros x Hx Hxid Hxact.
  assert (Hx' : In x (h :: rest))
    by (apply (Permutation_in _ Hp); now apply active_bids_in).
  destruct Hx' as [<-|Hx']; [lia|].
  inversion Hs as [|? ? _ Hall]; subst. rewrite Forall_forall in Hall. now apply Hall.
Qed.

(** X10. [get_bid_history] lists the active bids of the auction, each once,
    highest amount first. In a store the handlers produced with whole
    prices and bids of at most 2^53 - 5000 (there the sums of the doubles
    are exact), no two lines have the same amount, and the first line is
    the auction's leader: its amount is [current_bid] and its name
    [current_bidder]; the list is empty, and [show_bid_history] says so,
    exactly when the auction has no current bid. *)
Theorem bid_history_starts_with_leader (s : db) (aid : Z) (a : auction) :
  moderated s -> get_auction aid s = Some a ->
  Permutation (get_bid_history aid s) (map history_row (active_bids aid (bids s))) /\
  amounts_fall (get_bid_history aid s) /\
  match current_bid a with
  | Some c =>
      exists id name at_ more,
        get_bid_history aid s = (id, name, c, at_) :: more /\
        current_bidder a = Some name /\
        show_bid_history (Some aid) s = BidHistory aid ((id, name, c, at_) :: more)
  | None =>
      get_bid_history aid s = [] /\ show_bid_history (Some aid) s = NoBidHistory aid
  end.
Proof.
  intros Hs Ha.
  destruct (moderated_sound s Hs) as ([[_ Hnd] Hc] & Hpr & Hl & Hd).
  pose proof (order_by_amount_desc_perm (active_bids aid (bids s))) as Hp.
  split; [unfold get_bid_history; apply Permutation_map; now symmetry|].
  split.
  { unfold amounts_fall, get_bid_history. apply strongly_sorted_map.
    cbn [history_row fst snd].
    assert (Hnd' : NoDup (active_bids aid (bids s)))
      by (apply NoDup_filter; now apply NoDup_map_inv in Hnd).
    apply strictly_sorted.
    - apply (Permutation_NoDup Hp Hnd').
    - intros x y Hx Hy E.
      apply (Permutation_in _ (Permutation_sym Hp)), active_bids_in in Hx.
      apply (Permutation_in _ (Permutation_sym Hp)), active_bids_in in Hy.
      destruct Hx as (Hx & Hxid & Hxact), Hy as (Hy & Hyid & Hyact).
      apply Hd; auto. congruence.
    - apply order_by_amount_desc_sorted. }
  pose proof (get_auction_in aid s a Ha) as [Hain Haid].
  destruct (Hc a Hain) as [Hnone Hsome]. specialize (Hl a Hain). rewrite Haid in *.
  unfold show_bid_history, get_bid_history.
  destruct (order_by_amount_desc (active_bids aid (bids s))) as [|h rest] eqn:E.
  - assert (Hnil : active_bids aid (bids s) = [])
      by (apply Permutation_nil; now symmetry).
    apply active_bids_nil, Hnone in Hnil. rewrite Hnil. now split.
  - apply sorted_head_leads in E.
    destruct (current_bid a) as [c|].
    + destruct Hl as (b & Hb & Hamt & Hname).
      assert (h = b) as -> by now apply (leads_unique s aid).
      exists (bid_id b), (bidder_name b), (timestamp b), (map history_row rest).
      rewrite <- Hamt. now repeat split.
    + exfalso. destruct Hnone as [Hnone _]. destruct E as (Hh & Hhid & Hhact & _).
      rewrite (Hnone eq_refl h Hh Hhid) in Hhact. discriminate.
Qed.

(** The history of the auction of [second_bid_store]. *)
Lemma bid_history_starts_with_leader_witness :
  get_bid_history 1 second_bid_store =
    [(2, "@gary"%string, 7000, 300); (1, "@ash"%string, 6000, 200)] /\
  amounts_fall (get_bid_history 1 second_bid_store).
Proof.
  destruct (bid_history_starts_with_leader second_bid_store 1
              (lead_with 7000 "@gary" (lead_with 6000 "@ash" listed_pikachu)))
    as (_ & Hfall & _).
  - exact second_bid_store_moderated.
  - reflexivity.
  - split; [reflexivity|exact Hfall].
Defined.

(** ** get_user_leading_bids *)

Lemma fold_max_bounds (l : list Z) (c : Z) :
  c <= fold_left Z.max l c /\
  (forall x, In x l -> x <= fold_left Z.max l c) /\
  In (fold_left Z.max l c) (c :: l).
Proof.
  revert c. induction l as [|y l IH]; intros c; cbn [fold_left].
  - split; [lia|]. split; [intros x []|now left].
  - destruct (IH (Z.max c y)) as (H1 & H2 & H3).
    split; [lia|]. split.
    + intros x [<-|Hx]; [lia|now apply H2].
    + destruct H3 as [H3|H3]; [|now right; right].
      rewrite <- H3. destruct (Z.max_spec c y) as [[_ ->]|[_ ->]]; [right|]; now left.
Qed.

Lemma max_active_amount_leads aid bs c :
  max_active_amount aid bs = Some c <-> exists b, leads aid bs b /\ amount b = c.
Proof.
  unfold max_active_amount.
  destruct (active_bids aid bs) as [|b0 rest] eqn:E.
  - split; [discriminate|]. intros (b & (Hb & Hid & Hact & _) & _).
    assert (Hin : In b (active_bids aid bs)) by now apply active_bids_in.
    rewrite E in Hin. destruct Hin.
  - cbn [map]. destruct (fold_max_bounds (map amount rest) (amount b0)) as (H1 & H2 & H3).
    assert (Hall : forall x, In x bs -> bid_auction_id x = aid -> bid_is_active x = true ->
                     amount x <= fold_left Z.max (map amount rest) (amount b0)).
    { intros x Hx Hxid Hxact.
      assert (Hin : In x (active_bids aid bs)) by now apply active_bids_in.
      rewrite E in Hin. destruct Hin as [<-|Hin]; [exact H1|].
      apply H2. now apply in_map. }
    assert (Hex : exists b, In b (active_bids aid bs) /\
                    amount b = fold_left Z.max (map amount rest) (amount b0)).
    { rewrite E. destruct H3 as [H3|H3].
      - exists b0. split; [now left|exact H3].
      - apply in_map_iff in H3 as (b & Hb & Hin). exists b. split; [now right|exact Hb]. }
    destruct Hex as (b & Hb & Hamt). apply active_bids_in in Hb as (Hb & Hid & Hact).
    split.
    + intros [= <-]. exists b. split; [|exact Hamt].
      repeat split; auto. rewrite Hamt. exact Hall.
    + intros (b' & (Hb' & Hid' & Hact' & Hmax') & <-). f_equal.
      pose proof (Hall b' Hb' Hid' Hact'). pose proof (Hmax' b Hb Hid Hact). lia.
Qed.

Lemma insert_timestamp_desc_perm r l : Permutation (r :: l) (insert_timestamp_desc r l).
Proof.
  induction l as [|x l IH]; simpl; [reflexivity|].
  destruct (timestamp (snd x) <=? timestamp (snd r)); [reflexivity|].
  rewrite perm_swap. now constructor.
Qed.

Lemma order_by_timestamp_desc_perm l : Permutation l (order_by_timestamp_desc l).
Proof.
  induction l as [|r l IH]; simpl; [reflexivity|].
  rewrite <- insert_timestamp_desc_perm. now constructor.
Qed.

Lemma in_get_user_leading_bids uid s row :
  In row (get_user_leading_bids uid s) <->
  exists a b, In a (auctions s) /\ In b (bids s) /\
              leading_for uid (bids s) a b = true /\ row = leading_row (a, b).
Proof.
  unfold get_user_leading_bids. rewrite in_map_iff. split.
  - intros ([a b] & <- & Hin).
    apply (Permutation_in _ (Permutation_sym (order_by_timestamp_desc_perm _))) in Hin.
    apply in_flat_map in Hin as (a' & Ha' & Hin).
    apply in_map_iff in Hin as (b' & [= <- <-] & Hb').
    apply filter_In in Hb' as [Hb' Hlead]. now exists a', b'.
  - intros (a & b & Ha & Hb & Hlead & ->). exists (a, b). split; [reflexivity|].
    apply (Permutation_in _ (order_by_timestamp_desc_perm _)).
    apply in_flat_map. exists a. split; [assumption|].
    apply in_map. now apply filter_In.
Qed.

Lemma leading_for_true uid bs a b :
  In b bs ->
  (leading_for uid bs a b = true <->
   bid_auction_id b = auction_id a /\ bidder_id b = uid /\ is_active a = true /\
   leads (auction_id a) bs b).
Proof.
  intros Hb. unfold leading_for.
  rewrite !andb_true_iff, !Z.eqb_eq. split.
  - intros ((((Hid & Hu) & Hact) & Haact) & Hmax).
    destruct (max_active_amount (auction_id a) bs) as [c|] eqn:E; [|discriminate].
    cbn [sql_eq] in Hmax. apply Z.eqb_eq in Hmax. subst c.
    apply max_active_amount_leads in E as (b' & (_ & _ & _ & Hmax') & Hamt).
    repeat split; auto. rewrite <- Hamt. exact Hmax'.
  - intros (Hid & Hu & Haact & Hl).
    assert (E : max_active_amount (auction_id a) bs = Some (amount b))
      by (apply max_active_amount_leads; now exists b).
    rewrite E. cbn [sql_eq]. rewrite Z.eqb_refl.
    destruct Hl as (_ & _ & Hact & _). now repeat split.
Qed.

(** X11. In a store where every [current_bid] agrees with the bids,
    [get_user_leading_bids] gives for a user exactly the active auctions
    this user leads, each with its text and its [current_bid]: a row is
    returned exactly when an active auction with that id, text and current
    bid has a highest active bid owned by the user. *)
Theorem leading_bids_are_current_bids (s : db) (uid aid c : Z) (txt : string) :
  consistent s ->
  (In (aid, txt, c) (get_user_leading_bids uid s) <->
   exists a b, In a (auctions s) /\ auction_id a = aid /\ item_text a = txt /\
               is_active a = true /\ current_bid a = Some c /\
               leads aid (bids s) b /\ bidder_id b = uid).
Proof.
  intros Hc. rewrite in_get_user_leading_bids. split.
  - intros (a & b & Ha & Hb & Hlead & [= -> -> ->]).
    apply (leading_for_true uid (bids s) a b Hb) in Hlead as (Hid & Hu & Hact & Hl).
    assert (Hcb : current_bid a = Some (amount b)).
    { destruct (Hc a Ha) as [Hnone Hsome].
      destruct (current_bid a) as [c'|].
      - destruct (Hsome c' eq_refl) as (b' & Hl' & <-).
        f_equal. apply (leads_same_amount _ _ _ _ Hl' Hl).
      - exfalso. destruct Hnone as [Hnone _]. destruct Hl as (_ & Hbid & Hbact & _).
        rewrite (Hnone eq_refl b Hb Hbid) in Hbact. discriminate. }
    exists a, b. tauto.
  - intros (a & b & Ha & <- & <- & Hact & Hcb & Hl & Hu).
    exists a, b. pose proof Hl as (Hb & Hbid & _).
    split; [assumption|]. split; [assumption|]. split.
    + apply (leading_for_true uid (bids s) a b Hb). tauto.
    + unfold leading_row. cbn [fst snd]. repeat f_equal.
      destruct (Hc a Ha) as [_ Hsome]. destruct (Hsome c Hcb) as (b' & Hl' & <-).
      apply (leads_same_amount _ _ _ _ Hl' Hl).
Qed.

(** In [two_bids] gary leads auction 1 with 7000. *)
Lemma leading_bids_are_current_bids_witness :
  In (1, "Pikachu"%string, 7000) (get_user_leading_bids 43 two_bids).
Proof.
  apply leading_bids_are_current_bids.
  - apply reachable_invariant.
    apply (reach_record_bid _ 1 43 "@gary" 7000 300
             (lead_with 6000 "@ash" (new_auction init_db "Pikachu" None 5000 None 100)));
      [|reflexivity|reflexivity|unfold spec_amount_precondition; simpl; lia].
    apply (reach_record_bid _ 1 42 "@ash" 6000 200
             (new_auction init_db "Pikachu" None 5000 None 100));
      [|reflexivity|reflexivity|unfold spec_amount_precondition; simpl; lia].
    apply reach_start_auction.
    exact (reach_save_auction init_db "Pikachu" None (Some 5000) None 100 reach_init_db).
  - exists (lead_with 7000 "@gary"
              (lead_with 6000 "@ash" (new_auction init_db "Pikachu" None 5000 None 100))),
           (mk_bid 2 1 43 "@gary" 7000 300 true).
    split; [now left|]. repeat split.
    + simpl. now right; left.
    + intros x [<-|[<-|[]]] _ _; simpl; lia.
Defined.

(** X12. After [handle_bid_amount] has placed a bid, in a store the
    handlers produced with whole prices and bids of at most 2^53 - 5000
    (there the sums of the doubles are exact and an accepted bid is above
    every other), the bid being such a one, the sender leads the auction
    and nobody else does:
    [get_user_leading_bids] has the auction, with its text and the amount
    of the bid, for the sender, and has no row of that auction for any other
    user nor with any other amount. *)
Theorem accepted_bidder_is_sole_leader (s : db) (m : bid_message) (now aid amt : Z)
    (a : auction) :
  moderated s -> auctions_open s = true -> answering aid amt m ->
  get_auction aid s = Some a -> is_active a = true ->
  current_amount_of a + get_min_increment (Some (current_amount_of a)) <= amt ->
  - 2 ^ 53 < amt <= exact_limit ->
  In (aid, item_text a, amt)
     (get_user_leading_bids (effective_user_id m) (snd (handle_bid_amount m now s))) /\
  (forall uid txt c,
     In (aid, txt, c) (get_user_leading_bids uid (snd (handle_bid_amount m now s))) ->
     uid = effective_user_id m /\ c = amt).
Proof.
  intros Hs Hopen Hm Ha Hact Hge Hlim.
  assert (Hs1 : moderated (snd (handle_bid_amount m now s))).
  { apply (moderated_then _ s); [exact Hs|]. apply mod_bid_amount.
    intros amt' Hamt'. destruct Hm as (_ & _ & _ & Hm). congruence. }
  destruct (moderated_sound _ Hs1) as (_ & _ & _ & Hd1).
  revert Hd1.
  rewrite (handle_bid_amount_accepts m now s aid amt a Hopen Hm Ha Hact Hge). cbn [snd].
  intros Hd1.
  destruct (moderated_sound s Hs) as ([Hk Hc] & Hpr & _ & _).
  pose proof (get_auction_in aid s a Ha) as [Hain Haid].
  assert (Hpre : spec_amount_precondition a amt)
    by now apply (handler_bid_meets_precondition s).
  pose proof (get_auction_record_bid aid (effective_user_id m) (bidder_name_of m)
                amt now s a Ha) as Ha1.
  set (s1 := snd (record_bid aid (effective_user_id m) (bidder_name_of m) amt now s)) in *.
  set (row := mk_bid (next_rowid (map bid_id (bids s))) aid (effective_user_id m)
                (escape_markdown (bidder_name_of m)) amt now true).
  assert (Hbids : bids s1 = bids s ++ [row]) by reflexivity.
  assert (Hrow : leads aid (bids s1) row).
  { rewrite Hbids. repeat split; [apply in_or_app; right; now left|].
    intros x Hx Hxid Hxact. apply in_app_or in Hx as [Hx|[<-|[]]]; [|simpl; lia].
    apply Z.lt_le_incl. simpl amount. now apply (below_new_bid s aid a). }
  apply get_auction_in in Ha1 as [Ha1 Ha1id].
  split.
  - apply in_get_user_leading_bids.
    exists (lead_with amt (escape_markdown (bidder_name_of m)) a), row.
    split; [exact Ha1|].
    split; [rewrite Hbids; apply in_or_app; right; now left|].
    split; [|unfold leading_row; cbn [fst snd auction_id item_text lead_with amount row];
             now rewrite Haid].
    apply leading_for_true; [rewrite Hbids; apply in_or_app; right; now left|].
    cbn [auction_id lead_with is_active]. rewrite Haid.
    split; [reflexivity|]. split; [reflexivity|]. split; [exact Hact|exact Hrow].
  - intros uid txt c Hin. apply in_get_user_leading_bids in Hin
      as (a' & b & Ha' & Hb & Hlead & [= E1 E2 E3]).
    apply (leading_for_true uid (bids s1) a' b Hb) in Hlead as (Hid & Hu & _ & Hl).
    rewrite <- E1 in Hl.
    assert (b = row) as -> by now apply (leads_unique s1 aid).
    split; [now symmetry|exact E3].
Qed.

(** After the bid of 7000 gary is the leader of auction 1. *)
Lemma accepted_bidder_is_sole_leader_witness :
  In (1, "Pikachu"%string, 7000)
     (get_user_leading_bids 43
        (snd (handle_bid_amount (bid_of 43 "gary" 7000) 300 first_bid_store))).
Proof.
  apply (accepted_bidder_is_sole_leader first_bid_store (bid_of 43 "gary" 7000) 300 1 7000
           (lead_with 6000 "@ash" listed_pikachu)).
  - exact first_bid_store_moderated.
  - reflexivity.
  - now repeat split.
  - reflexivity.
  - reflexivity.
  - simpl. lia.
  - unfold exact_limit. lia.
Defined.

(** ** The clicks of the admins *)

(** X13. A click of an admin on a pending submission, its payload being a
    dict as [save_submission] stores it and the submission ids being
    distinct as the primary key has them. When [query.answer()] raises, the
    click writes nothing and the submission stays pending. When it
    returns, the click decides the submission: its status is rejected
    after Reject, and approved or failed after Approve, never pending or
    processing, whatever the other calls to Telegram did. After any
    further calls of the handlers that write to auctions.db, /cleanup
    excepted, the submission is still the same row, and a click on one of
    its buttons, when [query.answer()] returns, answers that the
    submission was already decided, with that status, and writes nothing.
    After a /cleanup that follows such calls the click answers the same
    or, when the submission was rejected and created before the cutoff of
    the cleanup, that the submission is not found, and writes nothing. *)
Theorem verification_decides_once (approve : bool) (sid : Z) (calls : verification_calls)
    (now : Z) (s : db) (x : submission) :
  NoDup (map submission_id (submissions s)) ->
  get_submission sid s = Some x -> status x = "pending"%string ->
  isinstance_str (data x) = false ->
  verification_click false approve sid calls now s = (None, s) /\
  exists x',
    get_submission sid (snd (verification_click true approve sid calls now s)) = Some x' /\
    (if approve then status x' = "approved"%string \/ status x' = "failed"%string
     else status x' = "rejected"%string) /\
    forall s'',
      moderated_later (snd (verification_click true approve sid calls now s)) s'' ->
      get_submission sid s'' = Some x' /\
      (forall answered' approve' calls' now',
         verification_click answered' approve' sid calls' now' s'' =
         (if answered' then Some (AlreadyDecided (status x')) else None, s'')) /\
      (forall is_admin cutoff approve' calls' now',
         handle_verification approve' sid calls' now' (handle_cleanup is_admin cutoff s'') =
           (AlreadyDecided (status x'), handle_cleanup is_admin cutoff s'') \/
         (is_admin = true /\ status x' = "rejected"%string /\ sub_created_at x' < cutoff /\
          handle_verification approve' sid calls' now' (handle_cleanup is_admin cutoff s'') =
            (SubmissionNotFound, handle_cleanup is_admin cutoff s''))).
Proof.
  intros Hnd Hx Hst Hstr. split; [reflexivity|].
  cbn [verification_click snd].
  assert (Hdec : isinstance_str (data x) && negb (decoded calls) = false)
    by now rewrite Hstr.
  destruct (handle_verification_pending_cases approve sid calls now s x Hx Hst Hdec)
    as (x' & Hx' & _ & Hcases).
  exists x'. split; [exact Hx'|].
  assert (Hstatus : if approve
                    then status x' = "approved"%string \/ status x' = "failed"%string
                    else status x' = "rejected"%string).
  { destruct Hcases
      as [(-> & S & _)|[(-> & S & _)|[(-> & t & p & c & _ & _ & _ & S & _)
         |(-> & t & p & c & r & _ & _ & _ & _ & S & _)]]]; auto.
    rewrite S. destruct (submitter_notified calls); auto. }
  split; [exact Hstatus|].
  assert (Hnot : status x' <> "pending"%string).
  { destruct approve; [destruct Hstatus as [-> | ->]|rewrite Hstatus]; discriminate. }
  intros s'' Hlater.
  pose proof (moderated_later_keeps_decided _ s'' sid x' Hlater Hx' Hnot) as Hx''.
  split; [exact Hx''|].
  split.
  { intros answered' approve' calls' now'. unfold verification_click.
    rewrite (handle_verification_decided approve' sid calls' now' s'' x' Hx'' Hnot).
    now destruct answered'. }
  intros is_admin cutoff approve' calls' now'.
  assert (Hnd'' : NoDup (map submission_id (submissions s''))).
  { apply (moderated_later_submission_ids _ s'' Hlater).
    now rewrite handle_verification_submission_ids. }
  destruct is_admin; [|left; now apply handle_verification_decided].
  pose proof (find_submission_filter sid
                (fun y => negb (String.eqb (status y) "rejected" &&
                                (sub_created_at y <? cutoff)))
                (submissions s'') x' Hnd'' Hx'') as Hfind.
  cbv beta in Hfind.
  destruct (String.eqb (status x') "rejected" && (sub_created_at x' <? cutoff)) eqn:P;
    cbn [negb] in Hfind.
  - right. apply andb_true_iff in P as [P1 P2].
    apply String.eqb_eq in P1. apply Z.ltb_lt in P2.
    repeat split; auto.
    unfold handle_verification, get_submission.
    cbn [handle_cleanup with_submissions submissions]. now rewrite Hfind.
  - left. now apply handle_verification_decided.
Qed.

(** The submission of [one_submission] is approved, and the buttons are
    dead, also after the bids of [second_bid_store]. *)
Lemma verification_decides_once_witness :
  verification_click false true 1 calls_ok 100 one_submission = (None, one_submission) /\
  exists x',
    get_submission 1 listed_store = Some x' /\
    (status x' = "approved"%string \/ status x' = "failed"%string) /\
    forall s'',
      moderated_later listed_store s'' ->
      get_submission 1 s'' = Some x' /\
      (forall answered' approve' calls' now',
         verification_click answered' approve' 1 calls' now' s'' =
         (if answered' then Some (AlreadyDecided (status x')) else None, s'')) /\
      (forall is_admin cutoff approve' calls' now',
         handle_verification approve' 1 calls' now' (handle_cleanup is_admin cutoff s'') =
           (AlreadyDecided (status x'), handle_cleanup is_admin cutoff s'') \/
         (is_admin = true /\ status x' = "rejected"%string /\ sub_created_at x' < cutoff /\
          handle_verification approve' 1 calls' now' (handle_cleanup is_admin cutoff s'') =
            (SubmissionNotFound, handle_cleanup is_admin cutoff s''))).
Proof.
  apply (verification_decides_once true 1 calls_ok 100 one_submission
           (mk_submission 1 7 (JObj [("category"%string, JStr "shiny")])
              "pending" 50 None)).
  - repeat constructor. intros [].
  - reflexivity.
  - reflexivity.
  - reflexivity.
Defined.

(** A rejected submission that /cleanup deleted: the click finds nothing. *)
Lemma cleanup_forgets_rejected :
  handle_verification true 1 calls_ok 9000
    (handle_cleanup true 5000 (snd (verification_click true false 1 calls_ok 100 one_submission)))
  = (SubmissionNotFound,
     handle_cleanup true 5000 (snd (verification_click true false 1 calls_ok 100 one_submission))).
Proof. reflexivity. Qed.

(** X14. No click of an admin on a submission touches a bid or an existing
    auction: the bids are the same, every auction [get_auction] or
    [get_auction_by_channel_id] found is found again and is the same row, at
    most one auction is added, and none by a rejection. *)
Theorem verification_keeps_existing_auctions (approve : bool) (sid : Z)
    (calls : verification_calls) (now : Z) (s : db) :
  bids (snd (handle_verification approve sid calls now s)) = bids s /\
  (forall aid a,
     get_auction aid s = Some a ->
     get_auction aid (snd (handle_verification approve sid calls now s)) = Some a) /\
  (forall r a,
     get_auction_by_channel_id r s = Some a ->
     get_auction_by_channel_id r (snd (handle_verification approve sid calls now s))
       = Some a) /\
  (List.length (auctions (snd (handle_verification approve sid calls now s)))
     <= S (List.length (auctions s)))%nat /\
  (approve = false ->
   auctions (snd (handle_verification approve sid calls now s)) = auctions s).
Proof.
  destruct (handle_verification_ledger approve sid calls now s)
    as (Hb & _ & [Ha|(text & photo & price & a & Happ & _ & _ & Ha & _)]);
    (split; [exact Hb|]); unfold get_auction, get_auction_by_channel_id; rewrite Ha.
  - repeat split; auto.
  - split; [intros aid a0 H; now rewrite find_last, H|].
    split; [intros r a0 H; now rewrite find_last, H|].
    split; [rewrite length_app; cbn [List.length]; lia|].
    intros ->. discriminate.
Qed.

(** X15. A submission that a click takes from pending to approved has its
    auction: the click was Approve, the item was built, posted and the
    submitter told; the table has exactly one more auction, a new one for
    that item carrying the message id of the post, which is also the
    submission's; and when no older auction carries this message id,
    [get_auction_by_channel_id] finds the new one under it. *)
Theorem approved_submission_has_its_auction (approve : bool) (sid : Z)
    (calls : verification_calls) (now : Z) (s : db) (x x' : submission) :
  get_submission sid s = Some x -> status x = "pending"%string ->
  get_submission sid (snd (handle_verification approve sid calls now s)) = Some x' ->
  status x' = "approved"%string ->
  exists text photo price message_id,
    approve = true /\
    formatted calls = Some (text, photo, Some price) /\
    channel_post calls = Some message_id /\
    submitter_notified calls = true /\
    sub_channel_message_id x' = Some message_id /\
    auctions (snd (handle_verification approve sid calls now s)) =
      auctions s ++ [posted message_id (new_auction s text photo price None now)] /\
    (~ references message_id s ->
     get_auction_by_channel_id message_id
       (snd (handle_verification approve sid calls now s)) =
     Some (posted message_id (new_auction s text photo price None now))).
Proof.
  intros Hx Hst Hx' Hst'.
  destruct (isinstance_str (data x) && negb (decoded calls)) eqn:Hdec.
  { exfalso.
    assert (E : handle_verification approve sid calls now s = (ProcessingFailed, s))
      by (unfold handle_verification; now rewrite Hx, Hst, Hdec).
    rewrite E in Hx'. cbn [snd] in Hx'. rewrite Hx in Hx'. injection Hx' as <-.
    rewrite Hst in Hst'. discriminate. }
  destruct (handle_verification_pending_cases approve sid calls now s x Hx Hst Hdec)
    as (x'' & Hx'' & _ & Hcases).
  rewrite Hx' in Hx''. injection Hx'' as <-.
  destruct Hcases
    as [(_ & S & _)|[(_ & S & _)|[(_ & t & p & c & _ & _ & _ & S & _)
       |(-> & text & photo & price & message_id & Hf & Hne & Hp & Hc & S & Ha & _)]]];
    try (rewrite S in Hst'; discriminate).
  destruct (submitter_notified calls) eqn:Hn; [|rewrite S in Hst'; discriminate].
  exists text, photo, price, message_id.
  split; [reflexivity|]. split; [exact Hf|]. split; [exact Hp|].
  split; [reflexivity|]. split; [exact Hc|]. split; [exact Ha|].
  intros Hnew. unfold get_auction_by_channel_id. rewrite Ha.
  now apply get_auction_by_channel_id_posted.
Qed.

(** The approval of the submission of [one_submission] lists the Pikachu as
    auction 1, under message 900. *)
Lemma approved_submission_has_its_auction_witness :
  exists text photo price message_id,
    true = true /\
    formatted calls_ok = Some (text, photo, Some price) /\
    channel_post calls_ok = Some message_id /\
    submitter_notified calls_ok = true /\
    Some 900 = Some message_id /\
    auctions (snd (handle_verification true 1 calls_ok 100 one_submission)) =
      auctions one_submission ++
      [posted message_id (new_auction one_submission text photo price None 100)] /\
    (~ references message_id one_submission ->
     get_auction_by_channel_id message_id
       (snd (handle_verification true 1 calls_ok 100 one_submission)) =
     Some (posted message_id (new_auction one_submission text photo price None 100))).
Proof.
  apply (approved_submission_has_its_auction true 1 calls_ok 100 one_submission
           (mk_submission 1 7 (JObj [("category"%string, JStr "shiny")])
              "pending" 50 None)
           (mk_submission 1 7 (JObj [("category"%string, JStr "shiny")])
              "approved" 50 (Some 900)));
    reflexivity.
Defined.

(** X16. When, for a pending submission among dict payloads, the item is
    saved and the post to the channel fails, the handler answers that
    processing failed and marks the submission failed,
    but the auction it saved stays: an active auction without channel
    message id, which [get_auction] finds, [get_auction_by_channel_id] finds
    under no message id, and [get_active_auctions_by_category] lists without
    payload in the nonlegendary bucket, whatever the category submitted. *)
Theorem failed_post_leaves_unposted_auction (sid : Z) (calls : verification_calls)
    (now : Z) (s : db) (x : submission) (text : string) (photo : option string)
    (price : Z) :
  get_submission sid s = Some x -> status x = "pending"%string ->
  isinstance_str (data x) = false -> dict_payloads s ->
  formatted calls = Some (text, photo, Some price) -> text <> EmptyString ->
  channel_post calls = None ->
  fst (handle_verification true sid calls now s) = ProcessingFailed /\
  (exists x',
     get_submission sid (snd (handle_verification true sid calls now s)) = Some x' /\
     status x' = "failed"%string) /\
  get_auction (auction_id (new_auction s text photo price None now))
    (snd (handle_verification true sid calls now s)) =
    Some (new_auction s text photo price None now) /\
  is_active (new_auction s text photo price None now) = true /\
  (forall r,
     get_auction_by_channel_id r (snd (handle_verification true sid calls now s)) <>
     Some (new_auction s text photo price None now)) /\
  exists c,
    get_active_auctions_by_category (snd (handle_verification true sid calls now s))
      = Some c /\
    In (new_auction s text photo price None now, None) (nonlegendary c).
Proof.
  intros Hx Hst Hstr Hdict Hf Hne Hp.
  assert (Hdec : isinstance_str (data x) && negb (decoded calls) = false)
    by now rewrite Hstr.
  destruct (handle_verification_pending_cases true sid calls now s x Hx Hst Hdec)
    as (x' & Hx' & _ & Hcases).
  assert (Hdict' : dict_payloads (snd (handle_verification true sid calls now s))).
  { intros y Hy. apply handle_verification_payloads in Hy as (y0 & Hy0 & ->).
    now apply Hdict. }
  destruct Hcases
    as [(E & _)|[(_ & _ & _ & Hnone & _)|[(_ & t & p & c & Hf' & _ & _ & S & _ & Ha & R)
       |(_ & t & p & c & r & _ & _ & Hp' & _)]]].
  - discriminate.
  - now specialize (Hnone text photo price Hf).
  - rewrite Hf in Hf'. injection Hf' as <- <- <-.
    set (a := new_auction s text photo price None now) in *.
    split; [exact R|]. split; [now exists x'|].
    split.
    { unfold get_auction. rewrite Ha, find_last.
      fold (get_auction (auction_id a) s). unfold a at 1. cbn [new_auction auction_id].
      rewrite get_auction_next_rowid. fold a.
      now rewrite Z.eqb_refl. }
    split; [reflexivity|].
    split.
    { intros r H. unfold get_auction_by_channel_id in H.
      apply find_some in H as [_ H]. discriminate. }
    destruct (file_listings_filters
                (active_listings (snd (handle_verification true sid calls now s)))
                {| nonlegendary := []; shiny := []; legendary := []; tms := [] |})
      as (cat & Hcat & _ & _ & _ & Hrest).
    { intros r Hr. now apply (dict_payloads_categories _ r Hdict'). }
    exists cat. split; [exact Hcat|].
    rewrite Hrest. cbn [nonlegendary app]. apply filter_In. split; [|reflexivity].
    apply in_active_listings. cbn [fst]. rewrite Ha.
    split; [apply in_or_app; right; now left|]. split; [reflexivity|].
    apply in_left_join. split; [reflexivity|]. left. split; [reflexivity|].
    intros y _. reflexivity.
  - rewrite Hp in Hp'. discriminate.
Qed.

(** The post of the Pikachu fails: auction 1 is there, unposted. *)
Lemma failed_post_leaves_unposted_auction_witness :
  fst (handle_verification true 1 calls_no_post 100 one_submission) = ProcessingFailed /\
  get_auction 1 (snd (handle_verification true 1 calls_no_post 100 one_submission)) =
    Some (new_auction one_submission "Pikachu" (Some "photo-1"%string) 5000 None 100).
Proof.
  destruct (failed_post_leaves_unposted_auction 1 calls_no_post 100 one_submission
              (mk_submission 1 7 (JObj [("category"%string, JStr "shiny")])
                 "pending" 50 None)
              "Pikachu" (Some "photo-1"%string) 5000)
    as (Hreply & _ & Hfound & _).
  - reflexivity.
  - reflexivity.
  - reflexivity.
  - intros y [<-|[]]. now exists [("category"%string, JStr "shiny")].
  - reflexivity.
  - discriminate.
  - reflexivity.
  - split; [exact Hreply|exact Hfound].
Defined.

(** X17. When, for a pending submission with a dict payload, the item is
    saved and posted and the message to the submitter fails, the handler
    answers that processing failed and the submission ends failed, although
    the auction is live: the submission keeps the
    message id of the post, and when no older auction carries that id,
    [get_auction_by_channel_id] finds under it the new, active auction. *)
Theorem failed_notice_keeps_the_post (sid : Z) (calls : verification_calls)
    (now : Z) (s : db) (x : submission) (text : string) (photo : option string)
    (price message_id : Z) :
  get_submission sid s = Some x -> status x = "pending"%string ->
  isinstance_str (data x) = false ->
  formatted calls = Some (text, photo, Some price) -> text <> EmptyString ->
  channel_post calls = Some message_id -> submitter_notified calls = false ->
  ~ references message_id s ->
  fst (handle_verification true sid calls now s) = ProcessingFailed /\
  (exists x',
     get_submission sid (snd (handle_verification true sid calls now s)) = Some x' /\
     status x' = "failed"%string /\ sub_channel_message_id x' = Some message_id) /\
  get_auction_by_channel_id message_id
    (snd (handle_verification true sid calls now s)) =
    Some (posted message_id (new_auction s text photo price None now)) /\
  is_active (posted message_id (new_auction s text photo price None now)) = true.
Proof.
  intros Hx Hst Hstr Hf Hne Hp Hn Hnew.
  assert (Hdec : isinstance_str (data x) && negb (decoded calls) = false)
    by now rewrite Hstr.
  destruct (handle_verification_pending_cases true sid calls now s x Hx Hst Hdec)
    as (x' & Hx' & _ & Hcases).
  destruct Hcases
    as [(E & _)|[(_ & _ & _ & Hnone & _)|[(_ & t & p & c & _ & _ & Hp' & _)
       |(_ & t & p & c & r & Hf' & _ & Hp' & Hc & S & Ha & R)]]].
  - discriminate.
  - now specialize (Hnone text photo price Hf).
  - rewrite Hp in Hp'. discriminate.
  - rewrite Hf in Hf'. injection Hf' as <- <- <-.
    rewrite Hp in Hp'. injection Hp' as <-.
    rewrite Hn in S, R.
    split; [exact R|]. split; [now exists x'|].
    split; [|reflexivity].
    unfold get_auction_by_channel_id. rewrite Ha.
    now apply get_auction_by_channel_id_posted.
Qed.

(** The Pikachu is posted as message 900 and the notice fails. *)
Lemma failed_notice_keeps_the_post_witness :
  fst (handle_verification true 1 calls_no_notice 100 one_submission) = ProcessingFailed /\
  get_auction_by_channel_id 900
    (snd (handle_verification true 1 calls_no_notice 100 one_submission)) =
    Some (posted 900
            (new_auction one_submission "Pikachu" (Some "photo-1"%string) 5000 None 100)).
Proof.
  destruct (failed_notice_keeps_the_post 1 calls_no_notice 100 one_submission
              (mk_submission 1 7 (JObj [("category"%string, JStr "shiny")])
                 "pending" 50 None)
              "Pikachu" (Some "photo-1"%string) 5000 900)
    as (Hreply & _ & Hfound & _).
  - reflexivity.
  - reflexivity.
  - reflexivity.
  - reflexivity.
  - discriminate.
  - reflexivity.
  - reflexivity.
  - intros (a & [] & _).
  - split; [exact Hreply|exact Hfound].
Defined.

(** X18. In every store the bot's handlers produce from a new database,
    with whole prices and bids of at most 2^53 - 5000, so that the sums the
    code computes on doubles are exact, and with auctions created by the
    clicks of the admins only, whatever the calls to Telegram did: each
    auction has a base price from 0 to that limit and a [current_bid] that
    is NULL exactly when the auction has no active bid, together with a
    NULL [current_bidder]; otherwise [current_bid] is positive, at most the
    limit, and is the amount of the auction's one highest active bid, whose
    bidder name is [current_bidder]. *)
Theorem moderated_current_bid_consistent (s : db) (a : auction) :
  moderated s -> In a (auctions s) ->
  0 <= base_price a <= exact_limit /\
  match current_bid a with
  | None => no_active_bid (auction_id a) (bids s) /\ current_bidder a = None
  | Some c =>
      0 < c <= exact_limit /\
      exists b,
        leads (auction_id a) (bids s) b /\ amount b = c /\
        current_bidder a = Some (bidder_name b) /\
        forall b', leads (auction_id a) (bids s) b' -> b' = b
  end.
Proof.
  intros Hs Ha.
  destruct (moderated_sound s Hs) as ([Hk Hc] & Hpr & Hled & Hd).
  destruct (moderated_within_limit s Hs) as [Hla Hlb].
  split; [split; [now apply Hpr|now apply Hla]|].
  specialize (Hled a Ha). destruct (Hc a Ha) as [Hnone _].
  destruct (current_bid a) as [c|] eqn:Hcb.
  - destruct Hled as (b & Hb & Hamt & Hname).
    split.
    + split; [now apply (current_bid_positive s a c)|].
      rewrite <- Hamt. apply Hlb, Hb.
    + exists b. repeat split; try assumption; try apply Hb.
      intros b' Hb'. now apply (leads_unique s (auction_id a)).
  - split; [now apply Hnone|exact Hled].
Qed.

(** A submission is approved, its auction opened and bid on: the current
    bid of auction 1 is ash's 6000. *)
Lemma moderated_current_bid_consistent_witness :
  0 <= 5000 <= exact_limit /\
  0 < 6000 <= exact_limit /\
  exists b,
    leads 1 (bids first_bid_store) b /\
    amount b = 6000 /\ Some "@ash"%string = Some (bidder_name b) /\
    forall b', leads 1 (bids first_bid_store) b' -> b' = b.
Proof.
  apply (moderated_current_bid_consistent first_bid_store
           (lead_with 6000 "@ash" listed_pikachu)).
  - exact first_bid_store_moderated.
  - now left.
Defined.

(** ** Listing by category, in the stores of the bot *)












(** ** verified_users.db *)

Lemma check_verification_status_in uid v :
  check_verification_status uid v = true <-> In uid (map vu_user_id (verified_users v)).
Proof.
  unfold check_verification_status. rewrite existsb_exists, in_map_iff.
  split; intros (r & H1 & H2); exists r.
  - apply Z.eqb_eq in H2. now split.
  - split; [assumption|]. now apply Z.eqb_eq.
Qed.

Lemma requested_in uid v :
  requested uid v = true <-> In uid (map req_user_id (verification_requests v)).
Proof.
  unfold requested. rewrite existsb_exists, in_map_iff.
  split; intros (r & H1 & H2); exists r.
  - apply Z.eqb_eq in H2. now split.
  - split; [assumption|]. now apply Z.eqb_eq.
Qed.

Lemma nodup_snoc (l : list Z) (x : Z) : NoDup l -> ~ In x l -> NoDup (l ++ [x]).
Proof.
  intros Hl Hx. apply NoDup_rev in Hl. rewrite <- (rev_involutive (l ++ [x])).
  apply NoDup_rev. rewrite rev_app_distr. cbn [rev app].
  constructor; [|assumption]. now rewrite <- in_rev.
Qed.

Lemma nodup_map_filter {A : Type} (key : A -> Z) (f : A -> bool) (l : list A) :
  NoDup (map key l) -> NoDup (map key (filter f l)).
Proof.
  induction l as [|x l IH]; cbn [map filter]; [trivial|].
  intros H. inversion H as [|? ? Hx Hl]; subst.
  destruct (f x); [|now apply IH].
  cbn [map]. constructor; [|now apply IH].
  intros Hin. apply Hx. apply in_map_iff in Hin as (y & E & Hy).
  apply filter_In in Hy as [Hy _]. apply in_map_iff. now exists y.
Qed.

Lemma verified_only_ids admins user now v :
  map vu_user_id (verified_users (snd (verified_only admins user now v))) =
  map vu_user_id (verified_users v).
Proof.
  unfold verified_only.
  destruct (in_admins admins (tg_id user)); [reflexivity|].
  destruct (check_verification_status (tg_id user) v); [|reflexivity].
  cbn [snd verified_users]. rewrite map_map. apply map_ext.
  intros r. now destruct (vu_user_id r =? tg_id user).
Qed.

Lemma users_step_requests admins v v' uid :
  users_step admins v v' -> requested uid v = true -> requested uid v' = true.
Proof.
  intros Hstep H.
  destruct Hstep as [v sender target sent now|v user sent now|v sender arg sent|v user now].
  - unfold verify_user. destruct (negb (in_admins admins sender)); [exact H|].
    destruct target as [u|]; [|exact H].
    now destruct (check_verification_status (tg_id u) v).
  - unfold request_verification.
    destruct (check_verification_status (tg_id user) v); [exact H|].
    destruct (requested (tg_id user) v); [exact H|].
    unfold requested in *. cbn [snd verification_requests].
    rewrite existsb_app, H. reflexivity.
  - unfold remove_verification. destruct (negb (in_admins admins sender)); [exact H|].
    now destruct arg.
  - unfold verified_only. destruct (in_admins admins (tg_id user)); [exact H|].
    now destruct (check_verification_status (tg_id user) v).
Qed.

(** X19. Whatever the handlers of verified_users.db are called with, from
    the new database on, no user has two rows in [verified_users] and none
    has two rows in [verification_requests]: the primary key and the UNIQUE
    constraint of the schema are never violated by an INSERT. *)
Theorem verified_users_stay_distinct (admins : list Z) (v : users_db) :
  users_later admins init_verified_users_db v ->
  NoDup (map vu_user_id (verified_users v)) /\
  NoDup (map req_user_id (verification_requests v)).
Proof.
  intros H. remember init_verified_users_db as v0 eqn:Hinit.
  induction H as [v|v v1 v2 _ IH Hstep]; [subst; split; constructor|].
  destruct (IH Hinit) as [Hu Hr]. clear IH Hinit.
  destruct Hstep as [v1 sender target sent now|v1 user sent now|v1 sender arg sent
                    |v1 user now].
  - unfold verify_user. destruct (negb (in_admins admins sender)); [now split|].
    destruct target as [u|]; [|now split].
    destruct (check_verification_status (tg_id u) v1) eqn:E; [now split|].
    split; [|exact Hr]. cbn [snd verified_users]. rewrite map_app. cbn [map vu_user_id].
    apply nodup_snoc; [exact Hu|].
    intros Hin. apply check_verification_status_in in Hin. congruence.
  - unfold request_verification.
    destruct (check_verification_status (tg_id user) v1); [now split|].
    destruct (requested (tg_id user) v1) eqn:E; [now split|].
    split; [exact Hu|]. cbn [snd verification_requests]. rewrite map_app.
    cbn [map req_user_id]. apply nodup_snoc; [exact Hr|].
    intros Hin. apply requested_in in Hin. congruence.
  - unfold remove_verification. destruct (negb (in_admins admins sender)); [now split|].
    destruct arg as [uid|]; [|now split].
    split; [|exact Hr]. cbn [snd verified_users]. now apply nodup_map_filter.
  - split; [now rewrite verified_only_ids|].
    unfold verified_only. destruct (in_admins admins (tg_id user)); [exact Hr|].
    now destruct (check_verification_status (tg_id user) v1).
Qed.

(** In [ash_verified] ash has one row in each table. *)
Lemma verified_users_stay_distinct_witness :
  NoDup (map vu_user_id (verified_users ash_verified)) /\
  NoDup (map req_user_id (verification_requests ash_verified)).
Proof.
  apply (verified_users_stay_distinct [1]).
  apply (users_later_step _ _ (snd (request_verification ash true 10
                                      init_verified_users_db))).
  - apply (users_later_step _ _ init_verified_users_db).
    + apply users_later_now.
    + apply step_request_verification.
  - apply step_verify_user.
Defined.

(** X20. When an admin answers a user's message with /verify, the user is
    verified afterwards, also when the messages that follow the commit
    fail and the admin is told that the verification failed:
    [check_verification_status] holds, [verified_only] lets the user
    through, and a second /verify answers that the user is already verified
    and writes nothing. *)
Theorem verify_user_admits (admins : list Z) (sender : Z) (target_user : telegram_user)
    (sent : bool) (now : Z) (v : users_db) :
  in_admins admins sender = true ->
  check_verification_status (tg_id target_user)
    (snd (verify_user admins sender (Some target_user) sent now v)) = true /\
  (forall user now',
     tg_id user = tg_id target_user ->
     fst (verified_only admins user now'
            (snd (verify_user admins sender (Some target_user) sent now v))) = true) /\
  (forall sent' now',
     verify_user admins sender (Some target_user) sent' now'
       (snd (verify_user admins sender (Some target_user) sent now v)) =
     (AlreadyVerified, snd (verify_user admins sender (Some target_user) sent now v))).
Proof.
  intros Hadmin.
  assert (H : check_verification_status (tg_id target_user)
                (snd (verify_user admins sender (Some target_user) sent now v)) = true).
  { unfold verify_user. rewrite Hadmin. cbn [negb].
    destruct (check_verification_status (tg_id target_user) v) eqn:E; [exact E|].
    unfold check_verification_status. cbn [snd verified_users].
    rewrite existsb_app. cbn [existsb vu_user_id]. rewrite Z.eqb_refl.
    now rewrite orb_true_r. }
  split; [exact H|]. split.
  - intros user now' Hid. unfold verified_only. rewrite Hid, H.
    now destruct (in_admins admins (tg_id target_user)).
  - intros sent' now'. unfold verify_user at 1. now rewrite Hadmin, H.
Qed.

(** gary is verified by admin 1 while the messages fail. *)
Lemma verify_user_admits_witness :
  check_verification_status 43 (snd (verify_user [1] 1 (Some gary) false 30 ash_verified))
    = true.
Proof.
  now apply (verify_user_admits [1] 1 gary false 30 ash_verified).
Defined.

(** X21. After an admin's /unverify of a user who is not an admin, the user
    is locked out: [check_verification_status] fails, [verified_only]
    refuses the user and writes nothing, and [handle_bid_amount] answers a
    bid of this user, whose [verified] is that refusal, with the demand for
    verification and records nothing; the status of every other user is as
    before. *)
Theorem remove_verification_locks_out (admins : list Z) (sender user_id : Z)
    (sent : bool) (v : users_db) :
  in_admins admins sender = true -> in_admins admins user_id = false ->
  check_verification_status user_id
    (snd (remove_verification admins sender (Some user_id) sent v)) = false /\
  (forall user now,
     tg_id user = user_id ->
     verified_only admins user now
       (snd (remove_verification admins sender (Some user_id) sent v)) =
     (false, snd (remove_verification admins sender (Some user_id) sent v))) /\
  (forall user now m now' s,
     tg_id user = user_id ->
     verified m =
       fst (verified_only admins user now
              (snd (remove_verification admins sender (Some user_id) sent v))) ->
     handle_bid_amount m now' s = (VerificationRequired, s)) /\
  (forall other,
     other <> user_id ->
     check_verification_status other
       (snd (remove_verification admins sender (Some user_id) sent v)) =
     check_verification_status other v).
Proof.
  intros Hadmin Hnot.
  assert (H : check_verification_status user_id
                (snd (remove_verification admins sender (Some user_id) sent v)) = false).
  { unfold remove_verification. rewrite Hadmin.
    unfold check_verification_status. cbn [negb snd verified_users].
    apply not_true_is_false. rewrite existsb_exists. intros (r & Hr & E).
    apply filter_In in Hr as [_ Hr]. rewrite E in Hr. discriminate. }
  assert (Hrefused : forall user now,
            tg_id user = user_id ->
            verified_only admins user now
              (snd (remove_verification admins sender (Some user_id) sent v)) =
            (false, snd (remove_verification admins sender (Some user_id) sent v))).
  { intros user now Hid. unfold verified_only. now rewrite Hid, Hnot, H. }
  split; [exact H|]. split; [exact Hrefused|]. split.
  - intros user now m now' s Hid Hm. rewrite (Hrefused user now Hid) in Hm.
    unfold handle_bid_amount. now rewrite Hm.
  - intros other Hother. unfold remove_verification. rewrite Hadmin.
    unfold check_verification_status. cbn [negb snd verified_users].
    induction (verified_users v) as [|r l IH]; [reflexivity|].
    cbn [filter existsb].
    destruct (Z.eqb_spec (vu_user_id r) user_id) as [E|E]; cbn [negb].
    + rewrite IH. destruct (Z.eqb_spec (vu_user_id r) other); [congruence|reflexivity].
    + cbn [existsb]. now rewrite IH.
Qed.

(** ash is unverified by admin 1 and is refused. *)
Lemma remove_verification_locks_out_witness :
  check_verification_status 42
    (snd (remove_verification [1] 1 (Some 42) true ash_verified)) = false.
Proof.
  now apply (remove_verification_locks_out [1] 1 42 true ash_verified).
Defined.

(** X22. A request for verification is never withdrawn: no handler deletes
    it, not the /verify that grants it nor a later /unverify. So whenever a
    user who once asked is not verified, a new /verify_me is answered as
    pending and writes nothing. *)
Theorem request_outlives_verification (admins : list Z) (v v' : users_db)
    (user : telegram_user) :
  users_later admins v v' -> requested (tg_id user) v = true ->
  requested (tg_id user) v' = true /\
  (check_verification_status (tg_id user) v' = false ->
   forall sent now, request_verification user sent now v' = (RequestPending, v')).
Proof.
  intros Hlater Hreq.
  assert (H : requested (tg_id user) v' = true).
  { induction Hlater as [|v v1 v2 _ IH Hstep]; [exact Hreq|].
    apply (users_step_requests admins v1); auto. }
  split; [exact H|].
  intros Hcheck sent now. unfold request_verification. now rewrite Hcheck, H.
Qed.

(** ash asked, was verified and then unverified: asking again is answered
    as pending. *)
Lemma request_outlives_verification_witness :
  request_verification ash true 40
    (snd (remove_verification [1] 1 (Some 42) true ash_verified)) =
  (RequestPending, snd (remove_verification [1] 1 (Some 42) true ash_verified)).
Proof.
  apply (request_outlives_verification [1]
           (snd (request_verification ash true 10 init_verified_users_db))
           (snd (remove_verification [1] 1 (Some 42) true ash_verified)) ash).
  - apply (users_later_step _ _ ash_verified).
    + apply (users_later_step _ _ (snd (request_verification ash true 10
                                         init_verified_users_db))).
      * apply users_later_now.
      * apply step_verify_user.
    + apply step_remove_verification.
  - reflexivity.
  - reflexivity.
Defined.
